(** * Vote tally and role-eligibility derivation: a shallow embedding

    The development follows the TypeScript sources
      - [src/services/api.ts]                (normalizer, unit conversion),
      - the governance table component       (sort / filter / priority),
      - [src/pages/governance/[hash].tsx]    (legacy overrides, timeline),
    and states the properties of the specification over them.

    Conventions of the embedding:
      - a JavaScript [string] is a [string] of code units below 256;
      - a JSON number is a rational ([Q]) or, for epochs and counts, an
        integer ([Z]); the unit conversion divides by the constant
        1,000,000 exactly;
      - a number the sources compute by adding, dividing or multiplying
        numbers at run time is a [jsnum], and the operation is the
        engine's, a parameter of the definitions: binary64 rounds and
        overflows, and the theorems use of it only the order facts they
        name;
      - the result of [Number(s)] on a string is a [jsnum], which has the
        three non-finite values the code guards against;
      - [undefined]/[null] are [None];
      - [Array.prototype.sort] with the comparator of the table, which
        is consistent, is a stable insertion sort: the language requires
        stability, and every stable sort returns the same array for a
        consistent comparator; with the comparator of the timeline,
        which is not consistent when a timestamp does not parse, the
        sort is the engine's, a parameter of the definitions. *)

From Stdlib Require Import ZArith QArith Qminmax List Bool Ascii String Lia.
From Stdlib Require Import Permutation Sorted DecimalString.
Import ListNotations.

Local Open Scope string_scope.
Local Open Scope Z_scope.

(* ================================================================== *)
(** * JavaScript built-ins used by the sources *)
(* ================================================================== *)

Module JS.

(** ** Numbers produced by [Number(string)] *)

Inductive jsnum : Type :=
| Finite (q : Q)
| NaN
| PosInf
| NegInf.

(** [Number.isFinite] *)
Definition isFinite (n : jsnum) : bool :=
  match n with Finite _ => true | _ => false end.

(** [n / d] for a positive finite constant divisor [d]. *)
Definition div_pos (n : jsnum) (d : Q) : jsnum :=
  match n with
  | Finite q => Finite (q / d)
  | NaN => NaN
  | PosInf => PosInf
  | NegInf => NegInf
  end.

(** ** Truthiness and defaults *)

(** [!s] on an optional string: [undefined] and [""] are falsy. *)
Definition falsy_str (s : option string) : bool :=
  match s with
  | None => true
  | Some EmptyString => true
  | Some _ => false
  end.

(** [a || d] on an optional string. *)
Definition or_str (a : option string) (d : string) : string :=
  match a with
  | Some (String c s) => String c s
  | _ => d
  end.

(** [a ?? d]. *)
Definition nullish {A : Type} (a : option A) (d : A) : A :=
  match a with Some x => x | None => d end.

(** [o?.f] where [f] is an optional field of an optional object. *)
Definition opt_field {A B : Type} (o : option A) (f : A -> option B) : option B :=
  match o with Some x => f x | None => None end.

(** ** Strings *)

Definition is_empty (s : string) : bool :=
  match s with EmptyString => true | _ => false end.

(** [s.startsWith(p)] *)
Fixpoint startsWith (s p : string) : bool :=
  match p, s with
  | EmptyString, _ => true
  | String _ _, EmptyString => false
  | String a p', String b s' => Ascii.eqb a b && startsWith s' p'
  end.

(** [s.includes(sub)] *)
Fixpoint includes (s sub : string) : bool :=
  startsWith s sub ||
  match s with
  | EmptyString => false
  | String _ s' => includes s' sub
  end.

(** [s.includes(c)] for a one-character search string. *)
Fixpoint includes_char (s : string) (c : ascii) : bool :=
  match s with
  | EmptyString => false
  | String a s' => Ascii.eqb a c || includes_char s' c
  end.

(** [s.split(sep)] for a one-character separator.  The result is never
    empty: [String.prototype.split] on the empty string gives [[""]]. *)
Fixpoint split (s : string) (sep : ascii) : list string :=
  match s with
  | EmptyString => [EmptyString]
  | String c s' =>
      if Ascii.eqb c sep then EmptyString :: split s' sep
      else match split s' sep with
           | seg :: segs => String c seg :: segs
           | [] => [String c EmptyString]
           end
  end.

(** White space and line terminators among the code units below 256. *)
Definition isWhiteSpace (c : ascii) : bool :=
  let n := nat_of_ascii c in
  (Nat.eqb n 9 || Nat.eqb n 10 || Nat.eqb n 11 || Nat.eqb n 12
   || Nat.eqb n 13 || Nat.eqb n 32 || Nat.eqb n 160)%bool.

Fixpoint trimStart (s : string) : string :=
  match s with
  | EmptyString => EmptyString
  | String c s' => if isWhiteSpace c then trimStart s' else s
  end.

Fixpoint trimEnd (s : string) : string :=
  match s with
  | EmptyString => EmptyString
  | String c s' =>
      match trimEnd s' with
      | EmptyString => if isWhiteSpace c then EmptyString else String c EmptyString
      | t => String c t
      end
  end.

(** [s.trim()] *)
Definition trim (s : string) : string := trimEnd (trimStart s).

(** [toLowerCase] on one code unit: A-Z and the Latin-1 capitals. *)
Definition lower_char (c : ascii) : ascii :=
  let n := nat_of_ascii c in
  if ((Nat.leb 65 n && Nat.leb n 90)
      || (Nat.leb 192 n && Nat.leb n 222 && negb (Nat.eqb n 215)))%bool
  then ascii_of_nat (n + 32) else c.

(** [s.toLowerCase()] *)
Fixpoint toLowerCase (s : string) : string :=
  match s with
  | EmptyString => EmptyString
  | String c s' => String (lower_char c) (toLowerCase s')
  end.

(** ** [parseInt(s, 10)] *)

Definition digit_of (c : ascii) : option Z :=
  let n := nat_of_ascii c in
  if (Nat.leb 48 n && Nat.leb n 57)%bool then Some (Z.of_nat (n - 48)) else None.

(** Value of the longest prefix of decimal digits, [None] when the
    string does not start with a digit. *)
Fixpoint digits_prefix (acc : option Z) (s : string) : option Z :=
  match s with
  | EmptyString => acc
  | String c s' =>
      match digit_of c with
      | Some d => digits_prefix (Some (10 * nullish acc 0 + d)) s'
      | None => acc
      end
  end.

(** [parseInt(s, 10)]; [None] is [NaN].  [parseInt(undefined, 10)] is
    [NaN] as well ([undefined] is converted to the string "undefined"). *)
Definition parseInt10 (s : string) : option Z :=
  match trimStart s with
  | String "-" r => option_map Z.opp (digits_prefix None r)
  | String "+" r => digits_prefix None r
  | r => digits_prefix None r
  end.

(** ** [Array.prototype.sort] *)

(** The comparator result as the sort sees it: [NaN] counts as [+0]. *)
Definition SortCompare (v : option Z) : Z :=
  match v with Some z => z | None => 0 end.

Section Sort.
Context {A : Type}.
Variable comparefn : A -> A -> Z.

(** [x] goes in front of the first element it does not exceed, so it
    stays in front of the elements it ties with. *)
Fixpoint insert (x : A) (l : list A) : list A :=
  match l with
  | [] => [x]
  | y :: l' => if comparefn x y <=? 0 then x :: l else y :: insert x l'
  end.

Definition sort (l : list A) : list A := fold_right insert [] l.
End Sort.

(** The [sort] method of an engine on arrays of [A]; the comparator
    answers a number, [None] being [NaN]. *)
Definition ArraySort (A : Type) : Type := (A -> A -> option Z) -> list A -> list A.

(** The insertion sort as the [sort] method of an engine. *)
Definition insertionSort {A : Type} : ArraySort A :=
  fun comparefn l => sort (fun a b => SortCompare (comparefn a b)) l.

(** The sort of V8 on an array of fewer than 64 elements, where its Tim
    sort makes a single run: [CountAndMakeRun] takes the run at the
    start of the array, reversed when it descends, and
    [BinaryInsertionSort] puts the other elements into it one by one.
    [comparefn] is the comparator after [SortCompare]. *)
Section BinaryInsertion.
Context {A : Type}.
Variable comparefn : A -> A -> Z.

(** The loop of [CountAndMakeRun]: the elements that continue the run
    after [previousElement], and the elements left. *)
Fixpoint restOfRun (isDescending : bool) (previousElement : A) (l : list A)
  : list A * list A :=
  match l with
  | [] => ([], [])
  | currentElement :: l' =>
      let order := comparefn currentElement previousElement in
      if (if isDescending then 0 <=? order else order <? 0) then ([], l)
      else
        let (run, rest) := restOfRun isDescending currentElement l' in
        (currentElement :: run, rest)
  end.

Definition CountAndMakeRun (l : list A) : list A * list A :=
  match l with
  | elementHigh :: elementLow :: l' =>
      let isDescending := comparefn elementLow elementHigh <? 0 in
      let (run, rest) := restOfRun isDescending elementLow l' in
      (if isDescending then rev (elementHigh :: elementLow :: run)
       else elementHigh :: elementLow :: run,
       rest)
  | _ => (l, [])
  end.

(** The binary search for the place of [pivot] in the sorted part; the
    loop runs at most [fuel] times, and the length of the sorted part
    is enough. *)
Fixpoint searchLeft (fuel : nat) (pivot : A) (sorted : list A) (left right : nat) : nat :=
  match fuel with
  | O => left
  | S fuel' =>
      if (left <? right)%nat then
        let mid := (left + (right - left) / 2)%nat in
        match nth_error sorted mid with
        | Some m =>
            if comparefn pivot m <? 0 then searchLeft fuel' pivot sorted left mid
            else searchLeft fuel' pivot sorted (mid + 1)%nat right
        | None => left
        end
      else left
  end.

Definition insertAt (pivot : A) (sorted : list A) (left : nat) : list A :=
  (firstn left sorted ++ pivot :: skipn left sorted)%list.

Definition BinaryInsertionSort (sorted rest : list A) : list A :=
  fold_left
    (fun sorted pivot =>
       insertAt pivot sorted
                (searchLeft (List.length sorted) pivot sorted 0 (List.length sorted)))
    rest sorted.

Definition binaryInsertion (l : list A) : list A :=
  let (run, rest) := CountAndMakeRun l in BinaryInsertionSort run rest.

End BinaryInsertion.

(** The binary insertion sort as the [sort] method of an engine. *)
Definition binaryInsertionSort {A : Type} : ArraySort A :=
  fun comparefn l => binaryInsertion (fun a b => SortCompare (comparefn a b)) l.

(** ** Array helpers *)

(** [l.map((x, index) => f(x, index))] *)
Fixpoint mapi_from {A B : Type} (i : Z) (f : A -> Z -> B) (l : list A) : list B :=
  match l with
  | [] => []
  | x :: l' => f x i :: mapi_from (i + 1) f l'
  end.

Definition mapi {A B : Type} (f : A -> Z -> B) (l : list A) : list B :=
  mapi_from 0 f l.

(** [l.includes(s)] / [set.has(s)] on strings *)
Definition has (l : list string) (s : string) : bool :=
  existsb (String.eqb s) l.

(** [new Set(l).size] *)
Definition Set_size (l : list string) : nat :=
  List.length (nodup string_dec l).

(** ** Arithmetic on [jsnum]

    The two zeros are one [Finite 0], taken as [+0].  Comparisons are
    exact in the engine.  [jsadd], [jsmul] and [jsdiv] are the
    operations without rounding: what the engine returns whenever the
    exact result is a binary64 number, as with integers below 2^53.
    They stand for the engine's operations in examples. *)

(** [a <= b] *)
Definition jsle (a b : jsnum) : bool :=
  match a, b with
  | NaN, _ | _, NaN => false
  | Finite x, Finite y => Qle_bool x y
  | NegInf, _ => true
  | _, PosInf => true
  | PosInf, Finite _ | PosInf, NegInf | Finite _, NegInf => false
  end.

Definition jsneg (n : jsnum) : jsnum :=
  match n with
  | Finite q => Finite (- q)
  | NaN => NaN
  | PosInf => NegInf
  | NegInf => PosInf
  end.

(** The infinity with the sign of [q] times the sign of [inf], [NaN] for
    a zero [q]. *)
Definition signed_inf (q : Q) (inf : jsnum) : jsnum :=
  if Qeq_bool q 0 then NaN
  else if Qle_bool q 0 then jsneg inf else inf.

(** [a + b] without rounding *)
Definition jsadd (a b : jsnum) : jsnum :=
  match a, b with
  | NaN, _ | _, NaN => NaN
  | Finite x, Finite y => Finite (x + y)
  | PosInf, NegInf | NegInf, PosInf => NaN
  | PosInf, _ | _, PosInf => PosInf
  | NegInf, _ | _, NegInf => NegInf
  end.

(** [a * b] without rounding *)
Definition jsmul (a b : jsnum) : jsnum :=
  match a, b with
  | NaN, _ | _, NaN => NaN
  | Finite x, Finite y => Finite (x * y)
  | Finite x, PosInf | PosInf, Finite x => signed_inf x PosInf
  | Finite x, NegInf | NegInf, Finite x => signed_inf x NegInf
  | PosInf, PosInf | NegInf, NegInf => PosInf
  | PosInf, NegInf | NegInf, PosInf => NegInf
  end.

(** [a / b] without rounding *)
Definition jsdiv (a b : jsnum) : jsnum :=
  match a, b with
  | NaN, _ | _, NaN => NaN
  | Finite x, Finite y =>
      if Qeq_bool y 0 then signed_inf x PosInf else Finite (x / y)
  | Finite _, PosInf | Finite _, NegInf => Finite 0
  | PosInf, Finite y => if Qle_bool 0 y then PosInf else NegInf
  | NegInf, Finite y => if Qle_bool 0 y then NegInf else PosInf
  | PosInf, PosInf | PosInf, NegInf | NegInf, PosInf | NegInf, NegInf => NaN
  end.

(** ** [Array.from(new Set(l))]: the first occurrence of each element,
    in order of insertion. *)
Fixpoint uniq_from (seen l : list string) : list string :=
  match l with
  | [] => []
  | x :: l' =>
      if has seen x then uniq_from seen l' else x :: uniq_from (x :: seen) l'
  end.

Definition Array_from_Set (l : list string) : list string := uniq_from [] l.

End JS.

Import JS.

(* ================================================================== *)
(** * [@/lib/voteMath] *)
(* ================================================================== *)

Module VoteMath.

Local Open Scope Q_scope.

(** Modelled from the spec: [deriveAbstainValue] of [@/lib/voteMath];
    the module is imported by the table and detail views but is not
    among the sources.  Section 4.2: a missing operand is [0]; with
    [yesPercent + noPercent > 0] the implied total is
    [(yesValue + noValue) / (yesPercent + noPercent) * 100] and the
    abstain value is [total * abstainPercent / 100], the abstain
    percentage being the explicit one when provided and the complement
    of yes+no otherwise; with no positive yes+no percentage the value
    is [0]; the result is floored at [0]. *)
Definition deriveAbstainValue
    (yesValue yesPercent noValue noPercent abstainPercentOpt : option Q) : Q :=
  let yesV := nullish yesValue 0 in
  let noV := nullish noValue 0 in
  let pct := nullish yesPercent 0 + nullish noPercent 0 in
  if Qle_bool pct 0 then 0
  else
    let total := (yesV + noV) / pct * 100 in
    let abstainPercent :=
      match abstainPercentOpt with
      | Some a => a
      | None => 100 - pct
      end in
    Qmax 0 (total * abstainPercent / 100).

(** The unfloored value the specification gives for an explicit abstain
    percentage. *)
Definition impliedAbstain
    (yesValue yesPercent noValue noPercent : option Q) (abstainPercent : Q) : Q :=
  ((nullish yesValue 0 + nullish noValue 0)
     / (nullish yesPercent 0 + nullish noPercent 0) * 100)
  * abstainPercent / 100.

End VoteMath.

(* ================================================================== *)
(** * [src/services/api.ts] *)
(* ================================================================== *)

Module Api.

(** Per-role tally of DReps and SPOs as the backend sends it, with the
    three derived ADA fields the normalizer adds. *)
Record RoleTally : Type := mkRoleTally {
  yesPercent : option Q;
  noPercent : option Q;
  abstainPercent : option Q;
  yesLovelace : option string;
  noLovelace : option string;
  abstainLovelace : option string;
  yesAda : option jsnum;
  noAda : option jsnum;
  abstainAda : option jsnum
}.

(** Tally of the constitutional committee: percentages and counts. *)
Record CcTally : Type := mkCcTally {
  cc_yesPercent : option Q;
  cc_noPercent : option Q;
  cc_abstainPercent : option Q;
  cc_yesCount : option Z;
  cc_noCount : option Z;
  cc_abstainCount : option Z
}.

Record Threshold : Type := mkThreshold {
  spoThreshold : option Q
}.

Record GovernanceAction : Type := mkGovernanceAction {
  hash : string;
  proposalId : option string;
  txHash : option string;
  title : option string;
  type : string;
  status : string;
  constitutionality : option string;
  drepYesPercent : option Q;
  drepNoPercent : option Q;
  drepAbstainPercent : option Q;
  drepYesAda : option jsnum;
  drepNoAda : option jsnum;
  drepAbstainAda : option jsnum;
  spoYesPercent : option Q;
  spoNoPercent : option Q;
  spoAbstainPercent : option Q;
  spoYesAda : option jsnum;
  spoNoAda : option jsnum;
  spoAbstainAda : option jsnum;
  ccYesPercent : option Q;
  ccNoPercent : option Q;
  ccAbstainPercent : option Q;
  ccYesCount : option Z;
  ccNoCount : option Z;
  ccAbstainCount : option Z;
  totalYes : option Z;
  totalNo : option Z;
  totalAbstain : option Z;
  submissionEpoch : option Z;
  expiryEpoch : option Z;
  threshold : option Threshold;
  votingStatus : option string;
  drep : option RoleTally;
  spo : option RoleTally;
  cc : option CcTally
}.

Record VoteRecord : Type := mkVoteRecord {
  voterType : string;
  voterId : option string;
  voterName : option string;
  drepId : option string;
  drepName : option string;
  vote : string;
  votingPower : option string;
  votingPowerAda : option Q;
  anchorUrl : option string;
  anchorHash : option string;
  votedAt : option string
}.

Record GovernanceActionDetail : Type := mkGovernanceActionDetail {
  base : GovernanceAction;
  description : option string;
  rationale : option string;
  votes : option (list VoteRecord);
  ccVotes : option (list VoteRecord)
}.

Section WithNumber.

(** The built-in [Number] applied to a string. *)
Variable Number : string -> jsnum.

(** [lovelaceToAda] *)
Definition lovelaceToAda (lovelace : string) : jsnum :=
  div_pos (Number lovelace) (1000000 # 1).

(** [lovelaceToAdaNumber] *)
Definition lovelaceToAdaNumber (lovelace : option string) : jsnum :=
  match lovelace with
  | None => Finite 0
  | Some s =>
      if is_empty s then Finite 0
      else
        let adaValue := div_pos (Number s) (1000000 # 1) in
        if isFinite adaValue then adaValue else Finite 0
  end.

(** [transformGovernanceAction] *)
Definition transformGovernanceAction (action : GovernanceAction) : GovernanceAction :=
  let drepYesAda' := lovelaceToAdaNumber (opt_field (drep action) yesLovelace) in
  let drepNoAda' := lovelaceToAdaNumber (opt_field (drep action) noLovelace) in
  let drepAbstainAda' := lovelaceToAdaNumber (opt_field (drep action) abstainLovelace) in
  let spoYesAda' :=
    match spo action with
    | Some s => Some (lovelaceToAdaNumber (yesLovelace s))
    | None => None
    end in
  let spoNoAda' :=
    match spo action with
    | Some s => Some (lovelaceToAdaNumber (noLovelace s))
    | None => None
    end in
  let spoAbstainAda' :=
    match spo action with
    | Some s => Some (lovelaceToAdaNumber (abstainLovelace s))
    | None => None
    end in
  {| hash := hash action;
     proposalId := proposalId action;
     txHash := txHash action;
     title := Some (or_str (title action) "Untitled Proposal");
     type := type action;
     status := status action;
     constitutionality := Some (or_str (constitutionality action) "Unspecified");
     drepYesPercent := Some (nullish (opt_field (drep action) yesPercent) 0%Q);
     drepNoPercent := Some (nullish (opt_field (drep action) noPercent) 0%Q);
     drepAbstainPercent := Some (nullish (opt_field (drep action) abstainPercent) 0%Q);
     drepYesAda := Some drepYesAda';
     drepNoAda := Some drepNoAda';
     drepAbstainAda := Some drepAbstainAda';
     spoYesPercent := opt_field (spo action) yesPercent;
     spoNoPercent := opt_field (spo action) noPercent;
     spoAbstainPercent := opt_field (spo action) abstainPercent;
     spoYesAda := spoYesAda';
     spoNoAda := spoNoAda';
     spoAbstainAda := spoAbstainAda';
     ccYesPercent := opt_field (cc action) cc_yesPercent;
     ccNoPercent := opt_field (cc action) cc_noPercent;
     ccAbstainPercent := opt_field (cc action) cc_abstainPercent;
     ccYesCount := opt_field (cc action) cc_yesCount;
     ccNoCount := opt_field (cc action) cc_noCount;
     ccAbstainCount := opt_field (cc action) cc_abstainCount;
     totalYes := Some (nullish (totalYes action) 0);
     totalNo := Some (nullish (totalNo action) 0);
     totalAbstain := Some (nullish (totalAbstain action) 0);
     submissionEpoch := Some (nullish (submissionEpoch action) 0);
     expiryEpoch := Some (nullish (expiryEpoch action) 0);
     threshold := threshold action;
     votingStatus := votingStatus action;
     drep :=
       match drep action with
       | Some d =>
           Some {| yesPercent := yesPercent d;
                   noPercent := noPercent d;
                   abstainPercent := abstainPercent d;
                   yesLovelace := yesLovelace d;
                   noLovelace := noLovelace d;
                   abstainLovelace := abstainLovelace d;
                   yesAda := Some drepYesAda';
                   noAda := Some drepNoAda';
                   abstainAda := Some drepAbstainAda' |}
       | None => None
       end;
     spo :=
       match spo action with
       | Some s =>
           Some {| yesPercent := yesPercent s;
                   noPercent := noPercent s;
                   abstainPercent := abstainPercent s;
                   yesLovelace := yesLovelace s;
                   noLovelace := noLovelace s;
                   abstainLovelace := abstainLovelace s;
                   yesAda := spoYesAda';
                   noAda := spoNoAda';
                   abstainAda := spoAbstainAda' |}
       | None => None
       end;
     cc := cc action |}.

(** [a || b] on optional strings. *)
Definition or_opt (a b : option string) : option string :=
  if falsy_str a then b else a.

(** [transformVoteRecord] *)
Definition transformVoteRecord (v : VoteRecord) : VoteRecord :=
  {| voterType := voterType v;
     voterId := voterId v;
     voterName := voterName v;
     drepId := or_opt (voterId v) (drepId v);
     drepName := or_opt (or_opt (voterName v) (voterId v)) (drepName v);
     vote := vote v;
     votingPower := Some (nullish (votingPower v) "0");
     votingPowerAda := Some (nullish (votingPowerAda v) 0%Q);
     anchorUrl := anchorUrl v;
     anchorHash := anchorHash v;
     votedAt := votedAt v |}.

(** [transformGovernanceActionDetail] *)
Definition transformGovernanceActionDetail
    (detail : GovernanceActionDetail) : GovernanceActionDetail :=
  {| base := transformGovernanceAction (base detail);
     description := description detail;
     rationale := rationale detail;
     votes := Some (nullish (option_map (map transformVoteRecord) (votes detail)) []);
     ccVotes := Some (nullish (option_map (map transformVoteRecord) (ccVotes detail)) []) |}.

End WithNumber.

(** The decimal-integer literals of [Number]: optional white space, an
    optional sign and decimal digits.  The empty (or blank) string is
    [0]; the three spellings of infinity are recognised; strings outside
    this fragment are mapped to [NaN] here. *)
Fixpoint all_digits (s : string) : bool :=
  match s with
  | EmptyString => true
  | String c s' =>
      match digit_of c with Some _ => all_digits s' | None => false end
  end.

Definition decimalNumber (s : string) : jsnum :=
  let t := trim s in
  if is_empty t then Finite 0
  else if String.eqb t "Infinity" || String.eqb t "+Infinity" then PosInf
  else if String.eqb t "-Infinity" then NegInf
  else
    let body :=
      match t with
      | String "-" r => r
      | String "+" r => r
      | r => r
      end in
    if negb (is_empty body) && all_digits body then
      match parseInt10 t with
      | Some z => Finite (inject_Z z)
      | None => NaN
      end
    else NaN.

End Api.

(* ================================================================== *)
(** * The governance table: sort, filter, priority *)
(* ================================================================== *)

Module GovernanceTable.

(** A call either returns or raises a [TypeError] (a method called on
    [undefined]). *)
Inductive result (A : Type) : Type :=
| Ok (a : A)
| TypeError.
Arguments Ok {A} a.
Arguments TypeError {A}.

Definition SHOWCASE_ORDER : list string :=
  [ "NoConfidence"; "UpdateCommittee"; "NewConstitution"; "HardForkInitiation";
    "ParameterChange"; "Treasury"; "InfoAction" ].

(** Modelled from the spec: the constant [PROPOSAL_TYPES] of
    [@/types/governance], which is not among the sources; section 3
    gives the fixed enumeration of proposal types. *)
Definition PROPOSAL_TYPES : list string :=
  [ "NoConfidence"; "UpdateCommittee"; "NewConstitution"; "HardForkInitiation";
    "ParameterChange"; "Treasury"; "InfoAction" ].

(** [STATUS_OPTIONS] of the governance slice. *)
Definition STATUS_OPTIONS : list string :=
  [ "Active"; "Ratified"; "Expired"; "Approved"; "Not approved" ].

(** The body of each [if (hash.includes(sep))] block of
    [parseProposalHash]; [None] when the block falls through. *)
Definition parseWith (sep : ascii) (hash : string) : option (string * Z) :=
  if includes_char hash sep then
    match split hash sep with
    | txHash :: certIndexStr :: _ =>
        match parseInt10 certIndexStr with
        | Some certIndex =>
            if negb (is_empty txHash) then Some (txHash, certIndex) else None
        | None => None
        end
    | _ => None
    end
  else None.

(** [parseProposalHash] *)
Definition parseProposalHash (hash : string) : option (string * Z) :=
  if is_empty hash then None
  else
    match parseWith ":" hash with
    | Some r => Some r
    | None =>
        match parseWith "#" hash with
        | Some r => Some r
        | None => None
        end
    end.

(** The comparator of [sortedActions]. *)
Definition compareActions (a b : Api.GovernanceAction) : Z :=
  let epochA := nullish (Api.submissionEpoch a) 0 in
  let epochB := nullish (Api.submissionEpoch b) 0 in
  if epochA =? epochB
  then nullish (Api.expiryEpoch b) 0 - nullish (Api.expiryEpoch a) 0
  else epochB - epochA.

(** [sortedActions] *)
Definition sortedActions (actions : list Api.GovernanceAction) : list Api.GovernanceAction :=
  sort compareActions actions.

(** [list.filter(p)] for a predicate that may raise. *)
Fixpoint filter_result {A : Type} (p : A -> result bool) (l : list A) : result (list A) :=
  match l with
  | [] => Ok []
  | x :: l' =>
      match p x with
      | TypeError => TypeError
      | Ok b =>
          match filter_result p l' with
          | TypeError => TypeError
          | Ok r => Ok (if b then x :: r else r)
          end
      end
  end.

(** [applySearch] *)
Definition applySearch (searchQuery : string) (actions : list Api.GovernanceAction)
  : result (list Api.GovernanceAction) :=
  if is_empty (trim searchQuery) then Ok actions
  else
    let q := toLowerCase searchQuery in
    filter_result
      (fun action =>
         match Api.title action with
         | Some t => Ok (includes (toLowerCase t) q)
         | None => TypeError
         end)
      actions.

(** [prioritized.filter(Boolean)] *)
Fixpoint filter_defined {A : Type} (l : list (option A)) : list A :=
  match l with
  | [] => []
  | Some x :: l' => x :: filter_defined l'
  | None :: l' => filter_defined l'
  end.

Definition allTypesSelected (selectedTypes : list string) : bool :=
  Nat.eqb (Set_size selectedTypes) (List.length PROPOSAL_TYPES).

(** [filteredActions], as a function of the memoised [sortedActions]. *)
Definition filteredActions (sortedActions : list Api.GovernanceAction)
    (selectedTypes selectedStatuses : list string) (searchQuery : string)
  : result (list Api.GovernanceAction) :=
  if Nat.eqb (List.length sortedActions) 0 then Ok []
  else
    let statusFiltered :=
      filter (fun action => has selectedStatuses (Api.status action)) sortedActions in
    let prioritized :=
      map (fun type => find (fun action => String.eqb (Api.type action) type) statusFiltered)
          (filter (fun type => has selectedTypes type) SHOWCASE_ORDER) in
    let dedupedPrioritized := filter_defined prioritized in
    if negb (Nat.eqb (List.length dedupedPrioritized) 0) then
      if allTypesSelected selectedTypes then
        let extras :=
          filter (fun action => negb (has SHOWCASE_ORDER (Api.type action))) statusFiltered in
        applySearch searchQuery (dedupedPrioritized ++ extras)%list
      else applySearch searchQuery dedupedPrioritized
    else
      let baseFiltered :=
        filter (fun action =>
                  if negb (has SHOWCASE_ORDER (Api.type action))
                  then allTypesSelected selectedTypes
                  else has selectedTypes (Api.type action))
               statusFiltered in
      applySearch searchQuery baseFiltered.

(** The rows of the table for the actions of the store. *)
Definition tableRows (actions : list Api.GovernanceAction)
    (selectedTypes selectedStatuses : list string) (searchQuery : string)
  : result (list Api.GovernanceAction) :=
  filteredActions (sortedActions actions) selectedTypes selectedStatuses searchQuery.

End GovernanceTable.

(* ================================================================== *)
(** * The filter slice of the store and the handlers of the table *)
(* ================================================================== *)

Module GovernanceSlice.

(** [GovernanceFilters] *)
Record GovernanceFilters : Type := mkGovernanceFilters {
  selectedTypes : list string;
  selectedStatuses : list string;
  type : string;
  searchQuery : string;
  voteFilter : string
}.

(** [initialState.filters] *)
Definition initialFilters : GovernanceFilters :=
  {| selectedTypes := GovernanceTable.PROPOSAL_TYPES;
     selectedStatuses := GovernanceTable.STATUS_OPTIONS;
     type := "All";
     searchQuery := "";
     voteFilter := "All" |}.

(** The reducers that touch [state.filters], as functions of the payload
    and the filters. *)
Definition setSelectedTypes (payload : list string) (filters : GovernanceFilters)
  : GovernanceFilters :=
  {| selectedTypes := Array_from_Set payload;
     selectedStatuses := selectedStatuses filters;
     type := type filters;
     searchQuery := searchQuery filters;
     voteFilter := voteFilter filters |}.

Definition setSelectedStatuses (payload : list string) (filters : GovernanceFilters)
  : GovernanceFilters :=
  {| selectedTypes := selectedTypes filters;
     selectedStatuses := Array_from_Set payload;
     type := type filters;
     searchQuery := searchQuery filters;
     voteFilter := voteFilter filters |}.

Definition setTypeFilter (payload : string) (filters : GovernanceFilters)
  : GovernanceFilters :=
  {| selectedTypes := selectedTypes filters;
     selectedStatuses := selectedStatuses filters;
     type := payload;
     searchQuery := searchQuery filters;
     voteFilter := voteFilter filters |}.

Definition setSearchQuery (payload : string) (filters : GovernanceFilters)
  : GovernanceFilters :=
  {| selectedTypes := selectedTypes filters;
     selectedStatuses := selectedStatuses filters;
     type := type filters;
     searchQuery := payload;
     voteFilter := voteFilter filters |}.

Definition setVoteFilter (payload : string) (filters : GovernanceFilters)
  : GovernanceFilters :=
  {| selectedTypes := selectedTypes filters;
     selectedStatuses := selectedStatuses filters;
     type := type filters;
     searchQuery := searchQuery filters;
     voteFilter := payload |}.

Definition resetFilters (filters : GovernanceFilters) : GovernanceFilters :=
  initialFilters.

End GovernanceSlice.

Module TableFilters.

(** [item !== type] on the elements of a selection. *)
Definition without (selection : list string) (item : string) : list string :=
  filter (fun other => negb (String.eqb other item)) selection.

(** [isAllSelected] *)
Definition isAllSelected (filters : GovernanceSlice.GovernanceFilters) : bool :=
  Nat.eqb (List.length (GovernanceSlice.selectedTypes filters))
          (List.length GovernanceTable.PROPOSAL_TYPES).

(** [isAllStatusesSelected] *)
Definition isAllStatusesSelected (filters : GovernanceSlice.GovernanceFilters) : bool :=
  Nat.eqb (List.length (GovernanceSlice.selectedStatuses filters))
          (List.length GovernanceTable.STATUS_OPTIONS).

(** [handleToggleType] *)
Definition handleToggleType (type : string) (filters : GovernanceSlice.GovernanceFilters)
  : GovernanceSlice.GovernanceFilters :=
  let selectedTypes := GovernanceSlice.selectedTypes filters in
  let isChecked := has selectedTypes type in
  let nextSelection :=
    if isChecked then without selectedTypes type
    else (selectedTypes ++ [type])%list in
  GovernanceSlice.setSelectedTypes nextSelection filters.

(** [handleSelectAll] *)
Definition handleSelectAll (filters : GovernanceSlice.GovernanceFilters)
  : GovernanceSlice.GovernanceFilters :=
  GovernanceSlice.setSelectedTypes GovernanceTable.PROPOSAL_TYPES filters.

(** [handleToggleAll] *)
Definition handleToggleAll (checked : bool) (filters : GovernanceSlice.GovernanceFilters)
  : GovernanceSlice.GovernanceFilters :=
  if checked then handleSelectAll filters
  else GovernanceSlice.setSelectedTypes [] filters.

(** [handleToggleStatus] *)
Definition handleToggleStatus (status : string) (filters : GovernanceSlice.GovernanceFilters)
  : GovernanceSlice.GovernanceFilters :=
  let selectedStatuses := GovernanceSlice.selectedStatuses filters in
  let isChecked := has selectedStatuses status in
  let nextSelection :=
    if isChecked then without selectedStatuses status
    else (selectedStatuses ++ [status])%list in
  GovernanceSlice.setSelectedStatuses nextSelection filters.

(** [handleSelectAllStatuses] *)
Definition handleSelectAllStatuses (filters : GovernanceSlice.GovernanceFilters)
  : GovernanceSlice.GovernanceFilters :=
  GovernanceSlice.setSelectedStatuses GovernanceTable.STATUS_OPTIONS filters.

(** [handleToggleAllStatuses] *)
Definition handleToggleAllStatuses (checked : bool)
    (filters : GovernanceSlice.GovernanceFilters) : GovernanceSlice.GovernanceFilters :=
  if checked then handleSelectAllStatuses filters
  else GovernanceSlice.setSelectedStatuses [] filters.

(** The rows the table shows for the store's actions and filters and
    the query typed into the search box. *)
Definition rows (actions : list Api.GovernanceAction)
    (filters : GovernanceSlice.GovernanceFilters) (searchQuery : string)
  : GovernanceTable.result (list Api.GovernanceAction) :=
  GovernanceTable.tableRows actions (GovernanceSlice.selectedTypes filters)
    (GovernanceSlice.selectedStatuses filters) searchQuery.

End TableFilters.

(* ================================================================== *)
(** * [src/pages/governance/[hash].tsx] *)
(* ================================================================== *)

Module GovernanceDetail.

(** The body of each [if (hash.includes(sep))] block of
    [parseProposalHash]; [None] when the block falls through. *)
Definition parseWith (sep : ascii) (hash : string) : option (string * Z) :=
  if includes_char hash sep then
    match split hash sep with
    | txHash :: certIndexStr :: _ =>
        match parseInt10 certIndexStr with
        | Some certIndex =>
            if negb (is_empty txHash) then Some (txHash, certIndex) else None
        | None => None
        end
    | _ => None
    end
  else None.

(** [parseProposalHash] *)
Definition parseProposalHash (hash : string) : option (string * Z) :=
  if is_empty hash then None
  else
    match parseWith ":" hash with
    | Some r => Some r
    | None =>
        match parseWith "#" hash with
        | Some r => Some r
        | None => None
        end
    end.

Definition LEGACY_NON_APPLICABLE_DREP_ACTIONS : list string :=
  [ "gov_action1k2jertppnnndejjcglszfqq4yzw8evzrd2nt66rr6rqlz54xp0zsq05ecsn";
    "gov_action1286ft23r7jem825s4l0y5rn8sgam0tz2ce04l7a38qmnhp3l9a6qqn850dw";
    "gov_action1pvv5wmjqhwa4u85vu9f4ydmzu2mgt8n7et967ph2urhx53r70xusqnmm525" ].

Definition LEGACY_NON_APPLICABLE_SPO_ACTIONS : list string :=
  [ "gov_action1k2jertppnnndejjcglszfqq4yzw8evzrd2nt66rr6rqlz54xp0zsq05ecsn";
    "gov_action1286ft23r7jem825s4l0y5rn8sgam0tz2ce04l7a38qmnhp3l9a6qqn850dw" ].

Definition LEGACY_NON_APPLICABLE_CC_ACTIONS : list string := [].

Definition CC_NOT_APPLICABLE_TYPES : list string :=
  [ "No Confidence"; "Update Committee" ].

Definition SPO_NOT_APPLICABLE_TYPES : list string :=
  [ "New Constitution"; "Protocol Parameter Change"; "Treasury Withdrawals" ].

(** [ids.some((actionId) => hash === actionId || hash.includes(actionId))] *)
Definition onList (ids : list string) (hash : string) : bool :=
  existsb (fun actionId => String.eqb hash actionId || includes hash actionId) ids.

(** [isLegacyAction] *)
Definition isLegacyAction (hash : string) : bool :=
  let legacyActions :=
    (LEGACY_NON_APPLICABLE_DREP_ACTIONS
       ++ LEGACY_NON_APPLICABLE_SPO_ACTIONS
       ++ LEGACY_NON_APPLICABLE_CC_ACTIONS)%list in
  onList legacyActions hash.

(** [isCcNotApplicable] *)
Definition isCcNotApplicable (action : Api.GovernanceActionDetail) : bool :=
  let a := Api.base action in
  if onList LEGACY_NON_APPLICABLE_CC_ACTIONS (Api.hash a) then true
  else if negb (isLegacyAction (Api.hash a)) then has CC_NOT_APPLICABLE_TYPES (Api.type a)
  else false.

(** [isDrepNotApplicable] *)
Definition isDrepNotApplicable (action : Api.GovernanceActionDetail) : bool :=
  let a := Api.base action in
  if onList LEGACY_NON_APPLICABLE_DREP_ACTIONS (Api.hash a) then true
  else false.

(** [isSpoNotApplicable] *)
Definition isSpoNotApplicable (action : Api.GovernanceActionDetail) : bool :=
  let a := Api.base action in
  if onList LEGACY_NON_APPLICABLE_SPO_ACTIONS (Api.hash a) then true
  else if negb (isLegacyAction (Api.hash a)) then has SPO_NOT_APPLICABLE_TYPES (Api.type a)
  else false.

(** ** The vote timeline *)

(** A [Date] object, observed through [getTime()]; [None] is the [NaN]
    of an invalid date. *)
Record Date : Type := mkDate { getTime : option Z }.

Record TimelinePoint : Type := mkTimelinePoint {
  label : string;
  yesCount : Z;
  noCount : Z;
  abstainCount : Z;
  yesPower : jsnum;
  noPower : jsnum;
  abstainPower : jsnum
}.

(** [RoleFilter]: ["All"] or a voter type. *)
Inductive RoleFilter : Type :=
| All
| Role (voterType : string).

(** A vote with the two fields the timeline attaches to it. *)
Record DatedVote : Type := mkDatedVote {
  record : Api.VoteRecord;
  date : option Date;
  fallbackIndex : Z
}.

(** The six closure variables of the accumulation. *)
Record Totals : Type := mkTotals {
  t_yesCount : Z;
  t_noCount : Z;
  t_abstainCount : Z;
  t_yesPower : jsnum;
  t_noPower : jsnum;
  t_abstainPower : jsnum
}.

Definition zeroTotals : Totals := mkTotals 0 0 0 (Finite 0) (Finite 0) (Finite 0).

(** [allVotes] *)
Definition allVotes (selectedAction : option Api.GovernanceActionDetail)
  : list Api.VoteRecord :=
  match selectedAction with
  | None => []
  | Some a => (nullish (Api.votes a) [] ++ nullish (Api.ccVotes a) [])%list
  end.

(** [n || 0] on an optional number. *)
Definition or_zero (n : option Q) : Q :=
  match n with
  | Some q => if Qeq_bool q 0 then 0%Q else q
  | None => 0%Q
  end.

(** The comparator of the timeline sort; [None] is [NaN]. *)
Definition compareVotes (a b : DatedVote) : option Z :=
  match date a, date b with
  | Some da, Some db =>
      match getTime da, getTime db with
      | Some ta, Some tb => Some (ta - tb)
      | _, _ => None
      end
  | Some _, None => Some (-1)
  | None, Some _ => Some 1
  | None, None => Some (fallbackIndex a - fallbackIndex b)
  end.

Section WithEngine.

(** [new Date(s)] *)
Variable newDate : string -> Date.
(** [date.toLocaleString(undefined, {month, day, hour, minute})] *)
Variable toLocaleString : Z -> string.
(** [Array.prototype.sort] on the dated votes *)
Variable arraySort : ArraySort DatedVote.
(** [a + b] on numbers *)
Variable add : jsnum -> jsnum -> jsnum.

(** One turn of the [switch] on [vote.vote]. *)
Definition accumulate (t : Totals) (v : DatedVote) : Totals :=
  let power := Finite (or_zero (Api.votingPowerAda (record v))) in
  if String.eqb (Api.vote (record v)) "Yes" then
    mkTotals (t_yesCount t + 1) (t_noCount t) (t_abstainCount t)
             (add (t_yesPower t) power) (t_noPower t) (t_abstainPower t)
  else if String.eqb (Api.vote (record v)) "No" then
    mkTotals (t_yesCount t) (t_noCount t + 1) (t_abstainCount t)
             (t_yesPower t) (add (t_noPower t) power) (t_abstainPower t)
  else
    mkTotals (t_yesCount t) (t_noCount t) (t_abstainCount t + 1)
             (t_yesPower t) (t_noPower t) (add (t_abstainPower t) power).

(** [roleFilteredVotes] *)
Definition roleFilteredVotes (allVotes : list Api.VoteRecord)
    (curveRoleFilter : RoleFilter) : list Api.VoteRecord :=
  match curveRoleFilter with
  | All => allVotes
  | Role r => filter (fun vote => String.eqb (Api.voterType vote) r) allVotes
  end.

(** The [map] that attaches [date] and [fallbackIndex]. *)
Definition withDate (vote : Api.VoteRecord) (index : Z) : DatedVote :=
  {| record := vote;
     date := if falsy_str (Api.votedAt vote) then None
             else Some (newDate (nullish (Api.votedAt vote) ""));
     fallbackIndex := index |}.

(** [votesWithDates] *)
Definition votesWithDates (votes : list Api.VoteRecord) : list DatedVote :=
  arraySort compareVotes (mapi withDate votes).

(** The label of a point. *)
Definition pointLabel (v : DatedVote) (index : Z) : string :=
  match date v with
  | Some d =>
      match getTime d with
      | Some t => toLocaleString t
      | None => "Vote " ++ NilZero.string_of_int (Z.to_int (index + 1))
      end
  | None => "Vote " ++ NilZero.string_of_int (Z.to_int (index + 1))
  end.

(** The final [map]: the totals are threaded from one call of the
    callback to the next. *)
Fixpoint walk (t : Totals) (index : Z) (l : list DatedVote) : list TimelinePoint :=
  match l with
  | [] => []
  | v :: l' =>
      let t' := accumulate t v in
      {| label := pointLabel v index;
         yesCount := t_yesCount t';
         noCount := t_noCount t';
         abstainCount := t_abstainCount t';
         yesPower := t_yesPower t';
         noPower := t_noPower t';
         abstainPower := t_abstainPower t' |}
        :: walk t' (index + 1) l'
  end.

(** [voteTimelineData] *)
Definition voteTimelineData (allVotes : list Api.VoteRecord)
    (curveRoleFilter : RoleFilter) : list TimelinePoint :=
  let votes := roleFilteredVotes allVotes curveRoleFilter in
  if Nat.eqb (List.length votes) 0 then []
  else walk zeroTotals 0 (votesWithDates votes).

End WithEngine.

(** A date reader for examples: the string is a count of milliseconds
    in decimal; anything else is an invalid date. *)
Definition millisDate (s : string) : Date :=
  {| getTime := if Api.all_digits s then parseInt10 s else None |}.

Definition millisLabel (t : Z) : string :=
  "t=" ++ NilZero.string_of_int (Z.to_int t).

(** ** The description preview *)

Record DescriptionPreview : Type := mkDescriptionPreview {
  full : string;
  preview : string;
  shouldTruncate : bool
}.

(** [descriptionPreview] *)
Definition descriptionPreview (selectedAction : option Api.GovernanceActionDetail)
  : option DescriptionPreview :=
  let description := opt_field selectedAction Api.description in
  if falsy_str description then None
  else
    let description := nullish description "" in
    let maxPreviewLength := 200%nat in
    let shouldTruncate' := Nat.ltb maxPreviewLength (String.length description) in
    Some {| full := description;
            preview := if shouldTruncate'
                       then substring 0 maxPreviewLength description ++ "..."
                       else description;
            shouldTruncate := shouldTruncate' |}.

(** ** Abstain statistics *)

Record AbstainStats : Type := mkAbstainStats {
  percent : jsnum;
  power : jsnum
}.

Section WithArithmetic.

(** [a + b], [a / b] and [a * b] on numbers *)
Variable add : jsnum -> jsnum -> jsnum.
Variable div : jsnum -> jsnum -> jsnum.
Variable mul : jsnum -> jsnum -> jsnum.

(** [votes.reduce((sum, v) => sum + (v.votingPowerAda || 0), 0)] *)
Definition sumPower (votes : list Api.VoteRecord) : jsnum :=
  fold_left (fun sum v => add sum (Finite (or_zero (Api.votingPowerAda v)))) votes
            (Finite 0).

(** The body shared by [drepAbstainStats] and [spoAbstainStats]. *)
Definition abstainStatsOf (role : string) (allVotes : list Api.VoteRecord) : AbstainStats :=
  let roleVotes := filter (fun v => String.eqb (Api.voterType v) role) allVotes in
  let totalPower := sumPower roleVotes in
  if jsle totalPower (Finite 0) then {| percent := Finite 0; power := Finite 0 |}
  else
    let abstainPower :=
      sumPower (filter (fun v => String.eqb (Api.vote v) "Abstain") roleVotes) in
    {| percent := mul (div abstainPower totalPower) (Finite (100 # 1));
       power := abstainPower |}.

(** [drepAbstainStats] *)
Definition drepAbstainStats (allVotes : list Api.VoteRecord) : AbstainStats :=
  abstainStatsOf "DRep" allVotes.

(** [spoAbstainStats] *)
Definition spoAbstainStats (allVotes : list Api.VoteRecord) : AbstainStats :=
  abstainStatsOf "SPO" allVotes.

End WithArithmetic.

Record CcAbstainStats : Type := mkCcAbstainStats {
  cc_percent : Q;
  cc_count : Z;
  cc_yesCount : Z;
  cc_noCount : Z
}.

Section WithVoteMath.

(** [deriveCcAbstainCount] of [@/lib/voteMath], which is not among the
    sources; [None] is an [undefined] result. *)
Variable deriveCcAbstainCount : Z -> Z -> option Q -> option Q -> Q -> option Z.

(** [ccAbstainStats] *)
Definition ccAbstainStats (selectedAction : option Api.GovernanceActionDetail)
  : CcAbstainStats :=
  match selectedAction with
  | None => {| cc_percent := 0; cc_count := 0; cc_yesCount := 0; cc_noCount := 0 |}
  | Some action =>
      let ccVotes :=
        filter (fun v => String.eqb (Api.voterType v) "CC") (allVotes selectedAction) in
      if Nat.eqb (List.length ccVotes) 0 then
        let cc := Api.cc (Api.base action) in
        let yesCountInner := nullish (opt_field cc Api.cc_yesCount) 0 in
        let noCountInner := nullish (opt_field cc Api.cc_noCount) 0 in
        let percent' := nullish (opt_field cc Api.cc_abstainPercent) 0%Q in
        let derivedAbstain :=
          nullish (deriveCcAbstainCount yesCountInner noCountInner
                     (opt_field cc Api.cc_yesPercent) (opt_field cc Api.cc_noPercent)
                     percent') 0 in
        {| cc_percent := percent';
           cc_count := derivedAbstain;
           cc_yesCount := yesCountInner;
           cc_noCount := noCountInner |}
      else
        let yesCountInner :=
          Z.of_nat (List.length (filter (fun v => String.eqb (Api.vote v) "Yes") ccVotes)) in
        let noCountInner :=
          Z.of_nat (List.length (filter (fun v => String.eqb (Api.vote v) "No") ccVotes)) in
        let abstainCount' :=
          Z.of_nat (List.length (filter (fun v => String.eqb (Api.vote v) "Abstain") ccVotes)) in
        {| cc_percent :=
             (inject_Z abstainCount' / inject_Z (Z.of_nat (List.length ccVotes))
              * (100 # 1))%Q;
           cc_count := abstainCount';
           cc_yesCount := yesCountInner;
           cc_noCount := noCountInner |}
  end.

End WithVoteMath.

(** ** The name of an exported file *)

(** A character that [/[^a-z0-9]/gi] does not match. *)
Definition isAlnum (c : ascii) : bool :=
  let n := nat_of_ascii c in
  ((Nat.leb 48 n && Nat.leb n 57)
   || (Nat.leb 65 n && Nat.leb n 90)
   || (Nat.leb 97 n && Nat.leb n 122))%bool.

(** [title.replace(/[^a-z0-9]/gi, "_")] *)
Fixpoint replaceNonAlnum (title : string) : string :=
  match title with
  | EmptyString => EmptyString
  | String c s => String (if isAlnum c then c else "_"%char) (replaceNonAlnum s)
  end.

(** [sanitizedTitle] of [handleExport] *)
Definition sanitizedTitle (title : string) : string :=
  toLowerCase (replaceNonAlnum title).

Inductive ExportFormat : Type :=
| json
| markdown
| csv.

(** The file name and the MIME type [handleExport] hands to
    [downloadFile]; [timestamp] is the date part of the current time. *)
Definition exportTarget (format : ExportFormat) (title timestamp : string)
  : string * string :=
  match format with
  | json =>
      ("voting-rationales-" ++ sanitizedTitle title ++ "-" ++ timestamp ++ ".json",
       "application/json")
  | markdown =>
      ("voting-rationales-" ++ sanitizedTitle title ++ "-" ++ timestamp ++ ".md",
       "text/markdown")
  | csv =>
      ("voting-rationales-" ++ sanitizedTitle title ++ "-" ++ timestamp ++ ".csv",
       "text/csv")
  end.

End GovernanceDetail.

(* ================================================================== *)
(** * Vocabulary of the specification *)
(* ================================================================== *)

Module Spec.

(** The two sort keys of an action, with the defaults of the comparator. *)
Definition epochKey (a : Api.GovernanceAction) : Z * Z :=
  (nullish (Api.submissionEpoch a) 0, nullish (Api.expiryEpoch a) 0).

(** [a] may stand before [b]: later submission first, then later expiry. *)
Definition epochDescending (a b : Api.GovernanceAction) : Prop :=
  fst (epochKey b) < fst (epochKey a)
  \/ (fst (epochKey a) = fst (epochKey b) /\ snd (epochKey b) <= snd (epochKey a)).

(** The actions that carry the keys [(s, e)]. *)
Definition sameEpochs (s e : Z) (a : Api.GovernanceAction) : bool :=
  (fst (epochKey a) =? s) && (snd (epochKey a) =? e).

(** ** The normalizer *)

Definition present {X : Type} (o : option X) : bool :=
  match o with Some _ => true | None => false end.

(** Every flat percentage, count and epoch field of the record is
    present (hence numeric). *)
Definition flatFieldsPresent (a : Api.GovernanceAction) : bool :=
  present (Api.drepYesPercent a) && present (Api.drepNoPercent a)
  && present (Api.drepAbstainPercent a)
  && present (Api.spoYesPercent a) && present (Api.spoNoPercent a)
  && present (Api.spoAbstainPercent a)
  && present (Api.ccYesPercent a) && present (Api.ccNoPercent a)
  && present (Api.ccAbstainPercent a)
  && present (Api.ccYesCount a) && present (Api.ccNoCount a)
  && present (Api.ccAbstainCount a)
  && present (Api.totalYes a) && present (Api.totalNo a)
  && present (Api.totalAbstain a)
  && present (Api.submissionEpoch a) && present (Api.expiryEpoch a).

(** The output field holds the raw value, or [d] when the raw value is
    absent. *)
Definition defaulted {X : Type} (raw out : option X) (d : X) : Prop :=
  match raw with
  | Some x => out = Some x
  | None => out = Some d
  end.

(** A raw action of which the backend sent the identity only. *)
Definition bareAction : Api.GovernanceAction :=
  {| Api.hash := "ab12:0";
     Api.proposalId := None;
     Api.txHash := None;
     Api.title := None;
     Api.type := "InfoAction";
     Api.status := "Active";
     Api.constitutionality := None;
     Api.drepYesPercent := None; Api.drepNoPercent := None;
     Api.drepAbstainPercent := None;
     Api.drepYesAda := None; Api.drepNoAda := None; Api.drepAbstainAda := None;
     Api.spoYesPercent := None; Api.spoNoPercent := None;
     Api.spoAbstainPercent := None;
     Api.spoYesAda := None; Api.spoNoAda := None; Api.spoAbstainAda := None;
     Api.ccYesPercent := None; Api.ccNoPercent := None;
     Api.ccAbstainPercent := None;
     Api.ccYesCount := None; Api.ccNoCount := None; Api.ccAbstainCount := None;
     Api.totalYes := None; Api.totalNo := None; Api.totalAbstain := None;
     Api.submissionEpoch := None; Api.expiryEpoch := None;
     Api.threshold := None;
     Api.votingStatus := None;
     Api.drep := None;
     Api.spo := None;
     Api.cc := None |}.

(** ** Role eligibility *)

(** [hash] equals [actionId] or contains it. *)
Definition matchesId (hash actionId : string) : Prop :=
  hash = actionId \/ exists pre post, hash = pre ++ actionId ++ post.

Definition legacyK2je : string :=
  "gov_action1k2jertppnnndejjcglszfqq4yzw8evzrd2nt66rr6rqlz54xp0zsq05ecsn".

(** The action is on one of the three legacy lists. *)
Definition onLegacyList (hash : string) : Prop :=
  exists actionId,
    In actionId (GovernanceDetail.LEGACY_NON_APPLICABLE_DREP_ACTIONS
                   ++ GovernanceDetail.LEGACY_NON_APPLICABLE_SPO_ACTIONS
                   ++ GovernanceDetail.LEGACY_NON_APPLICABLE_CC_ACTIONS)%list
    /\ matchesId hash actionId.

(** A detail record with the given hash and type and nothing else. *)
Definition detailOf (hash type : string) : Api.GovernanceActionDetail :=
  {| Api.base :=
       {| Api.hash := hash;
          Api.proposalId := None;
          Api.txHash := None;
          Api.title := None;
          Api.type := type;
          Api.status := "Active";
          Api.constitutionality := None;
          Api.drepYesPercent := None; Api.drepNoPercent := None;
          Api.drepAbstainPercent := None;
          Api.drepYesAda := None; Api.drepNoAda := None; Api.drepAbstainAda := None;
          Api.spoYesPercent := None; Api.spoNoPercent := None;
          Api.spoAbstainPercent := None;
          Api.spoYesAda := None; Api.spoNoAda := None; Api.spoAbstainAda := None;
          Api.ccYesPercent := None; Api.ccNoPercent := None;
          Api.ccAbstainPercent := None;
          Api.ccYesCount := None; Api.ccNoCount := None; Api.ccAbstainCount := None;
          Api.totalYes := None; Api.totalNo := None; Api.totalAbstain := None;
          Api.submissionEpoch := None; Api.expiryEpoch := None;
          Api.threshold := None;
          Api.votingStatus := None;
          Api.drep := None;
          Api.spo := None;
          Api.cc := None |};
     Api.description := None;
     Api.rationale := None;
     Api.votes := None;
     Api.ccVotes := None |}.

(** ** Proposal hashes *)

(** The text before the first [sep] (the whole string without one). *)
Fixpoint firstSegment (sep : ascii) (s : string) : string :=
  match s with
  | EmptyString => EmptyString
  | String c s' => if Ascii.eqb c sep then EmptyString else String c (firstSegment sep s')
  end.

(** The text after the first [sep] (empty without one). *)
Fixpoint afterFirst (sep : ascii) (s : string) : string :=
  match s with
  | EmptyString => EmptyString
  | String c s' => if Ascii.eqb c sep then s' else afterFirst sep s'
  end.

(** Reading [hash] as [txHash<sep>certIndex]: the transaction hash is the
    text before the first separator, the index the text between the first
    and the second; the reading succeeds when the hash has a separator,
    a transaction hash that is not empty and an index that parses. *)
Definition readAs (sep : ascii) (hash : string) : option (string * Z) :=
  if includes_char hash sep then
    if is_empty (firstSegment sep hash) then None
    else
      match parseInt10 (firstSegment sep (afterFirst sep hash)) with
      | Some certIndex => Some (firstSegment sep hash, certIndex)
      | None => None
      end
  else None.

(** ** The vote timeline *)

Definition isYes (v : Api.VoteRecord) : bool := String.eqb (Api.vote v) "Yes".
Definition isNo (v : Api.VoteRecord) : bool := String.eqb (Api.vote v) "No".
Definition isAbstain (v : Api.VoteRecord) : bool := negb (isYes v) && negb (isNo v).

(** The number of votes of a kind in a collection. *)
Definition countOf (kind : Api.VoteRecord -> bool) (votes : list Api.VoteRecord) : Z :=
  Z.of_nat (List.length (filter kind votes)).

(** The power a vote adds: its [votingPowerAda], 0 by default. *)
Definition votePower (v : Api.VoteRecord) : jsnum :=
  Finite (GovernanceDetail.or_zero (Api.votingPowerAda v)).

(** The power of the votes of a kind, added one after the other in the
    order of the collection, from 0. *)
Definition powerOf (add : jsnum -> jsnum -> jsnum) (kind : Api.VoteRecord -> bool)
    (votes : list Api.VoteRecord) : jsnum :=
  fold_left (fun sum v => add sum (votePower v)) (filter kind votes) (Finite 0).

(** The six totals of a collection of votes. *)
Definition cumulative (add : jsnum -> jsnum -> jsnum) (votes : list Api.VoteRecord)
  : GovernanceDetail.Totals :=
  GovernanceDetail.mkTotals
    (countOf isYes votes) (countOf isNo votes) (countOf isAbstain votes)
    (powerOf add isYes votes) (powerOf add isNo votes) (powerOf add isAbstain votes).

Definition countsLe (p q : GovernanceDetail.TimelinePoint) : Prop :=
  GovernanceDetail.yesCount p <= GovernanceDetail.yesCount q
  /\ GovernanceDetail.noCount p <= GovernanceDetail.noCount q
  /\ GovernanceDetail.abstainCount p <= GovernanceDetail.abstainCount q.

Definition powersLe (p q : GovernanceDetail.TimelinePoint) : Prop :=
  jsle (GovernanceDetail.yesPower p) (GovernanceDetail.yesPower q) = true
  /\ jsle (GovernanceDetail.noPower p) (GovernanceDetail.noPower q) = true
  /\ jsle (GovernanceDetail.abstainPower p) (GovernanceDetail.abstainPower q) = true.

(** The point carries the counts of the whole collection. *)
Definition carriesCounts (votes : list Api.VoteRecord)
    (p : GovernanceDetail.TimelinePoint) : Prop :=
  GovernanceDetail.yesCount p = countOf isYes votes
  /\ GovernanceDetail.noCount p = countOf isNo votes
  /\ GovernanceDetail.abstainCount p = countOf isAbstain votes.

Definition nonNegativePower (votes : list Api.VoteRecord) : Prop :=
  Forall (fun v => (0 <= nullish (Api.votingPowerAda v) 0)%Q) votes.

(** The totals a point shows. *)
Definition totalsOf (p : GovernanceDetail.TimelinePoint) : GovernanceDetail.Totals :=
  GovernanceDetail.mkTotals
    (GovernanceDetail.yesCount p) (GovernanceDetail.noCount p)
    (GovernanceDetail.abstainCount p)
    (GovernanceDetail.yesPower p) (GovernanceDetail.noPower p)
    (GovernanceDetail.abstainPower p).

(** The closure variables after the callback has run over [l]. *)
Definition run (add : jsnum -> jsnum -> jsnum) (t : GovernanceDetail.Totals)
    (l : list GovernanceDetail.DatedVote) : GovernanceDetail.Totals :=
  fold_left (GovernanceDetail.accumulate add) l t.

(** When the three powers of [t1] are not negative, the powers of [t2]
    are not negative either and not below them. *)
Definition powersFrom (t1 t2 : GovernanceDetail.Totals) : Prop :=
  (jsle (Finite 0) (GovernanceDetail.t_yesPower t1) = true
   /\ jsle (Finite 0) (GovernanceDetail.t_noPower t1) = true
   /\ jsle (Finite 0) (GovernanceDetail.t_abstainPower t1) = true) ->
  (jsle (Finite 0) (GovernanceDetail.t_yesPower t2) = true
   /\ jsle (Finite 0) (GovernanceDetail.t_noPower t2) = true
   /\ jsle (Finite 0) (GovernanceDetail.t_abstainPower t2) = true)
  /\ (jsle (GovernanceDetail.t_yesPower t1) (GovernanceDetail.t_yesPower t2) = true
      /\ jsle (GovernanceDetail.t_noPower t1) (GovernanceDetail.t_noPower t2) = true
      /\ jsle (GovernanceDetail.t_abstainPower t1) (GovernanceDetail.t_abstainPower t2)
         = true).

(** ** What the theorems use of the engine

    The sort of the engine rearranges the array, and it leaves an
    element in front of another only where the comparator said so: any
    two neighbours of the result are joined by a chain of elements of
    the array, each not above the next.  Insertion, merge and Tim sort
    work so whatever the comparator answers; for a consistent
    comparator this is the sorted order the language requires. *)

(** [a] is not above [b]: the comparator answered so on one of the two
    calls. *)
Definition notAbove {A : Type} (comparefn : A -> A -> option Z) (a b : A) : Prop :=
  SortCompare (comparefn a b) <= 0 \/ 0 <= SortCompare (comparefn b a).

(** A chain of elements of [l] from [a] to [b], each not above the next. *)
Inductive linked {A : Type} (comparefn : A -> A -> option Z) (l : list A) : A -> A -> Prop :=
| linked_refl (a : A) : linked comparefn l a a
| linked_step (a b c : A) :
    In b l -> notAbove comparefn a b -> linked comparefn l b c -> linked comparefn l a c.

Definition rearranges {A : Type} (arraySort : ArraySort A) : Prop :=
  forall comparefn l, Permutation (arraySort comparefn l) l.

Definition ordersByComparisons {A : Type} (arraySort : ArraySort A) : Prop :=
  forall comparefn l, Sorted (linked comparefn l) (arraySort comparefn l).

(** The sort reads the elements through the comparator only. *)
Definition readsThroughComparator {A : Type} (arraySort : ArraySort A) : Prop :=
  forall (f : A -> A) comparefn l,
    (forall a b, comparefn (f a) (f b) = comparefn a b) ->
    arraySort comparefn (map f l) = map f (arraySort comparefn l).

(** What the binary search of the binary insertion sort knows of the
    element in front of [left] and of the element at [right]. *)
Definition leftOk {A : Type} (comparefn : A -> A -> option Z) (pivot : A)
    (sorted : list A) (left : nat) : Prop :=
  left = 0%nat
  \/ exists m, nth_error sorted (left - 1) = Some m
               /\ 0 <= SortCompare (comparefn pivot m).

Definition rightOk {A : Type} (comparefn : A -> A -> option Z) (pivot : A)
    (sorted : list A) (right : nat) : Prop :=
  right = List.length sorted
  \/ exists m, nth_error sorted right = Some m
               /\ SortCompare (comparefn pivot m) < 0.

(** Order facts of binary64 arithmetic, rounding to nearest: adding a
    number that is not negative to a sum that is not negative does not
    lower the sum, and a larger sum stays the larger one; the quotient
    of a part by a finite positive whole lies between 0 and 1, and 100
    times such a quotient between 0 and 100. *)
Definition addGrows (add : jsnum -> jsnum -> jsnum) : Prop :=
  forall x p,
    jsle (Finite 0) x = true -> (0 <= p)%Q -> jsle x (add x (Finite p)) = true.

Definition addMonotone (add : jsnum -> jsnum -> jsnum) : Prop :=
  forall x y p,
    jsle (Finite 0) x = true -> jsle x y = true -> (0 <= p)%Q ->
    jsle (add x (Finite p)) (add y (Finite p)) = true.

Definition divUnit (div : jsnum -> jsnum -> jsnum) : Prop :=
  forall a t,
    jsle (Finite 0) a = true -> jsle a (Finite t) = true -> (0 < t)%Q ->
    jsle (Finite 0) (div a (Finite t)) = true
    /\ jsle (div a (Finite t)) (Finite 1) = true.

Definition mulPercent (mul : jsnum -> jsnum -> jsnum) : Prop :=
  forall r,
    jsle (Finite 0) r = true -> jsle r (Finite 1) = true ->
    jsle (Finite 0) (mul r (Finite (100 # 1))) = true
    /\ jsle (mul r (Finite (100 # 1))) (Finite (100 # 1)) = true.

(** A vote record with the given voter type, vote, power and time. *)
Definition voteOf (voterType vote : string) (power : option Q) (votedAt : option string)
  : Api.VoteRecord :=
  {| Api.voterType := voterType;
     Api.voterId := None;
     Api.voterName := None;
     Api.drepId := None;
     Api.drepName := None;
     Api.vote := vote;
     Api.votingPower := None;
     Api.votingPowerAda := power;
     Api.anchorUrl := None;
     Api.anchorHash := None;
     Api.votedAt := votedAt |}.

(** The vote carries a [votedAt] timestamp. *)
Definition hasTimestamp (v : Api.VoteRecord) : bool := negb (falsy_str (Api.votedAt v)).

Definition dated (v : GovernanceDetail.DatedVote) : bool :=
  present (GovernanceDetail.date v).

Definition undated (v : GovernanceDetail.DatedVote) : bool := negb (dated v).

(** The parsed timestamp of a vote, when it has a valid one. *)
Definition timeOf (v : GovernanceDetail.DatedVote) : option Z :=
  opt_field (GovernanceDetail.date v) GovernanceDetail.getTime.

(** Every element that satisfies [p] stands before every element that
    does not. *)
Fixpoint precede {A : Type} (p : A -> bool) (l : list A) : bool :=
  match l with
  | [] => true
  | x :: l' => if p x then precede p l' else forallb (fun y => negb (p y)) l'
  end.

(** Every timestamp that is present parses to a valid date. *)
Definition validTimestamps (newDate : string -> GovernanceDetail.Date)
    (votes : list Api.VoteRecord) : Prop :=
  Forall (fun v => match Api.votedAt v with
                   | Some s => is_empty s = false ->
                               GovernanceDetail.getTime (newDate s) <> None
                   | None => True
                   end) votes.

(** Three votes of the examples: Yes with 10 units at time 3000, No with
    5 units without a timestamp, Abstain with 2 units at time 1000. *)
Definition threeVotes : list Api.VoteRecord :=
  [ voteOf "DRep" "Yes" (Some (10 # 1)) (Some "3000");
    voteOf "DRep" "No" (Some (5 # 1)) None;
    voteOf "SPO" "Abstain" (Some (2 # 1)) (Some "1000") ].

(** Four votes with a timestamp, the third one unparsable; the power
    tells them apart. *)
Definition unparsedVotes : list Api.VoteRecord :=
  [ voteOf "DRep" "Yes" (Some (1 # 1)) (Some "2000");
    voteOf "DRep" "Yes" (Some (2 # 1)) (Some "1000");
    voteOf "DRep" "Yes" (Some (3 # 1)) (Some "soon");
    voteOf "DRep" "Yes" (Some (4 # 1)) (Some "1000") ].

(** Six votes, two of them without a timestamp and one with an
    unparsable one. *)
Definition mixedVotes : list Api.VoteRecord :=
  [ voteOf "DRep" "Yes" (Some (1 # 1)) (Some "2000");
    voteOf "DRep" "No" (Some (2 # 1)) None;
    voteOf "DRep" "Yes" (Some (3 # 1)) (Some "1000");
    voteOf "DRep" "Yes" (Some (4 # 1)) (Some "soon");
    voteOf "DRep" "No" (Some (5 # 1)) None;
    voteOf "DRep" "Yes" (Some (6 # 1)) (Some "1000") ].

(** The comparator of the timeline as the sort sees it. *)
Definition timelineCompare (a b : GovernanceDetail.DatedVote) : Z :=
  SortCompare (GovernanceDetail.compareVotes a b).

(** The dated votes on which the comparator of the timeline is
    consistent: a vote with a date has a valid one. *)
Definition validDate (v : GovernanceDetail.DatedVote) : Prop :=
  dated v = true -> exists t, timeOf v = Some t.

(** ** The rows of the table *)

Definition statusSelected (selectedStatuses : list string) (a : Api.GovernanceAction) : bool :=
  has selectedStatuses (Api.status a).

Definition isShowcase (a : Api.GovernanceAction) : bool :=
  has GovernanceTable.SHOWCASE_ORDER (Api.type a).

Definition hasType (type : string) (a : Api.GovernanceAction) : bool :=
  String.eqb (Api.type a) type.

(** The representatives of the types [types] among the actions [shown]:
    for each type that has one, the first action of the type. *)
Definition representatives (shown : list Api.GovernanceAction) (types : list string)
  : list Api.GovernanceAction :=
  GovernanceTable.filter_defined
    (map (fun type => find (fun action => String.eqb (Api.type action) type) shown) types).

(** All proposal types are selected. *)
Definition allSelected (selectedTypes : list string) : Prop :=
  forall type, In type selectedTypes <-> In type GovernanceTable.PROPOSAL_TYPES.

(** A normalized action with the given type, status and epochs. *)
Definition actionOf (hash type status : string) (submission expiry : Z)
  : Api.GovernanceAction :=
  {| Api.hash := hash;
     Api.proposalId := None;
     Api.txHash := None;
     Api.title := Some "Untitled Proposal";
     Api.type := type;
     Api.status := status;
     Api.constitutionality := Some "Unspecified";
     Api.drepYesPercent := Some 0%Q; Api.drepNoPercent := Some 0%Q;
     Api.drepAbstainPercent := Some 0%Q;
     Api.drepYesAda := Some (Finite 0); Api.drepNoAda := Some (Finite 0);
     Api.drepAbstainAda := Some (Finite 0);
     Api.spoYesPercent := None; Api.spoNoPercent := None;
     Api.spoAbstainPercent := None;
     Api.spoYesAda := None; Api.spoNoAda := None; Api.spoAbstainAda := None;
     Api.ccYesPercent := None; Api.ccNoPercent := None;
     Api.ccAbstainPercent := None;
     Api.ccYesCount := None; Api.ccNoCount := None; Api.ccAbstainCount := None;
     Api.totalYes := Some 0; Api.totalNo := Some 0; Api.totalAbstain := Some 0;
     Api.submissionEpoch := Some submission; Api.expiryEpoch := Some expiry;
     Api.threshold := None;
     Api.votingStatus := None;
     Api.drep := None;
     Api.spo := None;
     Api.cc := None |}.

(** The actions of the example of section 8, with A = Treasury and
    B = InfoAction, and an action of a type outside the showcase list. *)
Definition exampleActions : list Api.GovernanceAction :=
  [ actionOf "a5:0" "Treasury" "Active" 5 10;
    actionOf "b10:0" "InfoAction" "Active" 10 15;
    actionOf "a1:0" "Treasury" "Active" 1 6;
    actionOf "x7:0" "Other" "Active" 7 12 ].

(** ** Further example data *)

(** A raw action with a DRep tally of 1.5 ADA yes and 60 percent. *)
Definition budgetAction : Api.GovernanceAction :=
  {| Api.hash := "ab12:0"; Api.proposalId := None; Api.txHash := None;
     Api.title := Some "Budget"; Api.type := "Treasury"; Api.status := "Active";
     Api.constitutionality := None;
     Api.drepYesPercent := None; Api.drepNoPercent := None;
     Api.drepAbstainPercent := None;
     Api.drepYesAda := None; Api.drepNoAda := None; Api.drepAbstainAda := None;
     Api.spoYesPercent := None; Api.spoNoPercent := None;
     Api.spoAbstainPercent := None;
     Api.spoYesAda := None; Api.spoNoAda := None; Api.spoAbstainAda := None;
     Api.ccYesPercent := None; Api.ccNoPercent := None;
     Api.ccAbstainPercent := None;
     Api.ccYesCount := None; Api.ccNoCount := None; Api.ccAbstainCount := None;
     Api.totalYes := None; Api.totalNo := None; Api.totalAbstain := None;
     Api.submissionEpoch := None; Api.expiryEpoch := None;
     Api.threshold := None; Api.votingStatus := None;
     Api.drep := Some (Api.mkRoleTally (Some (60 # 1)) None None
                         (Some "1500000") None None None None None);
     Api.spo := None; Api.cc := None |}.

(** ** The rows of the table, continued *)

(** The actions with a selected status, in sorted order. *)
Definition shownActions (actions : list Api.GovernanceAction)
    (selectedStatuses : list string) : list Api.GovernanceAction :=
  filter (statusSelected selectedStatuses) (GovernanceTable.sortedActions actions).

(** The curated list: the representatives of the selected showcase
    types, then, when all types are selected, the actions of no
    showcase type. *)
Definition curated (actions : list Api.GovernanceAction)
    (selectedTypes selectedStatuses : list string) : list Api.GovernanceAction :=
  (representatives (shownActions actions selectedStatuses)
     (filter (fun type => has selectedTypes type) GovernanceTable.SHOWCASE_ORDER)
   ++ (if GovernanceTable.allTypesSelected selectedTypes
       then filter (fun a => negb (isShowcase a)) (shownActions actions selectedStatuses)
       else []))%list.

(** The title of the action contains the query, letter case aside. *)
Definition titleMatches (searchQuery : string) (a : Api.GovernanceAction) : bool :=
  match Api.title a with
  | Some t => includes (toLowerCase t) (toLowerCase searchQuery)
  | None => false
  end.

(** An action as the normalizer leaves it, with the given title. *)
Definition titledAction (hash type title : string) (submission : Z)
  : Api.GovernanceAction :=
  {| Api.hash := hash; Api.proposalId := None; Api.txHash := None;
     Api.title := Some title; Api.type := type; Api.status := "Active";
     Api.constitutionality := Some "Unspecified";
     Api.drepYesPercent := Some 0%Q; Api.drepNoPercent := Some 0%Q;
     Api.drepAbstainPercent := Some 0%Q;
     Api.drepYesAda := Some (Finite 0); Api.drepNoAda := Some (Finite 0);
     Api.drepAbstainAda := Some (Finite 0);
     Api.spoYesPercent := None; Api.spoNoPercent := None;
     Api.spoAbstainPercent := None;
     Api.spoYesAda := None; Api.spoNoAda := None; Api.spoAbstainAda := None;
     Api.ccYesPercent := None; Api.ccNoPercent := None;
     Api.ccAbstainPercent := None;
     Api.ccYesCount := None; Api.ccNoCount := None; Api.ccAbstainCount := None;
     Api.totalYes := Some 0; Api.totalNo := Some 0; Api.totalAbstain := Some 0;
     Api.submissionEpoch := Some submission; Api.expiryEpoch := Some (submission + 6);
     Api.threshold := None; Api.votingStatus := None;
     Api.drep := None; Api.spo := None; Api.cc := None |}.

(** Two normalized actions with titles. *)
Definition titledActions : list Api.GovernanceAction :=
  [ titledAction "t1:0" "Treasury" "Fund the Treasury audit" 9;
    titledAction "i1:0" "InfoAction" "Community poll" 8 ].

(** ** The detail page, continued *)

(** A character of a sanitized title: a digit, a small letter or "_". *)
Definition safeChar (c : ascii) : bool :=
  let n := nat_of_ascii c in
  ((Nat.leb 48 n && Nat.leb n 57) || (Nat.leb 97 n && Nat.leb n 122) || Nat.eqb n 95)%bool.

Fixpoint allChars (p : ascii -> bool) (s : string) : bool :=
  match s with
  | EmptyString => true
  | String c s' => p c && allChars p s'
  end.

(** A detail record with the given description and nothing else. *)
Definition describedAction (description : option string) : Api.GovernanceActionDetail :=
  {| Api.base := bareAction;
     Api.description := description;
     Api.rationale := None;
     Api.votes := None;
     Api.ccVotes := None |}.

(** The statistics of a role without voting power. *)
Definition zeroStats : GovernanceDetail.AbstainStats :=
  GovernanceDetail.mkAbstainStats (Finite 0) (Finite 0).

(** The percentage lies between 0 and 100 and the abstain power between
    0 and the total. *)
Definition withinBounds (total : jsnum) (stats : GovernanceDetail.AbstainStats) : Prop :=
  jsle (Finite 0) (GovernanceDetail.percent stats) = true
  /\ jsle (GovernanceDetail.percent stats) (Finite (100 # 1)) = true
  /\ jsle (Finite 0) (GovernanceDetail.power stats) = true
  /\ jsle (GovernanceDetail.power stats) total = true.

(** The votes of a role among the votes of an action. *)
Definition votesOfRole (role : string) (allVotes : list Api.VoteRecord)
  : list Api.VoteRecord :=
  filter (fun v => String.eqb (Api.voterType v) role) allVotes.

(** The role has no voting power: it has no vote with a power other
    than 0. *)
Definition noPower (role : string) (allVotes : list Api.VoteRecord) : Prop :=
  Forall (fun v => votePower v = Finite 0) (votesOfRole role allVotes).

(** The votes of the constitutional committee among the votes of an
    action. *)
Definition ccVotesOf (action : Api.GovernanceActionDetail) : list Api.VoteRecord :=
  filter (fun v => String.eqb (Api.voterType v) "CC") (GovernanceDetail.allVotes (Some action)).

(** A detail record with the given votes and committee votes. *)
Definition votedAction (votes ccVotes : list Api.VoteRecord) : Api.GovernanceActionDetail :=
  {| Api.base := bareAction;
     Api.description := None;
     Api.rationale := None;
     Api.votes := Some votes;
     Api.ccVotes := Some ccVotes |}.

(** Three committee votes: Yes, Abstain and a vote that is neither. *)
Definition committeeVotes : list Api.VoteRecord :=
  [ voteOf "CC" "Yes" None None;
    voteOf "CC" "Abstain" None None;
    voteOf "CC" "Pending" None None ].

(** The action is on the legacy list of SPOs. *)
Definition onSpoLegacyList (hash : string) : Prop :=
  exists actionId,
    In actionId GovernanceDetail.LEGACY_NON_APPLICABLE_SPO_ACTIONS
    /\ matchesId hash actionId.

Definition legacyPvv5 : string :=
  "gov_action1pvv5wmjqhwa4u85vu9f4ydmzu2mgt8n7et967ph2urhx53r70xusqnmm525".

(** A dated vote whose record went through the vote normalizer. *)
Definition normalizeDated (v : GovernanceDetail.DatedVote) : GovernanceDetail.DatedVote :=
  {| GovernanceDetail.record := Api.transformVoteRecord (GovernanceDetail.record v);
     GovernanceDetail.date := GovernanceDetail.date v;
     GovernanceDetail.fallbackIndex := GovernanceDetail.fallbackIndex v |}.

End Spec.

(* ================================================================== *)
(** * Facts about the built-ins *)
(* ================================================================== *)

Section SortFacts.

Context {A : Type}.
Variable cmp : A -> A -> Z.

Lemma insert_perm (x : A) (l : list A) : Permutation (insert cmp x l) (x :: l).
Proof.
  induction l as [|y l IH]; simpl.
  - apply Permutation_refl.
  - destruct (cmp x y <=? 0).
    + apply Permutation_refl.
    + eapply perm_trans; [apply perm_skip, IH | apply perm_swap].
Qed.

Lemma sort_perm (l : list A) : Permutation (sort cmp l) l.
Proof.
  induction l as [|x l IH]; simpl.
  - constructor.
  - eapply perm_trans; [apply insert_perm | apply perm_skip, IH].
Qed.

Lemma sort_In (l : list A) (x : A) : In x (sort cmp l) <-> In x l.
Proof.
  split; apply Permutation_in; [|apply Permutation_sym]; apply sort_perm.
Qed.

Lemma sort_length (l : list A) : List.length (sort cmp l) = List.length l.
Proof. apply Permutation_length, sort_perm. Qed.

(** Inserting [x] keeps the elements selected by [p] in place, as long
    as [x] does not exceed the selected elements it is inserted into. *)
Lemma filter_insert (p : A -> bool) (x : A) (l : list A) :
  (p x = true -> forall y, In y l -> p y = true -> cmp x y <= 0) ->
  filter p (insert cmp x l) = filter p (x :: l).
Proof.
  induction l as [|y l IH]; intros Hx; simpl; [reflexivity|].
  destruct (cmp x y <=? 0) eqn:E; [reflexivity|].
  apply Z.leb_gt in E.
  simpl. rewrite IH by (intros Hp z Hz; apply Hx; [assumption | now right]).
  simpl. destruct (p x) eqn:Px; [|reflexivity].
  destruct (p y) eqn:Py; [|reflexivity].
  specialize (Hx eq_refl y (or_introl eq_refl) Py). lia.
Qed.

(** Stability: a class of elements that are pairwise in order in the
    input is found in the same order in the output. *)
Lemma sort_stable (p : A -> bool) (l : list A) :
  ForallOrdPairs (fun x y => p x = true -> p y = true -> cmp x y <= 0) l ->
  filter p (sort cmp l) = filter p l.
Proof.
  induction 1 as [|x l Hx Hl IH]; simpl; [reflexivity|].
  rewrite filter_insert.
  - simpl. now rewrite IH.
  - intros Px y Hy Py. apply (proj1 (sort_In l y)) in Hy.
    rewrite Forall_forall in Hx. exact (Hx y Hy Px Py).
Qed.

Section Consistent.

(** A comparator that is consistent on the elements of [dom]: total and
    transitive. *)
Variable dom : A -> Prop.
Hypothesis cmp_total : forall x y, dom x -> dom y -> 0 < cmp x y -> cmp y x <= 0.
Hypothesis cmp_trans :
  forall x y z, dom x -> dom y -> dom z -> cmp x y <= 0 -> cmp y z <= 0 -> cmp x z <= 0.

Lemma insert_sorted (x : A) (l : list A) :
  dom x -> Forall dom l ->
  StronglySorted (fun a b => cmp a b <= 0) l ->
  StronglySorted (fun a b => cmp a b <= 0) (insert cmp x l).
Proof.
  intros Dx Dl. induction 1 as [|y l Hl IH Hy]; simpl.
  - repeat constructor.
  - inversion Dl as [|? ? Dy Dl']; subst.
    destruct (cmp x y <=? 0) eqn:E.
    + apply Z.leb_le in E. constructor; [now constructor|].
      constructor; [assumption|].
      rewrite Forall_forall in *. intros z Hz. eauto.
    + apply Z.leb_gt in E. constructor; [now apply IH|].
      rewrite Forall_forall in *. intros z Hz.
      apply (Permutation_in _ (insert_perm x l)) in Hz.
      destruct Hz as [<-|Hz]; auto.
Qed.

Lemma sort_sorted (l : list A) :
  Forall dom l -> StronglySorted (fun a b => cmp a b <= 0) (sort cmp l).
Proof.
  induction 1 as [|x l Dx Dl IH]; simpl; [constructor|].
  apply insert_sorted; [assumption| |assumption].
  apply Forall_forall. intros y Hy. apply (proj1 (sort_In l y)) in Hy.
  rewrite Forall_forall in Dl. exact (Dl y Hy).
Qed.

End Consistent.

Section Unique.

Hypothesis cmp_refl : forall x, cmp x x <= 0.

(** The sorted, stable arrangement of a list is unique: whatever
    stable algorithm the engine runs, it returns [sort cmp l]. *)
Lemma sorted_stable_unique (l1 l2 : list A) :
  StronglySorted (fun a b => cmp a b <= 0) l1 ->
  StronglySorted (fun a b => cmp a b <= 0) l2 ->
  (forall a, filter (fun b => (cmp a b <=? 0) && (cmp b a <=? 0)) l1
             = filter (fun b => (cmp a b <=? 0) && (cmp b a <=? 0)) l2) ->
  Permutation l1 l2 ->
  l1 = l2.
Proof.
  intros S1. revert l2.
  induction S1 as [|x l1 S1 IH Hx]; intros l2 S2 Hf HP.
  - apply Permutation_nil in HP. now subst.
  - destruct l2 as [|y l2]; [apply Permutation_sym, Permutation_nil in HP; discriminate|].
    assert (Exy : x = y).
    { pose proof (Hf x) as Hfx. simpl in Hfx.
      replace (cmp x x <=? 0) with true in Hfx by (symmetry; apply Z.leb_le, cmp_refl).
      simpl in Hfx.
      destruct ((cmp x y <=? 0) && (cmp y x <=? 0)) eqn:E; [now inversion Hfx|].
      exfalso.
      assert (Hy1 : In y (x :: l1))
        by (eapply Permutation_in; [apply Permutation_sym, HP | now left]).
      assert (Hx2 : In x (y :: l2)) by (eapply Permutation_in; [apply HP | now left]).
      inversion S2 as [|? ? _ Hy]; subst.
      rewrite Forall_forall in Hx, Hy.
      pose proof (cmp_refl x) as Rx. pose proof (cmp_refl y) as Ry.
      destruct Hy1 as [->|Hy1]; [rewrite andb_diag in E; apply Z.leb_gt in E; lia|].
      destruct Hx2 as [->|Hx2]; [rewrite andb_diag in E; apply Z.leb_gt in E; lia|].
      apply Hx in Hy1. apply Hy in Hx2.
      apply Z.leb_le in Hy1, Hx2. rewrite Hy1, Hx2 in E. discriminate. }
    subst y. f_equal.
    inversion S2; subst.
    apply IH; [assumption| |eapply Permutation_cons_inv; eassumption].
    intros a. specialize (Hf a). simpl in Hf.
    destruct ((cmp a x <=? 0) && (cmp x a <=? 0)); [now inversion Hf | assumption].
Qed.

End Unique.

End SortFacts.

(** ** The sort of an engine *)

Section EngineFacts.

Context {A : Type}.

Lemma linked_trans (comparefn : A -> A -> option Z) (l : list A) (a b c : A) :
  Spec.linked comparefn l a b -> Spec.linked comparefn l b c ->
  Spec.linked comparefn l a c.
Proof.
  induction 1 as [a|a b' c' Hin Hab Hbc IH]; intros H; [exact H|].
  apply Spec.linked_step with b'; auto.
Qed.

(** A result ordered by comparisons has every element joined to the
    elements behind it. *)
Lemma linked_StronglySorted (comparefn : A -> A -> option Z) (l out : list A) :
  Sorted (Spec.linked comparefn l) out -> StronglySorted (Spec.linked comparefn l) out.
Proof.
  apply Sorted_StronglySorted. intros a b c. apply linked_trans.
Qed.

Lemma Sorted_member_weaken (R R' : A -> A -> Prop) (out : list A) :
  (forall a b, In b out -> R a b -> R' a b) -> Sorted R out -> Sorted R' out.
Proof.
  intros H HS. induction HS as [|a l Hl IH Hd]; constructor.
  - apply IH. intros x y Hy. apply H. now right.
  - destruct Hd as [|b l Hab]; constructor. apply H; [right; now left | exact Hab].
Qed.

Lemma StronglySorted_weaken_on (R R' : A -> A -> Prop) (P : A -> Prop) (out : list A) :
  (forall a b, P a -> P b -> R a b -> R' a b) ->
  Forall P out -> StronglySorted R out -> StronglySorted R' out.
Proof.
  intros H HP HS. induction HS as [|a l Hl IH Ha]; constructor.
  - apply IH. now inversion HP.
  - inversion HP as [|? ? Pa Pl]; subst.
    rewrite Forall_forall in *. intros b Hb. apply H; auto.
Qed.

Lemma filter_Permutation (p : A -> bool) (l l' : list A) :
  Permutation l l' -> Permutation (filter p l) (filter p l').
Proof.
  induction 1 as [|x l l' _ IH|x y l|l l' l'' _ IH1 _ IH2]; simpl.
  - constructor.
  - destruct (p x); [now constructor | assumption].
  - destruct (p x), (p y); try apply Permutation_refl. apply perm_swap.
  - eapply perm_trans; eassumption.
Qed.

(** A list has one arrangement in the order of a key without repeats. *)
Lemma sorted_by_key_unique (key : A -> Z) (l1 l2 : list A) :
  Permutation l1 l2 ->
  StronglySorted (fun a b => key a <= key b) l1 ->
  StronglySorted (fun a b => key a < key b) l2 ->
  l1 = l2.
Proof.
  intros HP S1. revert l2 HP.
  induction S1 as [|x l1 S1 IH Hx]; intros l2 HP S2.
  - apply Permutation_nil in HP. now subst.
  - destruct l2 as [|y l2]; [apply Permutation_sym, Permutation_nil in HP; discriminate|].
    inversion S2 as [|? ? S2' Hy]; subst.
    assert (Exy : x = y).
    { assert (Hx2 : In x (y :: l2)) by (eapply Permutation_in; [apply HP | now left]).
      assert (Hy1 : In y (x :: l1))
        by (eapply Permutation_in; [apply Permutation_sym, HP | now left]).
      destruct Hx2 as [->|Hx2]; [reflexivity|].
      destruct Hy1 as [->|Hy1]; [reflexivity|].
      rewrite Forall_forall in Hx, Hy.
      specialize (Hx y Hy1). specialize (Hy x Hx2). lia. }
    subst y. f_equal.
    apply IH; [eapply Permutation_cons_inv; eassumption | assumption].
Qed.

Section Insertion.

Variable comparefn : A -> A -> option Z.

Lemma insert_neighbours (x : A) (l : list A) :
  Sorted (Spec.notAbove comparefn) l ->
  Sorted (Spec.notAbove comparefn)
         (insert (fun a b => SortCompare (comparefn a b)) x l).
Proof.
  induction 1 as [|y l Hl IH Hy]; cbn [insert].
  - repeat constructor.
  - destruct (SortCompare (comparefn x y) <=? 0) eqn:E.
    + constructor; [now constructor|]. constructor. left. now apply Z.leb_le.
    + apply Z.leb_gt in E. constructor; [exact IH|].
      destruct l as [|z l]; cbn [insert].
      * constructor. right. lia.
      * destruct (SortCompare (comparefn x z) <=? 0).
        -- constructor. right. lia.
        -- constructor. now inversion Hy.
Qed.

Lemma sort_neighbours (l : list A) :
  Sorted (Spec.notAbove comparefn) (sort (fun a b => SortCompare (comparefn a b)) l).
Proof.
  induction l as [|x l IH]; [constructor|]. simpl. now apply insert_neighbours.
Qed.

End Insertion.

Lemma insert_map (cmp : A -> A -> Z) (f : A -> A) (x : A) (l : list A) :
  (forall a b, cmp (f a) (f b) = cmp a b) ->
  insert cmp (f x) (map f l) = map f (insert cmp x l).
Proof.
  intros H. induction l as [|y l IH]; [reflexivity|].
  simpl. rewrite H. destruct (cmp x y <=? 0); [reflexivity|].
  simpl. now rewrite IH.
Qed.

Lemma sort_map (cmp : A -> A -> Z) (f : A -> A) (l : list A) :
  (forall a b, cmp (f a) (f b) = cmp a b) ->
  sort cmp (map f l) = map f (sort cmp l).
Proof.
  intros H. induction l as [|x l IH]; [reflexivity|].
  simpl. rewrite IH. now apply insert_map.
Qed.

(** The insertion sort is the sort of an engine. *)
Lemma insertionSort_rearranges : Spec.rearranges (@insertionSort A).
Proof. intros comparefn l. apply sort_perm. Qed.

Lemma insertionSort_orders : Spec.ordersByComparisons (@insertionSort A).
Proof.
  intros comparefn l. unfold insertionSort.
  apply Sorted_member_weaken with (R := Spec.notAbove comparefn);
    [|apply sort_neighbours].
  intros a b Hb Hab. apply Spec.linked_step with b.
  - exact (proj1 (sort_In _ l b) Hb).
  - exact Hab.
  - apply Spec.linked_refl.
Qed.

Lemma insertionSort_reads : Spec.readsThroughComparator (@insertionSort A).
Proof.
  intros f comparefn l H. unfold insertionSort. apply sort_map.
  intros a b. now rewrite H.
Qed.

Section BinaryInsertionFacts.

Variable comparefn : A -> A -> option Z.

Local Abbreviation cmp := (fun a b : A => SortCompare (comparefn a b)).

Lemma mid_bounds (left right : nat) :
  (left < right)%nat ->
  (left <= left + (right - left) / 2)%nat /\ (left + (right - left) / 2 < right)%nat.
Proof.
  intros H. split; [lia|].
  assert ((right - left) / 2 < right - left)%nat by (apply Nat.div_lt; lia).
  lia.
Qed.

Lemma restOfRun_app isDescending prev (l : list A) :
  (fst (restOfRun cmp isDescending prev l) ++ snd (restOfRun cmp isDescending prev l))%list = l.
Proof.
  revert prev. induction l as [|cur l IH]; intros prev; [reflexivity|].
  cbn [restOfRun]. cbv zeta.
  destruct (if isDescending then 0 <=? cmp cur prev else cmp cur prev <? 0); [reflexivity|].
  specialize (IH cur). destruct (restOfRun cmp isDescending cur l) as [run rest].
  simpl in *. now rewrite IH.
Qed.

Lemma CountAndMakeRun_perm (l : list A) :
  Permutation (fst (CountAndMakeRun cmp l) ++ snd (CountAndMakeRun cmp l)) l.
Proof.
  destruct l as [|a [|b l]]; simpl; try (rewrite ?app_nil_r; apply Permutation_refl).
  pose proof (restOfRun_app (cmp b a <? 0) b l) as H.
  destruct (restOfRun cmp (cmp b a <? 0) b l) as [run rest]. simpl in *.
  rewrite <- H.
  change (a :: b :: run ++ rest)%list with ((a :: b :: run) ++ rest)%list.
  apply Permutation_app_tail.
  destruct (cmp b a <? 0); [|apply Permutation_refl].
  apply Permutation_sym, (Permutation_rev (a :: b :: run)).
Qed.

Lemma insertAt_perm (pivot : A) (sorted : list A) (left : nat) :
  Permutation (insertAt pivot sorted left) (pivot :: sorted).
Proof.
  unfold insertAt. rewrite <- (firstn_skipn left sorted) at 3.
  apply Permutation_sym, Permutation_middle.
Qed.

Lemma BinaryInsertionSort_perm (rest sorted : list A) :
  Permutation (BinaryInsertionSort cmp sorted rest) (sorted ++ rest).
Proof.
  revert sorted. induction rest as [|pivot rest IH]; intros sorted; simpl.
  - rewrite app_nil_r. apply Permutation_refl.
  - eapply perm_trans; [apply IH|].
    eapply perm_trans; [apply Permutation_app_tail, insertAt_perm|].
    simpl. apply Permutation_middle.
Qed.

Lemma binaryInsertion_perm (l : list A) : Permutation (binaryInsertion cmp l) l.
Proof.
  unfold binaryInsertion. pose proof (CountAndMakeRun_perm l) as H.
  destruct (CountAndMakeRun cmp l) as [run rest]. simpl in H.
  eapply perm_trans; [apply BinaryInsertionSort_perm | exact H].
Qed.

(** The run read from [prev] on, in input order when it ascends. *)
Lemma restOfRun_ascending prev (l : list A) :
  Sorted (Spec.notAbove comparefn) (prev :: fst (restOfRun cmp false prev l)).
Proof.
  revert prev. induction l as [|cur l IH]; intros prev; [repeat constructor|].
  cbn [restOfRun]. cbv zeta.
  destruct (cmp cur prev <? 0) eqn:E; [repeat constructor|].
  apply Z.ltb_ge in E. specialize (IH cur).
  destruct (restOfRun cmp false cur l) as [run rest]. simpl in *.
  constructor; [exact IH|]. constructor. right. exact E.
Qed.

Lemma restOfRun_descending (front : list A) prev (l : list A) :
  Sorted (Spec.notAbove comparefn) (prev :: front) ->
  Sorted (Spec.notAbove comparefn) (rev (fst (restOfRun cmp true prev l)) ++ prev :: front).
Proof.
  revert front prev. induction l as [|cur l IH]; intros front prev H; [exact H|].
  cbn [restOfRun]. cbv zeta.
  destruct (0 <=? cmp cur prev) eqn:E; [exact H|].
  apply Z.leb_gt in E.
  specialize (IH (prev :: front) cur).
  destruct (restOfRun cmp true cur l) as [run rest]. simpl in *.
  rewrite <- app_assoc. simpl. apply IH.
  constructor; [exact H|]. constructor. left. lia.
Qed.

Lemma CountAndMakeRun_sorted (l : list A) : Sorted (Spec.notAbove comparefn) (fst (CountAndMakeRun cmp l)).
Proof.
  destruct l as [|a [|b l]]; simpl; [constructor | repeat constructor |].
  destruct (cmp b a <? 0) eqn:E.
  - apply Z.ltb_lt in E.
    pose proof (restOfRun_descending [a] b l) as H.
    destruct (restOfRun cmp true b l) as [run rest]. simpl in *.
    rewrite <- app_assoc. simpl. apply H.
    constructor; [repeat constructor|]. constructor. left. lia.
  - apply Z.ltb_ge in E.
    pose proof (restOfRun_ascending b l) as H.
    destruct (restOfRun cmp false b l) as [run rest]. simpl in *.
    constructor; [exact H|]. constructor. right. exact E.
Qed.

Lemma searchLeft_spec (fuel : nat) (pivot : A) (sorted : list A) :
  forall left right,
    (left <= right)%nat -> (right <= List.length sorted)%nat -> (right - left <= fuel)%nat ->
    Spec.leftOk comparefn pivot sorted left -> Spec.rightOk comparefn pivot sorted right ->
    let k := searchLeft cmp fuel pivot sorted left right in
    (k <= List.length sorted)%nat /\ Spec.leftOk comparefn pivot sorted k /\ Spec.rightOk comparefn pivot sorted k.
Proof.
  induction fuel as [|fuel IH]; intros left right Hlr Hr Hf HL HR; cbn [searchLeft].
  - assert (left = right) by lia. subst. cbv zeta. repeat split; [lia | assumption | assumption].
  - destruct (Nat.ltb_spec left right) as [Hlt|Hge].
    + destruct (mid_bounds left right Hlt) as [M1 M2].
      set (mid := (left + (right - left) / 2)%nat) in *.
      destruct (nth_error sorted mid) as [m|] eqn:Em.
      * destruct (cmp pivot m <? 0) eqn:E.
        -- apply Z.ltb_lt in E. apply IH; try lia; [assumption|].
           right. now exists m.
        -- apply Z.ltb_ge in E. apply IH; try lia; [|assumption].
           right. exists m. now rewrite Nat.add_sub.
      * apply nth_error_None in Em. lia.
    + assert (left = right) by lia. subst. cbv zeta.
      repeat split; [lia | assumption | assumption].
Qed.

Lemma insertAt_sorted (pivot : A) (sorted : list A) :
  forall k,
    (k <= List.length sorted)%nat ->
    Sorted (Spec.notAbove comparefn) sorted -> Spec.leftOk comparefn pivot sorted k -> Spec.rightOk comparefn pivot sorted k ->
    Sorted (Spec.notAbove comparefn) (insertAt pivot sorted k).
Proof.
  unfold insertAt.
  induction sorted as [|x s IH]; intros k Hk HS HL HR.
  - destruct k; simpl; repeat constructor.
  - destruct k as [|k].
    + simpl. constructor; [exact HS|]. constructor.
      destruct HR as [HR|[m [Hm Hlt]]]; [discriminate|].
      simpl in Hm. injection Hm as <-. left. lia.
    + cbn [firstn skipn app]. inversion HS as [|? ? HS' Hd]; subst.
      constructor.
      * apply IH; [simpl in Hk; lia | exact HS' | |].
        -- destruct HL as [HL|[m [Hm Hle]]]; [discriminate|].
           destruct k as [|k]; [now left|]. right. exists m.
           simpl in Hm |- *. rewrite ?Nat.sub_0_r in *. now split.
        -- destruct HR as [HR|[m [Hm Hlt]]]; [left; simpl in HR; lia|].
           right. now exists m.
      * destruct k as [|k].
        -- simpl. constructor.
           destruct HL as [HL|[m [Hm Hle]]]; [discriminate|].
           simpl in Hm. injection Hm as <-. right. exact Hle.
        -- destruct s as [|y s]; [simpl in Hk; lia|].
           simpl. constructor. now inversion Hd.
Qed.

Lemma BinaryInsertionSort_sorted (rest sorted : list A) :
  Sorted (Spec.notAbove comparefn) sorted -> Sorted (Spec.notAbove comparefn) (BinaryInsertionSort cmp sorted rest).
Proof.
  revert sorted. induction rest as [|pivot rest IH]; intros sorted HS; [exact HS|].
  simpl. apply IH.
  destruct (searchLeft_spec (List.length sorted) pivot sorted 0 (List.length sorted))
    as [Hk [HL HR]]; try lia; [now left | now left|].
  now apply insertAt_sorted.
Qed.

Lemma binaryInsertion_sorted (l : list A) : Sorted (Spec.notAbove comparefn) (binaryInsertion cmp l).
Proof.
  unfold binaryInsertion. pose proof (CountAndMakeRun_sorted l) as H.
  destruct (CountAndMakeRun cmp l) as [run rest]. simpl in H.
  now apply BinaryInsertionSort_sorted.
Qed.

End BinaryInsertionFacts.

Section BinaryInsertionMap.

Variable comparefn : A -> A -> option Z.
Variable f : A -> A.
Hypothesis comparefn_f : forall a b, comparefn (f a) (f b) = comparefn a b.

Local Abbreviation cmp := (fun a b : A => SortCompare (comparefn a b)).

Lemma cmp_f (a b : A) : cmp (f a) (f b) = cmp a b.
Proof. cbv beta. now rewrite comparefn_f. Qed.


Lemma restOfRun_map isDescending prev (l : list A) :
  restOfRun cmp isDescending (f prev) (map f l)
  = (map f (fst (restOfRun cmp isDescending prev l)),
     map f (snd (restOfRun cmp isDescending prev l))).
Proof.
  revert prev. induction l as [|cur l IH]; intros prev; [reflexivity|].
  cbn [map restOfRun]. cbv zeta. rewrite cmp_f.
  destruct (if isDescending then 0 <=? cmp cur prev else cmp cur prev <? 0); [reflexivity|].
  rewrite IH. now destruct (restOfRun cmp isDescending cur l).
Qed.

Lemma CountAndMakeRun_map (l : list A) :
  CountAndMakeRun cmp (map f l)
  = (map f (fst (CountAndMakeRun cmp l)), map f (snd (CountAndMakeRun cmp l))).
Proof.
  destruct l as [|a [|b l]]; try reflexivity.
  cbn [map CountAndMakeRun]. cbv zeta. rewrite cmp_f, restOfRun_map.
  destruct (restOfRun cmp (cmp b a <? 0) b l) as [run rest]. cbn [fst snd].
  destruct (cmp b a <? 0); [|reflexivity].
  now rewrite (map_rev f (a :: b :: run)).
Qed.

Lemma searchLeft_map (fuel : nat) (pivot : A) (sorted : list A) :
  forall left right,
    searchLeft cmp fuel (f pivot) (map f sorted) left right
    = searchLeft cmp fuel pivot sorted left right.
Proof.
  induction fuel as [|fuel IH]; intros left right; [reflexivity|].
  cbn [searchLeft]. cbv zeta. rewrite nth_error_map.
  destruct (left <? right)%nat; [|reflexivity].
  destruct (nth_error sorted _) as [m|]; [|reflexivity]. simpl.
  rewrite cmp_f. now rewrite !IH.
Qed.

Lemma BinaryInsertionSort_map (rest sorted : list A) :
  BinaryInsertionSort cmp (map f sorted) (map f rest)
  = map f (BinaryInsertionSort cmp sorted rest).
Proof.
  revert sorted. induction rest as [|pivot rest IH]; intros sorted; [reflexivity|].
  simpl. rewrite <- IH. f_equal.
  rewrite length_map, searchLeft_map. unfold insertAt.
  now rewrite map_app, firstn_map, skipn_map.
Qed.

Lemma binaryInsertion_map (l : list A) :
  binaryInsertion cmp (map f l) = map f (binaryInsertion cmp l).
Proof.
  unfold binaryInsertion. rewrite CountAndMakeRun_map.
  destruct (CountAndMakeRun cmp l) as [run rest]. apply BinaryInsertionSort_map.
Qed.

End BinaryInsertionMap.

(** The binary insertion sort is the sort of an engine. *)
Lemma binaryInsertionSort_rearranges : Spec.rearranges (@binaryInsertionSort A).
Proof. intros comparefn l. apply binaryInsertion_perm. Qed.

Lemma binaryInsertionSort_orders : Spec.ordersByComparisons (@binaryInsertionSort A).
Proof.
  intros comparefn l. unfold binaryInsertionSort.
  apply Sorted_member_weaken with (R := Spec.notAbove comparefn);
    [|apply binaryInsertion_sorted].
  intros a b Hb Hab. apply Spec.linked_step with b.
  - eapply Permutation_in; [apply binaryInsertion_perm | exact Hb].
  - exact Hab.
  - apply Spec.linked_refl.
Qed.

Lemma binaryInsertionSort_reads : Spec.readsThroughComparator (@binaryInsertionSort A).
Proof.
  intros f comparefn l H. unfold binaryInsertionSort. now apply binaryInsertion_map.
Qed.

End EngineFacts.

(** ** Numbers *)

Section NumberFacts.

Lemma jsle_trans (a b c : jsnum) :
  jsle a b = true -> jsle b c = true -> jsle a c = true.
Proof.
  destruct a as [x| | |], b as [y| | |], c as [z| | |]; simpl; try discriminate; try reflexivity.
  intros H1 H2. apply Qle_bool_iff in H1, H2. apply Qle_bool_iff.
  eapply Qle_trans; eassumption.
Qed.

(** A number compares with itself unless it is [NaN]. *)
Lemma jsle_refl (a b : jsnum) : jsle a b = true -> jsle b b = true.
Proof.
  destruct a, b; simpl; try discriminate; try reflexivity;
    intros _; apply Qle_bool_iff, Qle_refl.
Qed.

Lemma jsadd_grows : Spec.addGrows jsadd.
Proof.
  intros [x| | |] p Hx Hp; simpl in *; try discriminate; try reflexivity.
  apply Qle_bool_iff. rewrite <- (Qplus_0_r x) at 1.
  apply Qplus_le_r. exact Hp.
Qed.

Lemma jsadd_monotone : Spec.addMonotone jsadd.
Proof.
  intros [x| | |] [y| | |] p Hx Hxy Hp; simpl in *; try discriminate; try reflexivity.
  apply Qle_bool_iff in Hxy. apply Qle_bool_iff.
  apply Qplus_le_l. exact Hxy.
Qed.

Lemma jsdiv_unit : Spec.divUnit jsdiv.
Proof.
  intros [a| | |] t Ha Hat Ht; simpl in *; try discriminate.
  apply Qle_bool_iff in Ha, Hat.
  assert (Hz : Qeq_bool t 0 = false).
  { apply not_true_is_false. intros H. apply Qeq_bool_eq in H.
    rewrite H in Ht. now apply (Qlt_irrefl 0). }
  rewrite Hz. simpl. split; apply Qle_bool_iff.
  - apply Qle_shift_div_l; [assumption|]. now rewrite Qmult_0_l.
  - apply Qle_shift_div_r; [assumption|]. now rewrite Qmult_1_l.
Qed.

Lemma jsmul_percent : Spec.mulPercent jsmul.
Proof.
  intros [r| | |] H0 H1; simpl in *; try discriminate.
  apply Qle_bool_iff in H0, H1. split; apply Qle_bool_iff.
  - rewrite <- (Qmult_0_l (100 # 1)). apply Qmult_le_compat_r; [assumption | discriminate].
  - setoid_replace (100 # 1)%Q with (1 * (100 # 1))%Q at 2 by ring.
    apply Qmult_le_compat_r; [assumption | discriminate].
Qed.

End NumberFacts.

Section StringFacts.

Lemma startsWith_spec (s p : string) :
  startsWith s p = true <-> exists t, s = p ++ t.
Proof.
  revert s. induction p as [|a p IH]; intros s; simpl.
  - split; [intros _; now exists s | intros _; now destruct s].
  - destruct s as [|b s].
    + split; [discriminate | intros [t Ht]; discriminate].
    + simpl. rewrite andb_true_iff, Ascii.eqb_eq, IH. split.
      * intros [-> [t ->]]. now exists t.
      * intros [t Ht]. injection Ht as -> ->. split; [reflexivity | now exists t].
Qed.

Lemma includes_spec (s sub : string) :
  includes s sub = true <-> exists pre post, s = pre ++ sub ++ post.
Proof.
  induction s as [|c s IH].
  - cbn [includes]. rewrite orb_false_r, startsWith_spec. split.
    + intros [t Ht]. now exists "", t.
    + intros [pre [post H]]. destruct pre; [now exists post | discriminate].
  - cbn [includes]. rewrite orb_true_iff, IH, startsWith_spec. split.
    + intros [[t Ht] | [pre [post H]]].
      * now exists "", t.
      * exists (String c pre), post. simpl. now rewrite H.
    + intros [pre [post H]]. destruct pre as [|a pre].
      * left. now exists post.
      * right. simpl in H. injection H as _ H. now exists pre, post.
Qed.

Lemma includes_self (s : string) : includes s s = true.
Proof.
  apply includes_spec. exists "", "". simpl.
  induction s as [|c s IH]; simpl; [reflexivity | now rewrite <- IH].
Qed.

Lemma has_spec (l : list string) (s : string) : has l s = true <-> In s l.
Proof.
  unfold has. rewrite existsb_exists. split.
  - intros [x [Hx E]]. apply String.eqb_eq in E. now subst.
  - intros H. exists s. split; [assumption | apply String.eqb_refl].
Qed.

Lemma onList_spec (ids : list string) (hash : string) :
  GovernanceDetail.onList ids hash = true
  <-> exists actionId, In actionId ids /\ Spec.matchesId hash actionId.
Proof.
  unfold GovernanceDetail.onList, Spec.matchesId. rewrite existsb_exists.
  split; intros [x [Hx H]]; exists x; (split; [assumption|]).
  - apply orb_true_iff in H. destruct H as [H|H].
    + left. now apply String.eqb_eq.
    + right. now apply includes_spec.
  - apply orb_true_iff. destruct H as [H|H].
    + left. now apply String.eqb_eq.
    + right. now apply includes_spec.
Qed.

Lemma isLegacyAction_spec (hash : string) :
  GovernanceDetail.isLegacyAction hash = true <-> Spec.onLegacyList hash.
Proof. unfold GovernanceDetail.isLegacyAction. apply onList_spec. Qed.

Lemma split_spec (s : string) (sep : ascii) :
  split s sep
  = Spec.firstSegment sep s
      :: (if includes_char s sep then split (Spec.afterFirst sep s) sep else []).
Proof.
  induction s as [|c s IH]; simpl; [reflexivity|].
  destruct (Ascii.eqb c sep); simpl; [reflexivity|].
  now rewrite IH.
Qed.

Lemma firstSegment_app (sep : ascii) (tx rest : string) :
  includes_char tx sep = false ->
  Spec.firstSegment sep (tx ++ String sep rest) = tx
  /\ Spec.afterFirst sep (tx ++ String sep rest) = rest
  /\ includes_char (tx ++ String sep rest) sep = true.
Proof.
  induction tx as [|c tx IH]; simpl; intros H.
  - now rewrite Ascii.eqb_refl.
  - apply orb_false_iff in H. destruct H as [Hc Htx].
    rewrite Hc. simpl. destruct (IH Htx) as [-> [-> ->]]. auto.
Qed.

Lemma includes_char_app (c : ascii) (s t : string) :
  includes_char (s ++ t) c = includes_char s c || includes_char t c.
Proof.
  induction s as [|a s IH]; simpl; [reflexivity|].
  now rewrite IH, orb_assoc.
Qed.

Lemma parseWith_readAs (sep : ascii) (hash : string) :
  GovernanceDetail.parseWith sep hash = Spec.readAs sep hash.
Proof.
  unfold GovernanceDetail.parseWith, Spec.readAs.
  rewrite split_spec.
  destruct (includes_char hash sep); [|reflexivity].
  rewrite split_spec.
  destruct (parseInt10 _); destruct (is_empty _); reflexivity.
Qed.

Lemma readAs_no_separator (sep : ascii) (hash : string) :
  includes_char hash sep = false -> Spec.readAs sep hash = None.
Proof. unfold Spec.readAs. now intros ->. Qed.

Lemma readAs_fails (sep : ascii) (hash : string) :
  (includes_char hash sep = true ->
   Spec.firstSegment sep hash = ""
   \/ parseInt10 (Spec.firstSegment sep (Spec.afterFirst sep hash)) = None) ->
  Spec.readAs sep hash = None.
Proof.
  unfold Spec.readAs. intros H.
  destruct (includes_char hash sep); [|reflexivity].
  destruct (H eq_refl) as [-> | ->]; [reflexivity|].
  now destruct (is_empty _).
Qed.

Lemma readAs_form (sep : ascii) (tx rest : string) :
  includes_char tx sep = false ->
  Spec.readAs sep (tx ++ String sep rest)
  = if is_empty tx then None
    else match parseInt10 (Spec.firstSegment sep rest) with
         | Some n => Some (tx, n)
         | None => None
         end.
Proof.
  intros H. unfold Spec.readAs.
  destruct (firstSegment_app sep tx rest H) as [-> [-> ->]]. reflexivity.
Qed.

Lemma parseProposalHash_readAs (hash : string) :
  GovernanceDetail.parseProposalHash hash
  = match Spec.readAs ":" hash with
    | Some r => Some r
    | None => Spec.readAs "#" hash
    end.
Proof.
  unfold GovernanceDetail.parseProposalHash. rewrite !parseWith_readAs.
  destruct hash; [reflexivity|]. cbn [is_empty].
  destruct (Spec.readAs ":" _); [reflexivity|].
  now destruct (Spec.readAs "#" _).
Qed.

End StringFacts.

(* ================================================================== *)
(** * The sorting step of the table *)
(* ================================================================== *)

Lemma StronglySorted_weaken {A : Type} (R R' : A -> A -> Prop) (l : list A) :
  (forall a b, R a b -> R' a b) -> StronglySorted R l -> StronglySorted R' l.
Proof.
  intros HR. induction 1 as [|x l Hl IH Hx]; constructor; [assumption|].
  eapply Forall_impl; [|exact Hx]. intros; now apply HR.
Qed.

Lemma compareActions_le (a b : Api.GovernanceAction) :
  GovernanceTable.compareActions a b <= 0 <-> Spec.epochDescending a b.
Proof.
  unfold GovernanceTable.compareActions, Spec.epochDescending, Spec.epochKey. simpl.
  destruct (Z.eqb_spec (nullish (Api.submissionEpoch a) 0)
                       (nullish (Api.submissionEpoch b) 0)); lia.
Qed.

Lemma compareActions_total (a b : Api.GovernanceAction) :
  0 < GovernanceTable.compareActions a b -> GovernanceTable.compareActions b a <= 0.
Proof.
  unfold GovernanceTable.compareActions.
  destruct (Z.eqb_spec (nullish (Api.submissionEpoch a) 0)
                       (nullish (Api.submissionEpoch b) 0)) as [E|E].
  - rewrite E, Z.eqb_refl. lia.
  - destruct (Z.eqb_spec (nullish (Api.submissionEpoch b) 0)
                         (nullish (Api.submissionEpoch a) 0)); lia.
Qed.

Lemma epochDescending_trans (a b c : Api.GovernanceAction) :
  Spec.epochDescending a b -> Spec.epochDescending b c -> Spec.epochDescending a c.
Proof. unfold Spec.epochDescending. lia. Qed.

Lemma compareActions_trans (a b c : Api.GovernanceAction) :
  GovernanceTable.compareActions a b <= 0 ->
  GovernanceTable.compareActions b c <= 0 ->
  GovernanceTable.compareActions a c <= 0.
Proof. rewrite !compareActions_le. apply epochDescending_trans. Qed.

Lemma sortedActions_sorted (actions : list Api.GovernanceAction) :
  StronglySorted Spec.epochDescending (GovernanceTable.sortedActions actions).
Proof.
  apply StronglySorted_weaken with (R := fun a b => GovernanceTable.compareActions a b <= 0).
  - intros a b. apply compareActions_le.
  - apply sort_sorted with (dom := fun _ => True).
    + intros x y _ _. apply compareActions_total.
    + intros x y z _ _ _. apply compareActions_trans.
    + apply Forall_forall. trivial.
Qed.

(** Any arrangement of the actions that is in this order and keeps tied
    actions in input order is the one [sortedActions] returns. *)
Lemma sortedActions_unique (actions sorted : list Api.GovernanceAction) :
  Permutation sorted actions ->
  StronglySorted Spec.epochDescending sorted ->
  (forall s e, filter (Spec.sameEpochs s e) sorted = filter (Spec.sameEpochs s e) actions) ->
  sorted = GovernanceTable.sortedActions actions.
Proof.
  intros HP HS HF.
  assert (Hclass : forall a b : Api.GovernanceAction,
             (GovernanceTable.compareActions a b <=? 0)
             && (GovernanceTable.compareActions b a <=? 0)
             = Spec.sameEpochs (fst (Spec.epochKey a)) (snd (Spec.epochKey a)) b).
  { intros a b. unfold Spec.sameEpochs.
    apply eq_true_iff_eq.
    rewrite !andb_true_iff, !Z.leb_le, !Z.eqb_eq, !compareActions_le.
    unfold Spec.epochDescending. lia. }
  assert (Hstable : forall s e,
             filter (Spec.sameEpochs s e) (GovernanceTable.sortedActions actions)
             = filter (Spec.sameEpochs s e) actions).
  { intros s e. apply sort_stable.
    induction actions as [|x l IH'] in |- *; constructor; [|assumption].
    apply Forall_forall. intros y _ Hx Hy.
    apply compareActions_le. unfold Spec.sameEpochs in *. unfold Spec.epochDescending.
    apply andb_prop in Hx, Hy. destruct Hx as [Hx1 Hx2], Hy as [Hy1 Hy2].
    apply Z.eqb_eq in Hx1, Hx2, Hy1, Hy2. lia. }
  apply (sorted_stable_unique GovernanceTable.compareActions).
  - intros x. apply compareActions_le. unfold Spec.epochDescending. lia.
  - eapply StronglySorted_weaken; [|exact HS]. intros a b. apply compareActions_le.
  - eapply StronglySorted_weaken; [|apply sortedActions_sorted].
    intros a b. apply compareActions_le.
  - intros a. rewrite (filter_ext _ _ (Hclass a)).
    rewrite (filter_ext _ _ (Hclass a) (GovernanceTable.sortedActions actions)).
    now rewrite HF, Hstable.
  - eapply perm_trans; [exact HP | apply Permutation_sym, sort_perm].
Qed.

(** C6.  [sortedActions] returns a permutation of its input, ordered by
    [submissionEpoch] descending and then by [expiryEpoch] descending;
    the order is total and transitive; actions with the same two keys
    keep the relative order they have in the input. *)
Theorem sortedActions_stable_descending (actions : list Api.GovernanceAction) :
  Permutation (GovernanceTable.sortedActions actions) actions
  /\ StronglySorted Spec.epochDescending (GovernanceTable.sortedActions actions)
  /\ (forall a b, Spec.epochDescending a b \/ Spec.epochDescending b a)
  /\ (forall a b c, Spec.epochDescending a b -> Spec.epochDescending b c ->
                    Spec.epochDescending a c)
  /\ (forall s e, filter (Spec.sameEpochs s e) (GovernanceTable.sortedActions actions)
                  = filter (Spec.sameEpochs s e) actions).
Proof.
  split; [apply sort_perm|].
  split; [apply sortedActions_sorted|].
  split; [intros a b; unfold Spec.epochDescending; lia|].
  split; [apply epochDescending_trans|].
  intros s e. apply sort_stable.
  assert (H : forall l : list Api.GovernanceAction,
             ForallOrdPairs
               (fun x y => Spec.sameEpochs s e x = true -> Spec.sameEpochs s e y = true ->
                           GovernanceTable.compareActions x y <= 0) l).
  { induction l as [|x l IH]; constructor; [|assumption].
    apply Forall_forall. intros y _ Hx Hy.
    apply compareActions_le. unfold Spec.sameEpochs in *. unfold Spec.epochDescending.
    apply andb_prop in Hx, Hy. destruct Hx as [Hx1 Hx2], Hy as [Hy1 Hy2].
    apply Z.eqb_eq in Hx1, Hx2, Hy1, Hy2. lia. }
  apply H.
Qed.

(** The order at three of the example actions: epochs 10, 7 and 5. *)
Lemma sortedActions_stable_descending_witness :
  Spec.epochDescending (Spec.actionOf "b10:0" "InfoAction" "Active" 10 15)
                       (Spec.actionOf "x7:0" "Other" "Active" 7 12)
  /\ Spec.epochDescending (Spec.actionOf "x7:0" "Other" "Active" 7 12)
                          (Spec.actionOf "a5:0" "Treasury" "Active" 5 10)
  /\ Spec.epochDescending (Spec.actionOf "b10:0" "InfoAction" "Active" 10 15)
                          (Spec.actionOf "a5:0" "Treasury" "Active" 5 10).
Proof.
  assert (H1 : Spec.epochDescending (Spec.actionOf "b10:0" "InfoAction" "Active" 10 15)
                                    (Spec.actionOf "x7:0" "Other" "Active" 7 12))
    by (left; reflexivity).
  assert (H2 : Spec.epochDescending (Spec.actionOf "x7:0" "Other" "Active" 7 12)
                                    (Spec.actionOf "a5:0" "Treasury" "Active" 5 10))
    by (left; reflexivity).
  split; [exact H1|]. split; [exact H2|].
  exact (proj1 (proj2 (proj2 (proj2 (sortedActions_stable_descending Spec.exampleActions))))
           _ _ _ H1 H2).
Defined.

Example sortedActions_example :
  map Api.hash (GovernanceTable.sortedActions Spec.exampleActions)
  = ["b10:0"; "x7:0"; "a5:0"; "a1:0"].
Proof. reflexivity. Qed.

Example sortedActions_ties_keep_order :
  map Api.hash
      (GovernanceTable.sortedActions
         [ Spec.actionOf "first" "Treasury" "Active" 5 10;
           Spec.actionOf "later-expiry" "Treasury" "Active" 5 11;
           Spec.actionOf "second" "InfoAction" "Expired" 5 10 ])
  = ["later-expiry"; "first"; "second"].
Proof. reflexivity. Qed.

(* ================================================================== *)
(** * Unit conversion *)
(* ================================================================== *)

Section Conversion.

Variable Number : string -> jsnum.

Lemma lovelaceToAdaNumber_finite (lovelace : option string) :
  isFinite (Api.lovelaceToAdaNumber Number lovelace) = true.
Proof.
  unfold Api.lovelaceToAdaNumber.
  destruct lovelace as [s|]; [|reflexivity].
  destruct (is_empty s); [reflexivity|].
  destruct (Number s); reflexivity.
Qed.

Lemma lovelaceToAdaNumber_value (lovelace : option string) :
  exists q, Api.lovelaceToAdaNumber Number lovelace = Finite q.
Proof.
  pose proof (lovelaceToAdaNumber_finite lovelace) as H.
  destruct (Api.lovelaceToAdaNumber Number lovelace) as [q| | |];
    try discriminate; now exists q.
Qed.

(** C8.  [lovelaceToAdaNumber] divides the numeric value of a
    non-empty string by 1,000,000; it returns [0] for [undefined], for
    the empty string and for a string whose numeric value is [NaN] or
    an infinity; its result is always a finite number (the function is
    total, so it never raises). *)
Theorem lovelaceToAdaNumber_spec :
  (forall s q, s <> "" -> Number s = Finite q ->
               Api.lovelaceToAdaNumber Number (Some s) = Finite (q / (1000000 # 1)))
  /\ Api.lovelaceToAdaNumber Number None = Finite 0
  /\ Api.lovelaceToAdaNumber Number (Some "") = Finite 0
  /\ (forall s, isFinite (Number s) = false ->
                Api.lovelaceToAdaNumber Number (Some s) = Finite 0)
  /\ (forall lovelace, exists q, Api.lovelaceToAdaNumber Number lovelace = Finite q).
Proof.
  unfold Api.lovelaceToAdaNumber.
  repeat split.
  - intros s q Hs Hq. destruct s; [contradiction|]. simpl. now rewrite Hq.
  - intros s Hs. destruct (is_empty s); [reflexivity|].
    destruct (Number s); simpl in *; [discriminate|reflexivity..].
  - apply lovelaceToAdaNumber_value.
Qed.

End Conversion.

(** The conversion at the lovelace amount [1500000]. *)
Lemma lovelaceToAdaNumber_spec_witness :
  "1500000" <> ""
  /\ Api.decimalNumber "1500000" = Finite (1500000 # 1)
  /\ Api.lovelaceToAdaNumber Api.decimalNumber (Some "1500000")
     = Finite ((1500000 # 1) / (1000000 # 1)).
Proof.
  split; [discriminate|]. split; [reflexivity|].
  apply (proj1 (lovelaceToAdaNumber_spec Api.decimalNumber)); [discriminate | reflexivity].
Defined.

Example lovelaceToAdaNumber_not_a_number :
  Api.lovelaceToAdaNumber Api.decimalNumber (Some "not-a-number") = Finite 0.
Proof. reflexivity. Qed.

Example lovelaceToAdaNumber_infinity :
  Api.lovelaceToAdaNumber Api.decimalNumber (Some "-Infinity") = Finite 0.
Proof. reflexivity. Qed.

(* ================================================================== *)
(** * The action record normalizer *)
(* ================================================================== *)

(** C2, as stated, fails: for a raw action without SPO and CC tallies the
    flat SPO and CC fields of the normalized record are [undefined]. *)
Lemma transformGovernanceAction_flat_fields_absent :
  Spec.flatFieldsPresent (Api.transformGovernanceAction Api.decimalNumber Spec.bareAction)
  = false
  /\ Api.spoYesPercent (Api.transformGovernanceAction Api.decimalNumber Spec.bareAction)
     = None
  /\ Api.ccYesCount (Api.transformGovernanceAction Api.decimalNumber Spec.bareAction)
     = None.
Proof. repeat split. Qed.

Section Normalizer.

Variable Number : string -> jsnum.
Variable action : Api.GovernanceAction.

Lemma or_str_default (a : option string) (d : string) :
  falsy_str a = true -> or_str a d = d.
Proof. destruct a as [[|c s]|]; simpl; congruence. Qed.

Lemma or_str_keep (a : option string) (d : string) :
  falsy_str a = false -> Some (or_str a d) = a.
Proof. destruct a as [[|c s]|]; simpl; congruence. Qed.

Lemma defaulted_nullish {X : Type} (raw : option X) (d : X) :
  Spec.defaulted raw (Some (nullish raw d)) d.
Proof. destruct raw; reflexivity. Qed.

(** C2, amended.  In the normalized record the DRep percentages, the
    vote totals and the two epochs are present, holding the raw value
    or [0] when it is absent; the three DRep ADA amounts are present
    and finite; the flat SPO and CC percentages and counts are the raw
    nested values, absent when the raw tally or field is absent, and
    the SPO ADA amounts are present exactly when the SPO tally is;
    [title] is "Untitled Proposal" when the raw title is empty or
    absent and the raw title otherwise, and likewise
    [constitutionality] with "Unspecified". *)
Theorem transformGovernanceAction_defaults :
  let out := Api.transformGovernanceAction Number action in
  (Spec.defaulted (opt_field (Api.drep action) Api.yesPercent) (Api.drepYesPercent out) 0%Q
   /\ Spec.defaulted (opt_field (Api.drep action) Api.noPercent) (Api.drepNoPercent out) 0%Q
   /\ Spec.defaulted (opt_field (Api.drep action) Api.abstainPercent)
                     (Api.drepAbstainPercent out) 0%Q)
  /\ (Spec.defaulted (Api.totalYes action) (Api.totalYes out) 0
      /\ Spec.defaulted (Api.totalNo action) (Api.totalNo out) 0
      /\ Spec.defaulted (Api.totalAbstain action) (Api.totalAbstain out) 0)
  /\ (Spec.defaulted (Api.submissionEpoch action) (Api.submissionEpoch out) 0
      /\ Spec.defaulted (Api.expiryEpoch action) (Api.expiryEpoch out) 0)
  /\ ((exists q, Api.drepYesAda out = Some (Finite q))
      /\ (exists q, Api.drepNoAda out = Some (Finite q))
      /\ (exists q, Api.drepAbstainAda out = Some (Finite q)))
  /\ (Api.spoYesPercent out = opt_field (Api.spo action) Api.yesPercent
      /\ Api.spoNoPercent out = opt_field (Api.spo action) Api.noPercent
      /\ Api.spoAbstainPercent out = opt_field (Api.spo action) Api.abstainPercent)
  /\ (Spec.present (Api.spoYesAda out) = Spec.present (Api.spo action)
      /\ Spec.present (Api.spoNoAda out) = Spec.present (Api.spo action)
      /\ Spec.present (Api.spoAbstainAda out) = Spec.present (Api.spo action))
  /\ (Api.ccYesPercent out = opt_field (Api.cc action) Api.cc_yesPercent
      /\ Api.ccNoPercent out = opt_field (Api.cc action) Api.cc_noPercent
      /\ Api.ccAbstainPercent out = opt_field (Api.cc action) Api.cc_abstainPercent
      /\ Api.ccYesCount out = opt_field (Api.cc action) Api.cc_yesCount
      /\ Api.ccNoCount out = opt_field (Api.cc action) Api.cc_noCount
      /\ Api.ccAbstainCount out = opt_field (Api.cc action) Api.cc_abstainCount)
  /\ (falsy_str (Api.title action) = true -> Api.title out = Some "Untitled Proposal")
  /\ (falsy_str (Api.title action) = false -> Api.title out = Api.title action)
  /\ (falsy_str (Api.constitutionality action) = true ->
      Api.constitutionality out = Some "Unspecified")
  /\ (falsy_str (Api.constitutionality action) = false ->
      Api.constitutionality out = Api.constitutionality action).
Proof.
  intros out. subst out. unfold Api.transformGovernanceAction. simpl.
  repeat match goal with |- _ /\ _ => split end;
    lazymatch goal with
    | |- Spec.defaulted _ _ _ => apply defaulted_nullish
    | |- exists _, Some (Api.lovelaceToAdaNumber _ ?l) = _ =>
        let q := fresh "q" in let Hq := fresh "Hq" in
        destruct (lovelaceToAdaNumber_value Number l) as [q Hq];
        exists q; now rewrite Hq
    | |- Spec.present _ = _ => destruct (Api.spo action); reflexivity
    | |- falsy_str _ = true -> _ => intros H; now rewrite or_str_default
    | |- falsy_str _ = false -> _ => intros H; now apply or_str_keep
    | |- _ => reflexivity
    end.
Qed.

End Normalizer.

(** The amended statement at a raw action without a title. *)
Lemma transformGovernanceAction_defaults_witness :
  falsy_str (Api.title Spec.bareAction) = true
  /\ Api.title (Api.transformGovernanceAction Api.decimalNumber Spec.bareAction)
     = Some "Untitled Proposal".
Proof.
  split; [reflexivity|].
  apply (transformGovernanceAction_defaults Api.decimalNumber Spec.bareAction).
  reflexivity.
Defined.

(* ================================================================== *)
(** * Role eligibility: legacy overrides and the type sets *)
(* ================================================================== *)

(** C4.  For an action whose hash equals or contains the legacy
    identifier gov_action1k2je...05ecsn, [isDrepNotApplicable] and
    [isSpoNotApplicable] both return [true], whatever the type of the
    action: the list is consulted before the type sets. *)
Theorem legacy_override_drep_spo (action : Api.GovernanceActionDetail) :
  Spec.matchesId (Api.hash (Api.base action)) Spec.legacyK2je ->
  GovernanceDetail.isDrepNotApplicable action = true
  /\ GovernanceDetail.isSpoNotApplicable action = true.
Proof.
  intros H.
  assert (HD : GovernanceDetail.onList GovernanceDetail.LEGACY_NON_APPLICABLE_DREP_ACTIONS
                 (Api.hash (Api.base action)) = true).
  { apply onList_spec. exists Spec.legacyK2je. split; [now left | assumption]. }
  assert (HS : GovernanceDetail.onList GovernanceDetail.LEGACY_NON_APPLICABLE_SPO_ACTIONS
                 (Api.hash (Api.base action)) = true).
  { apply onList_spec. exists Spec.legacyK2je. split; [now left | assumption]. }
  unfold GovernanceDetail.isDrepNotApplicable, GovernanceDetail.isSpoNotApplicable.
  cbv zeta. now rewrite HD, HS.
Qed.

(** The override at a hash that contains the identifier, for a type on
    which SPOs would vote. *)
Lemma legacy_override_drep_spo_witness :
  Spec.matchesId ("x" ++ Spec.legacyK2je ++ "#0") Spec.legacyK2je
  /\ GovernanceDetail.isDrepNotApplicable
       (Spec.detailOf ("x" ++ Spec.legacyK2je ++ "#0") "Hard Fork Initiation") = true
  /\ GovernanceDetail.isSpoNotApplicable
       (Spec.detailOf ("x" ++ Spec.legacyK2je ++ "#0") "Hard Fork Initiation") = true.
Proof.
  assert (H : Spec.matchesId ("x" ++ Spec.legacyK2je ++ "#0") Spec.legacyK2je)
    by (right; exists "x", "#0"; reflexivity).
  split; [exact H|].
  apply (legacy_override_drep_spo
           (Spec.detailOf ("x" ++ Spec.legacyK2je ++ "#0") "Hard Fork Initiation")).
  exact H.
Defined.

(** C5.  For an action on none of the legacy lists: [isCcNotApplicable]
    holds exactly when the type is "No Confidence" or "Update
    Committee"; [isSpoNotApplicable] holds exactly when the type is "New
    Constitution", "Protocol Parameter Change" or "Treasury
    Withdrawals"; [isDrepNotApplicable] is [false]. *)
Theorem type_sets_decide_when_not_legacy (action : Api.GovernanceActionDetail) :
  ~ Spec.onLegacyList (Api.hash (Api.base action)) ->
  (GovernanceDetail.isCcNotApplicable action = true
   <-> (Api.type (Api.base action) = "No Confidence"
        \/ Api.type (Api.base action) = "Update Committee"))
  /\ (GovernanceDetail.isSpoNotApplicable action = true
      <-> (Api.type (Api.base action) = "New Constitution"
           \/ Api.type (Api.base action) = "Protocol Parameter Change"
           \/ Api.type (Api.base action) = "Treasury Withdrawals"))
  /\ GovernanceDetail.isDrepNotApplicable action = false.
Proof.
  intros H.
  assert (HL : GovernanceDetail.isLegacyAction (Api.hash (Api.base action)) = false).
  { apply not_true_is_false. intros E. apply isLegacyAction_spec in E. contradiction. }
  assert (HD : GovernanceDetail.onList GovernanceDetail.LEGACY_NON_APPLICABLE_DREP_ACTIONS
                 (Api.hash (Api.base action)) = false).
  { apply not_true_is_false. intros E.
    apply H. apply onList_spec in E. destruct E as [x [Hx Hm]].
    exists x. split; [apply in_or_app; now left | assumption]. }
  assert (HS : GovernanceDetail.onList GovernanceDetail.LEGACY_NON_APPLICABLE_SPO_ACTIONS
                 (Api.hash (Api.base action)) = false).
  { apply not_true_is_false. intros E.
    apply H. apply onList_spec in E. destruct E as [x [Hx Hm]].
    exists x. split; [apply in_or_app; right; apply in_or_app; now left | assumption]. }
  unfold GovernanceDetail.isCcNotApplicable, GovernanceDetail.isSpoNotApplicable,
    GovernanceDetail.isDrepNotApplicable.
  cbv zeta. rewrite HL, HD, HS. cbn [negb].
  change (GovernanceDetail.onList GovernanceDetail.LEGACY_NON_APPLICABLE_CC_ACTIONS
            (Api.hash (Api.base action))) with false.
  cbv iota. rewrite !has_spec.
  unfold GovernanceDetail.CC_NOT_APPLICABLE_TYPES, GovernanceDetail.SPO_NOT_APPLICABLE_TYPES.
  cbn [In].
  split; [|split; [|reflexivity]]; split; intros HT;
    repeat (destruct HT as [HT|HT]); auto; contradiction.
Qed.

(** The type sets at a "No Confidence" action with an ordinary hash. *)
Lemma type_sets_decide_when_not_legacy_witness :
  ~ Spec.onLegacyList "ab12:0"
  /\ GovernanceDetail.isCcNotApplicable (Spec.detailOf "ab12:0" "No Confidence") = true
  /\ GovernanceDetail.isSpoNotApplicable (Spec.detailOf "ab12:0" "No Confidence") = false
  /\ GovernanceDetail.isDrepNotApplicable (Spec.detailOf "ab12:0" "No Confidence") = false.
Proof.
  assert (H : ~ Spec.onLegacyList "ab12:0").
  { intros H. apply isLegacyAction_spec in H. vm_compute in H. discriminate. }
  split; [exact H|].
  destruct (type_sets_decide_when_not_legacy (Spec.detailOf "ab12:0" "No Confidence") H)
    as [Hcc [Hspo Hdrep]].
  split; [apply Hcc; now left|].
  split; [reflexivity | exact Hdrep].
Defined.

(* ================================================================== *)
(** * Proposal hashes *)
(* ================================================================== *)

(** C10.  [parseProposalHash] returns [null] for the empty string and
    for a hash with neither ":" nor "#", and more generally for a hash
    in which, for each of the two separators it contains, the
    transaction hash in front of the separator is empty or the index
    behind it does not parse; for [tx ++ ":" ++ rest] with a non-empty
    [tx] free of ":" and an index (the text of [rest] up to the next
    ":") that parses, it returns [tx] and the index, whether or not "#"
    occurs; for [tx ++ "#" ++ rest] it does likewise when the ":"
    reading yields nothing, the ":" form being tried first; in general
    the result is the ":" reading when that succeeds and the "#" reading
    otherwise; the table's copy of the function is the same function. *)
Theorem parseProposalHash_forms :
  GovernanceDetail.parseProposalHash "" = None
  /\ (forall hash,
        includes_char hash ":" = false -> includes_char hash "#" = false ->
        GovernanceDetail.parseProposalHash hash = None)
  /\ (forall hash,
        (forall sep, sep = ":"%char \/ sep = "#"%char ->
                     includes_char hash sep = true ->
                     Spec.firstSegment sep hash = ""
                     \/ parseInt10 (Spec.firstSegment sep (Spec.afterFirst sep hash)) = None) ->
        GovernanceDetail.parseProposalHash hash = None)
  /\ (forall tx rest n,
        tx <> "" -> includes_char tx ":" = false ->
        parseInt10 (Spec.firstSegment ":" rest) = Some n ->
        GovernanceDetail.parseProposalHash (tx ++ ":" ++ rest) = Some (tx, n))
  /\ (forall tx rest n,
        tx <> "" -> includes_char tx "#" = false ->
        Spec.readAs ":" (tx ++ "#" ++ rest) = None ->
        parseInt10 (Spec.firstSegment "#" rest) = Some n ->
        GovernanceDetail.parseProposalHash (tx ++ "#" ++ rest) = Some (tx, n))
  /\ (forall hash,
        GovernanceDetail.parseProposalHash hash
        = match Spec.readAs ":" hash with
          | Some r => Some r
          | None => Spec.readAs "#" hash
          end)
  /\ (forall hash,
        GovernanceTable.parseProposalHash hash = GovernanceDetail.parseProposalHash hash).
Proof.
  split; [reflexivity|].
  split.
  { intros hash H1 H2. rewrite parseProposalHash_readAs.
    now rewrite !readAs_no_separator. }
  split.
  { intros hash H. rewrite parseProposalHash_readAs.
    now rewrite !readAs_fails by (apply H; auto). }
  split.
  { intros tx rest n Htx Hc Hn. rewrite parseProposalHash_readAs.
    change (tx ++ ":" ++ rest) with (tx ++ String ":" rest).
    rewrite readAs_form by assumption. rewrite Hn.
    destruct tx; [contradiction | reflexivity]. }
  split.
  { intros tx rest n Htx Hh Hc Hn. rewrite parseProposalHash_readAs, Hc.
    change (tx ++ "#" ++ rest) with (tx ++ String "#" rest).
    rewrite readAs_form by assumption. rewrite Hn.
    destruct tx; [contradiction | reflexivity]. }
  split; [apply parseProposalHash_readAs | reflexivity].
Qed.

(** The ":" form at a hash that also contains "#". *)
Lemma parseProposalHash_forms_witness :
  "ab#1" <> ""
  /\ includes_char "ab#1" ":" = false
  /\ parseInt10 (Spec.firstSegment ":" "12:z") = Some 12
  /\ GovernanceDetail.parseProposalHash ("ab#1" ++ ":" ++ "12:z") = Some ("ab#1", 12).
Proof.
  split; [discriminate|]. split; [reflexivity|]. split; [reflexivity|].
  apply (proj1 (proj2 (proj2 (proj2 parseProposalHash_forms))));
    [discriminate | reflexivity..].
Defined.

Example parseProposalHash_plain : GovernanceDetail.parseProposalHash "ab12" = None.
Proof. reflexivity. Qed.

Example parseProposalHash_hash_form :
  GovernanceTable.parseProposalHash "ab12#3" = Some ("ab12", 3).
Proof. reflexivity. Qed.

Example parseProposalHash_bad_index : GovernanceDetail.parseProposalHash "ab12:x" = None.
Proof. reflexivity. Qed.

Example parseProposalHash_falls_through :
  GovernanceDetail.parseProposalHash "ab#3:x" = Some ("ab", 3).
Proof. reflexivity. Qed.

(* ================================================================== *)
(** * Abstain-value derivation *)
(* ================================================================== *)

Section Abstain.

Local Open Scope Q_scope.

Variables yesValue yesPercent noValue noPercent : option Q.

Lemma deriveAbstainValue_nonneg (abstainPercentOpt : option Q) :
  0 <= VoteMath.deriveAbstainValue yesValue yesPercent noValue noPercent abstainPercentOpt.
Proof.
  unfold VoteMath.deriveAbstainValue. cbv zeta.
  destruct (Qle_bool _ 0); [apply Qle_refl | apply Q.le_max_l].
Qed.

Lemma deriveAbstainValue_positive_sum (a : Q) :
  0 < nullish yesPercent 0 + nullish noPercent 0 ->
  VoteMath.deriveAbstainValue yesValue yesPercent noValue noPercent (Some a)
  = Qmax 0 (VoteMath.impliedAbstain yesValue yesPercent noValue noPercent a).
Proof.
  intros H. unfold VoteMath.deriveAbstainValue, VoteMath.impliedAbstain. cbv zeta.
  destruct (Qle_bool _ 0) eqn:E; [|reflexivity].
  apply Qle_bool_iff in E. exfalso. apply (Qlt_irrefl 0).
  eapply Qlt_le_trans; eassumption.
Qed.

(** C9, amended.  [deriveAbstainValue] is never negative; it is [0]
    when [yesPercent + noPercent] is zero (a missing operand counting as
    0); with an abstain percentage and [yesPercent + noPercent > 0] it
    is the implied abstain amount
    [(yesValue + noValue) / (yesPercent + noPercent) * 100 * abstainPercent / 100]
    floored at [0], hence that amount itself whenever the amount is not
    negative. *)
Theorem deriveAbstainValue_floored :
  (forall abstainPercentOpt,
      0 <= VoteMath.deriveAbstainValue yesValue yesPercent noValue noPercent abstainPercentOpt)
  /\ (forall abstainPercentOpt,
         nullish yesPercent 0 + nullish noPercent 0 == 0 ->
         VoteMath.deriveAbstainValue yesValue yesPercent noValue noPercent abstainPercentOpt
         = 0)
  /\ (forall a,
         0 < nullish yesPercent 0 + nullish noPercent 0 ->
         VoteMath.deriveAbstainValue yesValue yesPercent noValue noPercent (Some a)
         = Qmax 0 (VoteMath.impliedAbstain yesValue yesPercent noValue noPercent a))
  /\ (forall a,
         0 < nullish yesPercent 0 + nullish noPercent 0 ->
         0 <= VoteMath.impliedAbstain yesValue yesPercent noValue noPercent a ->
         VoteMath.deriveAbstainValue yesValue yesPercent noValue noPercent (Some a)
         == VoteMath.impliedAbstain yesValue yesPercent noValue noPercent a).
Proof.
  split; [apply deriveAbstainValue_nonneg|].
  split.
  { intros ap H. unfold VoteMath.deriveAbstainValue. cbv zeta.
    destruct (Qle_bool _ 0) eqn:E; [reflexivity|].
    assert (Hle : Qle_bool (nullish yesPercent 0 + nullish noPercent 0) 0 = true)
      by (apply Qle_bool_iff; rewrite H; apply Qle_refl).
    congruence. }
  split; [apply deriveAbstainValue_positive_sum|].
  intros a H H0. rewrite deriveAbstainValue_positive_sum by assumption.
  now apply Q.max_r.
Qed.

End Abstain.

(** C9, as stated, fails in its third part: for an explicit abstain
    percentage of -50 with yes and no at 50 percent and 10 units each,
    the implied amount is -10 while the result, floored, is 0. *)
Lemma deriveAbstainValue_not_formula :
  (0 < nullish (Some (50 # 1)) 0 + nullish (Some (50 # 1)) 0)%Q
  /\ VoteMath.deriveAbstainValue (Some (10 # 1)) (Some (50 # 1)) (Some (10 # 1))
       (Some (50 # 1)) (Some (- (50 # 1))%Q) = 0%Q
  /\ (VoteMath.impliedAbstain (Some (10 # 1)) (Some (50 # 1)) (Some (10 # 1))
        (Some (50 # 1)) (- (50 # 1)) == - (10 # 1))%Q
  /\ ~ (VoteMath.deriveAbstainValue (Some (10 # 1)) (Some (50 # 1)) (Some (10 # 1))
          (Some (50 # 1)) (Some (- (50 # 1))%Q)
        == VoteMath.impliedAbstain (Some (10 # 1)) (Some (50 # 1)) (Some (10 # 1))
             (Some (50 # 1)) (- (50 # 1)))%Q.
Proof.
  split; [reflexivity|]. split; [reflexivity|]. split; [reflexivity|].
  intros H. vm_compute in H. discriminate.
Qed.

(** The amended statement at 30 and 10 units with 60 and 20 percent and
    an abstain percentage of 20: the implied total is 50, the abstain
    amount 10. *)
Lemma deriveAbstainValue_floored_witness :
  (0 < nullish (Some (60 # 1)) 0 + nullish (Some (20 # 1)) 0)%Q
  /\ (0 <= VoteMath.impliedAbstain (Some (30 # 1)) (Some (60 # 1)) (Some (10 # 1))
            (Some (20 # 1)) (20 # 1))%Q
  /\ (VoteMath.deriveAbstainValue (Some (30 # 1)) (Some (60 # 1)) (Some (10 # 1))
        (Some (20 # 1)) (Some (20 # 1))
      == VoteMath.impliedAbstain (Some (30 # 1)) (Some (60 # 1)) (Some (10 # 1))
           (Some (20 # 1)) (20 # 1))%Q
  /\ (VoteMath.impliedAbstain (Some (30 # 1)) (Some (60 # 1)) (Some (10 # 1))
        (Some (20 # 1)) (20 # 1) == 10 # 1)%Q.
Proof.
  assert (H1 : (0 < nullish (Some (60 # 1)) 0 + nullish (Some (20 # 1)) 0)%Q)
    by reflexivity.
  assert (H2 : (0 <= VoteMath.impliedAbstain (Some (30 # 1)) (Some (60 # 1)) (Some (10 # 1))
                       (Some (20 # 1)) (20 # 1))%Q)
    by (vm_compute; discriminate).
  split; [exact H1|]. split; [exact H2|].
  split; [|reflexivity].
  apply (proj2 (proj2 (proj2 (deriveAbstainValue_floored
                                (Some (30 # 1)) (Some (60 # 1)) (Some (10 # 1))
                                (Some (20 # 1)))))); assumption.
Defined.

(* ================================================================== *)
(** * The vote timeline: accumulation *)
(* ================================================================== *)

Section Accumulation.

Variable add : jsnum -> jsnum -> jsnum.

Local Abbreviation accumulate := (GovernanceDetail.accumulate add).

Lemma or_zero_nullish (o : option Q) : (GovernanceDetail.or_zero o == nullish o 0)%Q.
Proof.
  destruct o as [q|]; simpl; [|reflexivity].
  destruct (Qeq_bool q 0) eqn:E; [|reflexivity].
  apply Qeq_bool_eq in E. now rewrite E.
Qed.

Lemma countOf_cons kind (v : Api.VoteRecord) (l : list Api.VoteRecord) :
  Spec.countOf kind (v :: l) = (if kind v then 1 else 0) + Spec.countOf kind l.
Proof.
  unfold Spec.countOf. simpl. destruct (kind v); simpl List.length; lia.
Qed.

Lemma countOf_perm kind (l l' : list Api.VoteRecord) :
  Permutation l l' -> Spec.countOf kind l = Spec.countOf kind l'.
Proof.
  induction 1 as [|x l l' _ IH|x y l|l l' l'' _ IH1 _ IH2].
  - reflexivity.
  - rewrite !countOf_cons. lia.
  - rewrite !countOf_cons. lia.
  - congruence.
Qed.

(** The sum of the powers of the votes of a kind, from [s] on. *)
Lemma powerFrom_cons kind (s : jsnum) (v : Api.VoteRecord) (l : list Api.VoteRecord) :
  fold_left (fun sum v => add sum (Spec.votePower v)) (filter kind (v :: l)) s
  = fold_left (fun sum v => add sum (Spec.votePower v)) (filter kind l)
              (if kind v then add s (Spec.votePower v) else s).
Proof. simpl. now destruct (kind v). Qed.

(** What one turn of the switch adds to each total. *)
Lemma accumulate_counts (t : GovernanceDetail.Totals) (v : GovernanceDetail.DatedVote) :
  let r := GovernanceDetail.record v in
  let t' := accumulate t v in
  GovernanceDetail.t_yesCount t'
  = GovernanceDetail.t_yesCount t + (if Spec.isYes r then 1 else 0)
  /\ GovernanceDetail.t_noCount t'
     = GovernanceDetail.t_noCount t + (if Spec.isNo r then 1 else 0)
  /\ GovernanceDetail.t_abstainCount t'
     = GovernanceDetail.t_abstainCount t + (if Spec.isAbstain r then 1 else 0).
Proof.
  unfold GovernanceDetail.accumulate, Spec.isAbstain, Spec.isYes, Spec.isNo. cbv zeta.
  destruct (String.eqb_spec (Api.vote (GovernanceDetail.record v)) "Yes") as [E|E].
  - rewrite E. simpl. lia.
  - destruct (String.eqb (Api.vote (GovernanceDetail.record v)) "No"); simpl; lia.
Qed.

Lemma accumulate_powers (t : GovernanceDetail.Totals) (v : GovernanceDetail.DatedVote) :
  let r := GovernanceDetail.record v in
  let t' := accumulate t v in
  GovernanceDetail.t_yesPower t'
  = (if Spec.isYes r then add (GovernanceDetail.t_yesPower t) (Spec.votePower r)
     else GovernanceDetail.t_yesPower t)
  /\ GovernanceDetail.t_noPower t'
     = (if Spec.isNo r then add (GovernanceDetail.t_noPower t) (Spec.votePower r)
        else GovernanceDetail.t_noPower t)
  /\ GovernanceDetail.t_abstainPower t'
     = (if Spec.isAbstain r then add (GovernanceDetail.t_abstainPower t) (Spec.votePower r)
        else GovernanceDetail.t_abstainPower t).
Proof.
  unfold GovernanceDetail.accumulate, Spec.isAbstain, Spec.isYes, Spec.isNo, Spec.votePower.
  cbv zeta.
  destruct (String.eqb_spec (Api.vote (GovernanceDetail.record v)) "Yes") as [E|E].
  - rewrite E. simpl. repeat split.
  - destruct (String.eqb (Api.vote (GovernanceDetail.record v)) "No"); simpl; repeat split.
Qed.

(** The closure variables after a run are the initial ones plus the
    totals of the votes seen. *)
Lemma run_counts (l : list GovernanceDetail.DatedVote) (t : GovernanceDetail.Totals) :
  GovernanceDetail.t_yesCount (Spec.run add t l)
  = GovernanceDetail.t_yesCount t
    + Spec.countOf Spec.isYes (map GovernanceDetail.record l)
  /\ GovernanceDetail.t_noCount (Spec.run add t l)
     = GovernanceDetail.t_noCount t
       + Spec.countOf Spec.isNo (map GovernanceDetail.record l)
  /\ GovernanceDetail.t_abstainCount (Spec.run add t l)
     = GovernanceDetail.t_abstainCount t
       + Spec.countOf Spec.isAbstain (map GovernanceDetail.record l).
Proof.
  revert t. induction l as [|v l IH]; intros t.
  - unfold Spec.countOf. simpl. lia.
  - change (Spec.run add t (v :: l)) with (Spec.run add (accumulate t v) l).
    destruct (IH (accumulate t v)) as [-> [-> ->]].
    destruct (accumulate_counts t v) as [-> [-> ->]].
    cbn [map]. rewrite !countOf_cons. lia.
Qed.

Lemma run_powers (l : list GovernanceDetail.DatedVote) (t : GovernanceDetail.Totals) :
  GovernanceDetail.t_yesPower (Spec.run add t l)
  = fold_left (fun sum v => add sum (Spec.votePower v))
              (filter Spec.isYes (map GovernanceDetail.record l))
              (GovernanceDetail.t_yesPower t)
  /\ GovernanceDetail.t_noPower (Spec.run add t l)
     = fold_left (fun sum v => add sum (Spec.votePower v))
                 (filter Spec.isNo (map GovernanceDetail.record l))
                 (GovernanceDetail.t_noPower t)
  /\ GovernanceDetail.t_abstainPower (Spec.run add t l)
     = fold_left (fun sum v => add sum (Spec.votePower v))
                 (filter Spec.isAbstain (map GovernanceDetail.record l))
                 (GovernanceDetail.t_abstainPower t).
Proof.
  revert t. induction l as [|v l IH]; intros t.
  - repeat split.
  - change (Spec.run add t (v :: l)) with (Spec.run add (accumulate t v) l).
    destruct (IH (accumulate t v)) as [-> [-> ->]].
    destruct (accumulate_powers t v) as [-> [-> ->]].
    cbn [map]. rewrite !powerFrom_cons. repeat split.
Qed.

(** A run from zero leaves the six totals of the votes seen. *)
Lemma run_cumulative (l : list GovernanceDetail.DatedVote) :
  Spec.run add GovernanceDetail.zeroTotals l
  = Spec.cumulative add (map GovernanceDetail.record l).
Proof.
  destruct (run_counts l GovernanceDetail.zeroTotals) as [C1 [C2 C3]].
  destruct (run_powers l GovernanceDetail.zeroTotals) as [P1 [P2 P3]].
  unfold Spec.cumulative, Spec.powerOf.
  destruct (Spec.run add GovernanceDetail.zeroTotals l). simpl in *.
  now subst.
Qed.

End Accumulation.

Section Walk.

Variable newDate : string -> GovernanceDetail.Date.
Variable toLocaleString : Z -> string.
Variable arraySort : ArraySort GovernanceDetail.DatedVote.
Variable add : jsnum -> jsnum -> jsnum.

Hypothesis sort_rearranges : Spec.rearranges arraySort.

Local Abbreviation walk := (GovernanceDetail.walk toLocaleString add).
Local Abbreviation accumulate := (GovernanceDetail.accumulate add).

Lemma walk_length t i l : List.length (walk t i l) = List.length l.
Proof.
  revert t i. induction l as [|v l IH]; intros t i; simpl; [reflexivity|].
  now rewrite IH.
Qed.

Lemma totalsOf_accumulate t i v :
  Spec.totalsOf
    {| GovernanceDetail.label := GovernanceDetail.pointLabel toLocaleString v i;
       GovernanceDetail.yesCount := GovernanceDetail.t_yesCount (accumulate t v);
       GovernanceDetail.noCount := GovernanceDetail.t_noCount (accumulate t v);
       GovernanceDetail.abstainCount := GovernanceDetail.t_abstainCount (accumulate t v);
       GovernanceDetail.yesPower := GovernanceDetail.t_yesPower (accumulate t v);
       GovernanceDetail.noPower := GovernanceDetail.t_noPower (accumulate t v);
       GovernanceDetail.abstainPower := GovernanceDetail.t_abstainPower (accumulate t v) |}
  = accumulate t v.
Proof. unfold Spec.totalsOf. simpl. now destruct (GovernanceDetail.accumulate add t v). Qed.

(** The point in position [k] shows the closure variables after the
    callback has run over the first [k + 1] votes. *)
Lemma walk_nth (l : list GovernanceDetail.DatedVote) :
  forall t i k p,
    nth_error (walk t i l) k = Some p ->
    Spec.totalsOf p = Spec.run add t (firstn (S k) l).
Proof.
  induction l as [|v l IH]; intros t i k p H.
  - destruct k; discriminate.
  - cbn [GovernanceDetail.walk] in H. cbv zeta in H. destruct k as [|k].
    + injection H as <-. rewrite totalsOf_accumulate. reflexivity.
    + cbn [nth_error] in H. rewrite (IH _ _ _ _ H). reflexivity.
Qed.

Section Monotone.

Variable R : GovernanceDetail.Totals -> GovernanceDetail.Totals -> Prop.
Variable good : GovernanceDetail.DatedVote -> Prop.
Hypothesis R_trans : forall t1 t2 t3, R t1 t2 -> R t2 t3 -> R t1 t3.
Hypothesis R_step : forall t v, good v -> R t (accumulate t v).

Lemma walk_above t i l :
  Forall good l -> Forall (fun p => R t (Spec.totalsOf p)) (walk t i l).
Proof.
  intros H. revert t i. induction H as [|v l Hv Hl IH]; intros t i; [constructor|].
  cbn [GovernanceDetail.walk]. cbv zeta.
  pose proof (R_step t v Hv) as Hstep.
  constructor.
  - now rewrite totalsOf_accumulate.
  - eapply Forall_impl; [|apply IH]. intros p Hp. simpl in Hp. eauto.
Qed.

Lemma walk_sorted t i l :
  Forall good l ->
  StronglySorted (fun p q => R (Spec.totalsOf p) (Spec.totalsOf q)) (walk t i l).
Proof.
  intros H. revert t i. induction H as [|v l Hv Hl IH]; intros t i; [constructor|].
  cbn [GovernanceDetail.walk]. cbv zeta.
  constructor; [apply IH|].
  eapply Forall_impl; [|apply (walk_above (accumulate t v)); exact Hl].
  intros p Hp. simpl in Hp. now rewrite totalsOf_accumulate.
Qed.

End Monotone.

Lemma record_mapi_from i (votes : list Api.VoteRecord) :
  map GovernanceDetail.record (mapi_from i (GovernanceDetail.withDate newDate) votes) = votes.
Proof.
  revert i. induction votes as [|v l IH]; intros i; simpl; [reflexivity|].
  now rewrite IH.
Qed.

Lemma votesWithDates_perm (votes : list Api.VoteRecord) :
  Permutation
    (map GovernanceDetail.record (GovernanceDetail.votesWithDates newDate arraySort votes))
    votes.
Proof.
  unfold GovernanceDetail.votesWithDates, mapi.
  rewrite <- (record_mapi_from 0 votes) at 2.
  apply Permutation_map, sort_rearranges.
Qed.

Lemma voteTimelineData_walk (allVotes : list Api.VoteRecord)
    (curveRoleFilter : GovernanceDetail.RoleFilter) :
  GovernanceDetail.voteTimelineData newDate toLocaleString arraySort add allVotes
    curveRoleFilter
  = walk GovernanceDetail.zeroTotals 0
         (GovernanceDetail.votesWithDates newDate arraySort
            (GovernanceDetail.roleFilteredVotes allVotes curveRoleFilter)).
Proof.
  unfold GovernanceDetail.voteTimelineData. cbv zeta.
  destruct (GovernanceDetail.roleFilteredVotes allVotes curveRoleFilter) eqn:E;
    [|reflexivity].
  simpl. unfold GovernanceDetail.votesWithDates, mapi. simpl.
  pose proof (sort_rearranges GovernanceDetail.compareVotes []) as HP.
  apply Permutation_sym, Permutation_nil in HP. now rewrite HP.
Qed.

Lemma powersFrom_trans t1 t2 t3 : Spec.powersFrom t1 t2 -> Spec.powersFrom t2 t3 -> Spec.powersFrom t1 t3.
Proof.
  intros H12 H23 H1. destruct (H12 H1) as [H2 [A1 [A2 A3]]].
  destruct (H23 H2) as [H3 [B1 [B2 B3]]].
  split; [exact H3|]. repeat split; eapply jsle_trans; eassumption.
Qed.

Lemma powersFrom_step t v :
  Spec.addGrows add ->
  (0 <= nullish (Api.votingPowerAda (GovernanceDetail.record v)) 0)%Q ->
  Spec.powersFrom t (accumulate t v).
Proof.
  intros Hadd Hv [N1 [N2 N3]].
  assert (Hp : (0 <= GovernanceDetail.or_zero (Api.votingPowerAda (GovernanceDetail.record v)))%Q)
    by now rewrite or_zero_nullish.
  pose proof (Hadd (GovernanceDetail.t_yesPower t) _ N1 Hp) as G1.
  pose proof (Hadd (GovernanceDetail.t_noPower t) _ N2 Hp) as G2.
  pose proof (Hadd (GovernanceDetail.t_abstainPower t) _ N3 Hp) as G3.
  destruct (accumulate_powers add t v) as [E1 [E2 E3]]. cbv zeta in E1, E2, E3.
  unfold Spec.votePower in E1, E2, E3. rewrite E1, E2, E3.
  destruct (Spec.isYes _), (Spec.isNo _), (Spec.isAbstain _);
    repeat split;
    lazymatch goal with
    | |- jsle (Finite 0) (add ?x _) = true => apply jsle_trans with x; assumption
    | |- jsle ?x ?x = true => apply jsle_refl with (Finite 0); assumption
    | _ => assumption
    end.
Qed.

(** C7, amended.  For every sort that rearranges the array and every
    addition: the timeline has one point per role-filtered vote; the
    point in position k carries the six totals of the first k + 1
    votes of the sorted sequence, a vote other than "Yes" and "No"
    counting as an abstention, a missing power as 0, and the powers
    being added in the order of the sequence; the three cumulative
    counts never decrease along the timeline; the three cumulative
    powers never decrease when no vote has a negative [votingPowerAda],
    by the order fact of binary64 addition; the last point carries the
    totals over the whole sorted sequence, whose counts are the counts
    of the role-filtered collection. *)
Theorem voteTimelineData_cumulative (allVotes : list Api.VoteRecord)
    (curveRoleFilter : GovernanceDetail.RoleFilter) :
  let votes := GovernanceDetail.roleFilteredVotes allVotes curveRoleFilter in
  let sorted :=
    map GovernanceDetail.record (GovernanceDetail.votesWithDates newDate arraySort votes) in
  let points :=
    GovernanceDetail.voteTimelineData newDate toLocaleString arraySort add allVotes
      curveRoleFilter in
  List.length points = List.length votes
  /\ Permutation sorted votes
  /\ (forall k p, nth_error points k = Some p ->
                  Spec.totalsOf p = Spec.cumulative add (firstn (S k) sorted))
  /\ StronglySorted Spec.countsLe points
  /\ (Spec.addGrows add -> Spec.nonNegativePower votes ->
      StronglySorted Spec.powersLe points)
  /\ (forall front final,
         points = (front ++ [final])%list ->
         Spec.totalsOf final = Spec.cumulative add sorted
         /\ Spec.carriesCounts votes final).
Proof.
  intros votes sorted points. subst points sorted. rewrite voteTimelineData_walk. fold votes.
  pose proof (votesWithDates_perm votes) as HP.
  set (dated := GovernanceDetail.votesWithDates newDate arraySort votes) in *.
  assert (Hlen : List.length dated = List.length votes)
    by (rewrite <- (Permutation_length HP); now rewrite length_map).
  assert (Hnth : forall k p,
             nth_error (walk GovernanceDetail.zeroTotals 0 dated) k = Some p ->
             Spec.totalsOf p
             = Spec.cumulative add (firstn (S k) (map GovernanceDetail.record dated))).
  { intros k p H. rewrite (walk_nth _ _ _ _ _ H), run_cumulative. now rewrite firstn_map. }
  split; [now rewrite walk_length|].
  split; [exact HP|].
  split; [exact Hnth|].
  split.
  { apply (walk_sorted
             (fun t1 t2 =>
                GovernanceDetail.t_yesCount t1 <= GovernanceDetail.t_yesCount t2
                /\ GovernanceDetail.t_noCount t1 <= GovernanceDetail.t_noCount t2
                /\ GovernanceDetail.t_abstainCount t1 <= GovernanceDetail.t_abstainCount t2)
             (fun _ => True)).
    - intros; lia.
    - intros t v _. destruct (accumulate_counts add t v) as [-> [-> ->]].
      destruct (Spec.isYes _), (Spec.isNo _), (Spec.isAbstain _); lia.
    - apply Forall_forall. trivial. }
  split.
  { intros Hadd Hnn.
    assert (Hgood : Forall (fun v => (0 <= nullish (Api.votingPowerAda
                                                      (GovernanceDetail.record v)) 0)%Q)
                           dated).
    { apply Forall_map with (f := GovernanceDetail.record)
                            (P := fun r => (0 <= nullish (Api.votingPowerAda r) 0)%Q).
      eapply Permutation_Forall; [apply Permutation_sym, HP | exact Hnn]. }
    assert (Hzero : jsle (Finite 0) (Finite 0) = true) by reflexivity.
    pose proof (walk_above Spec.powersFrom _ powersFrom_trans
                  (fun t v => powersFrom_step t v Hadd)
                  GovernanceDetail.zeroTotals 0 dated Hgood) as Habove.
    pose proof (walk_sorted Spec.powersFrom _ powersFrom_trans
                  (fun t v => powersFrom_step t v Hadd)
                  GovernanceDetail.zeroTotals 0 dated Hgood) as Hsorted.
    eapply StronglySorted_weaken_on; [|exact Habove|exact Hsorted].
    intros p q Hp _ Hpq. cbv beta in Hp.
    destruct (Hp (conj Hzero (conj Hzero Hzero))) as [Np _].
    destruct (Hpq Np) as [_ Hle]. exact Hle. }
  intros front final Hpts.
  assert (Hk : nth_error (walk GovernanceDetail.zeroTotals 0 dated) (List.length front)
               = Some final).
  { rewrite Hpts, nth_error_app2, Nat.sub_diag by apply Nat.le_refl. reflexivity. }
  assert (Hall : firstn (S (List.length front)) (map GovernanceDetail.record dated)
                 = map GovernanceDetail.record dated).
  { apply firstn_all2. rewrite length_map, <- (walk_length GovernanceDetail.zeroTotals 0 dated),
      Hpts, length_app. simpl. lia. }
  pose proof (Hnth _ _ Hk) as Hfinal. rewrite Hall in Hfinal.
  split; [exact Hfinal|].
  unfold Spec.carriesCounts.
  change (GovernanceDetail.yesCount final)
    with (GovernanceDetail.t_yesCount (Spec.totalsOf final)).
  change (GovernanceDetail.noCount final)
    with (GovernanceDetail.t_noCount (Spec.totalsOf final)).
  change (GovernanceDetail.abstainCount final)
    with (GovernanceDetail.t_abstainCount (Spec.totalsOf final)).
  rewrite Hfinal. simpl.
  now rewrite !(countOf_perm _ _ _ HP).
Qed.

End Walk.

(** C7, as stated, fails for the power fields: a vote with a negative
    [votingPowerAda] lowers the cumulative power.  Neither vote has a
    timestamp, so they stay in input order, and 5 + (-3) is exact in
    binary64. *)
Lemma voteTimelineData_power_decreases :
  map GovernanceDetail.yesPower
      (GovernanceDetail.voteTimelineData GovernanceDetail.millisDate
         GovernanceDetail.millisLabel binaryInsertionSort jsadd
         [ Spec.voteOf "DRep" "Yes" (Some (5 # 1)) None;
           Spec.voteOf "DRep" "Yes" (Some (- (3 # 1))%Q) None ]
         GovernanceDetail.All)
  = [Finite (5 # 1); Finite (2 # 1)]
  /\ ~ StronglySorted Spec.powersLe
        (GovernanceDetail.voteTimelineData GovernanceDetail.millisDate
           GovernanceDetail.millisLabel binaryInsertionSort jsadd
           [ Spec.voteOf "DRep" "Yes" (Some (5 # 1)) None;
             Spec.voteOf "DRep" "Yes" (Some (- (3 # 1))%Q) None ]
           GovernanceDetail.All).
Proof.
  split; [reflexivity|].
  intros H. vm_compute in H.
  inversion H as [|p l _ Hall]; subst.
  inversion Hall as [|q l' Hle _]; subst.
  destruct Hle as [Hle _]. vm_compute in Hle. discriminate.
Qed.

(** The amended statement at the three votes of the examples, with the
    insertion sort and sums that need no rounding. *)
Lemma voteTimelineData_cumulative_witness :
  Spec.rearranges (@insertionSort GovernanceDetail.DatedVote)
  /\ Spec.addGrows jsadd
  /\ Spec.nonNegativePower
       (GovernanceDetail.roleFilteredVotes Spec.threeVotes GovernanceDetail.All)
  /\ StronglySorted Spec.powersLe
       (GovernanceDetail.voteTimelineData GovernanceDetail.millisDate
          GovernanceDetail.millisLabel insertionSort jsadd Spec.threeVotes
          GovernanceDetail.All).
Proof.
  assert (H : Spec.nonNegativePower
                (GovernanceDetail.roleFilteredVotes Spec.threeVotes GovernanceDetail.All))
    by (repeat constructor; discriminate).
  split; [exact insertionSort_rearranges|].
  split; [exact jsadd_grows|].
  split; [exact H|].
  exact (proj1 (proj2 (proj2 (proj2 (proj2
           (voteTimelineData_cumulative
              GovernanceDetail.millisDate GovernanceDetail.millisLabel
              insertionSort jsadd insertionSort_rearranges
              Spec.threeVotes GovernanceDetail.All))))) jsadd_grows H).
Defined.

Example voteTimelineData_three_votes :
  map (fun p => (GovernanceDetail.label p, GovernanceDetail.yesPower p,
                 GovernanceDetail.noPower p, GovernanceDetail.abstainPower p))
      (GovernanceDetail.voteTimelineData GovernanceDetail.millisDate
         GovernanceDetail.millisLabel insertionSort jsadd Spec.threeVotes
         GovernanceDetail.All)
  = [ ("t=1000", Finite (0 # 1), Finite (0 # 1), Finite (2 # 1));
      ("t=3000", Finite (10 # 1), Finite (0 # 1), Finite (2 # 1));
      ("Vote 3", Finite (10 # 1), Finite (5 # 1), Finite (2 # 1)) ].
Proof. reflexivity. Qed.

(* ================================================================== *)
(** * The vote timeline: order of the points *)
(* ================================================================== *)

Section TimelineOrder.

Variable newDate : string -> GovernanceDetail.Date.
Variable arraySort : ArraySort GovernanceDetail.DatedVote.

Hypothesis sort_rearranges : Spec.rearranges arraySort.
Hypothesis sort_orders : Spec.ordersByComparisons arraySort.

Local Abbreviation cmp := Spec.timelineCompare.

Lemma votesWithDates_sort (votes : list Api.VoteRecord) :
  GovernanceDetail.votesWithDates newDate arraySort votes
  = arraySort GovernanceDetail.compareVotes
              (mapi_from 0 (GovernanceDetail.withDate newDate) votes).
Proof. reflexivity. Qed.

Lemma cmp_dated_undated a b :
  Spec.dated a = true -> Spec.dated b = false -> cmp a b = -1.
Proof.
  unfold Spec.timelineCompare, Spec.dated, GovernanceDetail.compareVotes.
  destruct (GovernanceDetail.date a), (GovernanceDetail.date b); simpl; congruence.
Qed.

Lemma cmp_undated_dated a b :
  Spec.dated a = false -> Spec.dated b = true -> cmp a b = 1.
Proof.
  unfold Spec.timelineCompare, Spec.dated, GovernanceDetail.compareVotes.
  destruct (GovernanceDetail.date a), (GovernanceDetail.date b); simpl; congruence.
Qed.

Lemma cmp_undated a b :
  Spec.dated a = false -> Spec.dated b = false ->
  cmp a b = GovernanceDetail.fallbackIndex a - GovernanceDetail.fallbackIndex b.
Proof.
  unfold Spec.timelineCompare, Spec.dated, GovernanceDetail.compareVotes.
  destruct (GovernanceDetail.date a), (GovernanceDetail.date b); simpl; congruence.
Qed.

Lemma cmp_times a b ta tb :
  Spec.timeOf a = Some ta -> Spec.timeOf b = Some tb -> cmp a b = ta - tb.
Proof.
  unfold Spec.timelineCompare, Spec.timeOf, GovernanceDetail.compareVotes, opt_field.
  destruct (GovernanceDetail.date a), (GovernanceDetail.date b); try discriminate.
  now intros -> ->.
Qed.

(** A vote without a date is not above a vote only if that vote has no
    date either and does not come before it in the input. *)
Lemma notAbove_undated a b :
  Spec.dated a = false -> Spec.notAbove GovernanceDetail.compareVotes a b ->
  Spec.dated b = false
  /\ GovernanceDetail.fallbackIndex a <= GovernanceDetail.fallbackIndex b.
Proof.
  intros Da H. unfold Spec.notAbove in H. fold (cmp a b) in H. fold (cmp b a) in H.
  destruct (Spec.dated b) eqn:Db.
  - rewrite (cmp_undated_dated a b Da Db), (cmp_dated_undated b a Db Da) in H. lia.
  - rewrite (cmp_undated a b Da Db), (cmp_undated b a Db Da) in H. split; [reflexivity | lia].
Qed.

Lemma linked_undated l a b :
  Spec.linked GovernanceDetail.compareVotes l a b -> Spec.dated a = false ->
  Spec.dated b = false
  /\ GovernanceDetail.fallbackIndex a <= GovernanceDetail.fallbackIndex b.
Proof.
  induction 1 as [a|a b c _ Hab _ IH]; intros Da; [split; [assumption | lia]|].
  destruct (notAbove_undated a b Da Hab) as [Db Hi].
  destruct (IH Db) as [Dc Hj]. split; [assumption | lia].
Qed.

(** In a result ordered by comparisons the votes with a date come
    first. *)
Lemma linked_precede l out :
  StronglySorted (Spec.linked GovernanceDetail.compareVotes l) out ->
  Spec.precede Spec.dated out = true.
Proof.
  induction 1 as [|x out Hout IH Hx]; [reflexivity|].
  cbn [Spec.precede]. destruct (Spec.dated x) eqn:Dx; [exact IH|].
  apply forallb_forall. intros y Hy. rewrite Forall_forall in Hx.
  now rewrite (proj1 (linked_undated l x y (Hx y Hy) Dx)).
Qed.

Lemma mapi_from_index_lower i (votes : list Api.VoteRecord) :
  Forall (fun b => i <= GovernanceDetail.fallbackIndex b)
         (mapi_from i (GovernanceDetail.withDate newDate) votes).
Proof.
  revert i. induction votes as [|v l IH]; intros i; simpl; constructor.
  - simpl. lia.
  - eapply Forall_impl; [|apply IH]. simpl. intros; lia.
Qed.

Lemma mapi_from_index_increasing i (votes : list Api.VoteRecord) :
  StronglySorted
    (fun a b => GovernanceDetail.fallbackIndex a < GovernanceDetail.fallbackIndex b)
    (mapi_from i (GovernanceDetail.withDate newDate) votes).
Proof.
  revert i. induction votes as [|v l IH]; intros i; simpl; constructor.
  - apply IH.
  - eapply Forall_impl; [|apply mapi_from_index_lower]. simpl. intros; lia.
Qed.

(** A class of dated votes read off the record alone. *)
Lemma filter_mapi_from (p : GovernanceDetail.DatedVote -> bool)
    (p' : Api.VoteRecord -> bool) i (votes : list Api.VoteRecord) :
  (forall v j, p (GovernanceDetail.withDate newDate v j) = p' v) ->
  map GovernanceDetail.record
      (filter p (mapi_from i (GovernanceDetail.withDate newDate) votes))
  = filter p' votes.
Proof.
  intros Hp. revert i. induction votes as [|v l IH]; intros i; simpl; [reflexivity|].
  rewrite Hp. destruct (p' v); simpl; now rewrite IH.
Qed.

Lemma undated_withDate v j :
  Spec.undated (GovernanceDetail.withDate newDate v j) = negb (Spec.hasTimestamp v).
Proof.
  unfold Spec.undated, Spec.dated, Spec.hasTimestamp, GovernanceDetail.withDate. simpl.
  now destruct (falsy_str (Api.votedAt v)).
Qed.

Lemma StronglySorted_filter {A : Type} (R : A -> A -> Prop) (p : A -> bool) (l : list A) :
  StronglySorted R l -> StronglySorted R (filter p l).
Proof.
  induction 1 as [|x l Hl IH Hx]; simpl; [constructor|].
  destruct (p x); [|assumption].
  constructor; [assumption|].
  rewrite Forall_forall in *. intros y Hy. apply filter_In in Hy. now apply Hx.
Qed.

(** In a result ordered by comparisons the votes without a date stand
    in the order of the input. *)
Lemma linked_undated_order (votes : list Api.VoteRecord) :
  filter Spec.undated (GovernanceDetail.votesWithDates newDate arraySort votes)
  = filter Spec.undated (mapi_from 0 (GovernanceDetail.withDate newDate) votes).
Proof.
  rewrite votesWithDates_sort.
  set (l := mapi_from 0 (GovernanceDetail.withDate newDate) votes).
  apply sorted_by_key_unique with (key := GovernanceDetail.fallbackIndex).
  - apply filter_Permutation, sort_rearranges.
  - apply StronglySorted_weaken_on
      with (R := Spec.linked GovernanceDetail.compareVotes l)
           (P := fun v => Spec.undated v = true).
    + intros a b Ha _ Hab. unfold Spec.undated in Ha. apply negb_true_iff in Ha.
      exact (proj2 (linked_undated l a b Hab Ha)).
    + apply Forall_forall. intros v Hv. now apply filter_In in Hv.
    + apply StronglySorted_filter, linked_StronglySorted, sort_orders.
  - apply StronglySorted_filter, mapi_from_index_increasing.
Qed.

Lemma cmp_flip_valid x y :
  Spec.validDate x -> Spec.validDate y -> 0 <= cmp y x -> cmp x y <= 0.
Proof.
  intros Vx Vy. unfold Spec.validDate in *.
  destruct (Spec.dated x) eqn:Dx, (Spec.dated y) eqn:Dy.
  - destruct (Vx eq_refl) as [tx Hx], (Vy eq_refl) as [ty Hy].
    rewrite (cmp_times x y tx ty), (cmp_times y x ty tx) by assumption. lia.
  - rewrite (cmp_dated_undated x y) by assumption. lia.
  - rewrite (cmp_dated_undated y x) by assumption. lia.
  - rewrite (cmp_undated x y), (cmp_undated y x) by assumption. lia.
Qed.

Lemma cmp_trans_valid x y z :
  Spec.validDate x -> Spec.validDate y -> Spec.validDate z ->
  cmp x y <= 0 -> cmp y z <= 0 -> cmp x z <= 0.
Proof.
  intros Vx Vy Vz. unfold Spec.validDate in *.
  destruct (Spec.dated x) eqn:Dx, (Spec.dated y) eqn:Dy, (Spec.dated z) eqn:Dz;
    repeat match goal with
           | H : true = true -> _ |- _ => destruct (H eq_refl) as [? ?]; clear H
           | H : false = true -> _ |- _ => clear H
           end;
    repeat match goal with
           | Ha : Spec.timeOf ?a = Some _, Hb : Spec.timeOf ?b = Some _
             |- context [cmp ?a ?b] => rewrite (cmp_times a b _ _ Ha Hb)
           | Ha : Spec.dated ?a = true, Hb : Spec.dated ?b = false
             |- context [cmp ?a ?b] => rewrite (cmp_dated_undated a b Ha Hb)
           | Ha : Spec.dated ?a = false, Hb : Spec.dated ?b = true
             |- context [cmp ?a ?b] => rewrite (cmp_undated_dated a b Ha Hb)
           | Ha : Spec.dated ?a = false, Hb : Spec.dated ?b = false
             |- context [cmp ?a ?b] => rewrite (cmp_undated a b Ha Hb)
           end; lia.
Qed.

Lemma cmp_refl_valid x : Spec.validDate x -> cmp x x <= 0.
Proof.
  intros Vx. unfold Spec.validDate in Vx. destruct (Spec.dated x) eqn:Dx.
  - destruct (Vx eq_refl) as [tx Hx]. rewrite (cmp_times x x tx tx) by assumption. lia.
  - rewrite (cmp_undated x x) by assumption. lia.
Qed.

(** On votes with valid dates the comparator is consistent, and a chain
    comes down to one comparison. *)
Lemma linked_valid l a b :
  Forall Spec.validDate l -> Spec.validDate a ->
  Spec.linked GovernanceDetail.compareVotes l a b ->
  Spec.validDate b /\ cmp a b <= 0.
Proof.
  intros Vl Va H. induction H as [a|a b c Hin Hab _ IH].
  - split; [assumption | now apply cmp_refl_valid].
  - assert (Vb : Spec.validDate b) by (rewrite Forall_forall in Vl; now apply Vl).
    destruct (IH Vb) as [Vc Hbc]. split; [assumption|].
    apply cmp_trans_valid with b; try assumption.
    destruct Hab as [Hab|Hab]; [exact Hab | now apply cmp_flip_valid].
Qed.

Lemma validDate_mapi_from i (votes : list Api.VoteRecord) :
  Spec.validTimestamps newDate votes ->
  Forall Spec.validDate (mapi_from i (GovernanceDetail.withDate newDate) votes).
Proof.
  intros H. revert i. induction H as [|v l Hv Hl IH]; intros i; simpl; constructor.
  - unfold Spec.validDate, Spec.dated, Spec.timeOf, GovernanceDetail.withDate. simpl.
    destruct (Api.votedAt v) as [[|c s]|]; simpl; try discriminate.
    intros _. specialize (Hv eq_refl).
    destruct (GovernanceDetail.getTime (newDate (String c s))) as [t|];
      [now exists t | contradiction].
  - apply IH.
Qed.

(** The timestamps of the dated elements of a sorted list ascend. *)
Lemma sorted_times (l : list GovernanceDetail.DatedVote) :
  Forall Spec.validDate l ->
  StronglySorted (fun a b => cmp a b <= 0) l ->
  exists times,
    map Spec.timeOf (filter Spec.dated l) = map Some times
    /\ StronglySorted Z.le times.
Proof.
  intros HV HS. induction HS as [|x l Hl IH Hx].
  - exists []. split; constructor.
  - inversion HV as [|? ? Vx Vl]; subst.
    destruct (IH Vl) as [times [Ht Hs]].
    simpl. destruct (Spec.dated x) eqn:Dx; [|now exists times].
    destruct (Vx Dx) as [t Htx].
    exists (t :: times). split; [simpl; now rewrite Htx, Ht|].
    constructor; [assumption|].
    apply Forall_forall. intros ty Hty.
    apply (in_map Some) in Hty. rewrite <- Ht in Hty.
    apply in_map_iff in Hty. destruct Hty as [y [Hy Hin]].
    apply filter_In in Hin. destruct Hin as [Hin _].
    rewrite Forall_forall in Hx. specialize (Hx y Hin).
    rewrite (cmp_times x y t ty Htx Hy) in Hx. lia.
Qed.


End TimelineOrder.



(** With a timestamp that does not parse the comparator answers [NaN]
    against it, and the order is the engine's: the insertion sort and
    the binary insertion sort leave the four votes in different orders,
    and neither has the parsed times ascend. *)
Example votesWithDates_invalid_date :
  map (fun v => Api.votingPowerAda (GovernanceDetail.record v))
      (GovernanceDetail.votesWithDates GovernanceDetail.millisDate insertionSort
         Spec.unparsedVotes)
  = [Some (2 # 1); Some (1 # 1); Some (3 # 1); Some (4 # 1)]
  /\ map (fun v => Api.votingPowerAda (GovernanceDetail.record v))
         (GovernanceDetail.votesWithDates GovernanceDetail.millisDate binaryInsertionSort
            Spec.unparsedVotes)
     = [Some (2 # 1); Some (4 # 1); Some (1 # 1); Some (3 # 1)].
Proof. split; reflexivity. Qed.

(** The six votes in the order of both sorts: the two votes without a
    timestamp come last, in input order. *)
Example votesWithDates_mixed :
  map (fun v => Api.votingPowerAda (GovernanceDetail.record v))
      (GovernanceDetail.votesWithDates GovernanceDetail.millisDate binaryInsertionSort
         Spec.mixedVotes)
  = [Some (3 # 1); Some (1 # 1); Some (4 # 1); Some (6 # 1); Some (2 # 1); Some (5 # 1)]
  /\ GovernanceDetail.votesWithDates GovernanceDetail.millisDate insertionSort
       Spec.mixedVotes
     = GovernanceDetail.votesWithDates GovernanceDetail.millisDate binaryInsertionSort
         Spec.mixedVotes.
Proof. split; reflexivity. Qed.

(* ================================================================== *)
(** * The rows of the table: priority and extras *)
(* ================================================================== *)

(** C3, as stated, fails: with all types and statuses selected and an
    empty query, the second Treasury action of the input is not among
    the rows. *)
Lemma tableRows_drops_showcase_action :
  GovernanceTable.tableRows Spec.exampleActions GovernanceTable.PROPOSAL_TYPES
    GovernanceTable.STATUS_OPTIONS ""
  = GovernanceTable.Ok
      [ Spec.actionOf "a5:0" "Treasury" "Active" 5 10;
        Spec.actionOf "b10:0" "InfoAction" "Active" 10 15;
        Spec.actionOf "x7:0" "Other" "Active" 7 12 ]
  /\ In (Spec.actionOf "a1:0" "Treasury" "Active" 1 6) Spec.exampleActions
  /\ ~ In (Spec.actionOf "a1:0" "Treasury" "Active" 1 6)
         [ Spec.actionOf "a5:0" "Treasury" "Active" 5 10;
           Spec.actionOf "b10:0" "InfoAction" "Active" 10 15;
           Spec.actionOf "x7:0" "Other" "Active" 7 12 ].
Proof.
  split; [reflexivity|]. split; [simpl; tauto|].
  simpl. intros [H|[H|[H|[]]]]; discriminate.
Qed.

Section Rows.

Variable shown : list Api.GovernanceAction.

Local Abbreviation reps := (Spec.representatives shown).

Lemma find_present (type : string) :
  existsb (Spec.hasType type) shown = true ->
  exists r, find (Spec.hasType type) shown = Some r.
Proof.
  intros H. destruct (find (Spec.hasType type) shown) as [r|] eqn:E; [now exists r|].
  apply existsb_exists in H. destruct H as [x [Hx Ht]].
  rewrite (find_none _ _ E x Hx) in Ht. discriminate.
Qed.

Lemma find_absent (type : string) :
  existsb (Spec.hasType type) shown = false -> find (Spec.hasType type) shown = None.
Proof.
  intros H. destruct (find (Spec.hasType type) shown) as [r|] eqn:E; [|reflexivity].
  apply find_some in E. destruct E as [Hin Ht].
  assert (existsb (Spec.hasType type) shown = true)
    by (apply existsb_exists; now exists r).
  congruence.
Qed.

Lemma reps_types (types : list string) :
  map Api.type (reps types)
  = filter (fun type => existsb (Spec.hasType type) shown) types.
Proof.
  induction types as [|ty l IH]; [reflexivity|].
  unfold Spec.representatives in *. cbn [map filter].
  change (fun action => String.eqb (Api.type action) ty) with (Spec.hasType ty).
  destruct (existsb (Spec.hasType ty) shown) eqn:E.
  - destruct (find_present ty E) as [r Hr]. rewrite Hr. cbn [GovernanceTable.filter_defined map].
    rewrite IH. f_equal.
    apply find_some in Hr. destruct Hr as [_ Hr]. now apply String.eqb_eq in Hr.
  - rewrite (find_absent ty E). exact IH.
Qed.

Lemma reps_first (types : list string) :
  Forall (fun r => In r shown /\ In (Api.type r) types
                   /\ find (Spec.hasType (Api.type r)) shown = Some r)
         (reps types).
Proof.
  induction types as [|ty l IH]; [constructor|].
  unfold Spec.representatives in *. cbn [map].
  change (fun action => String.eqb (Api.type action) ty) with (Spec.hasType ty).
  destruct (find (Spec.hasType ty) shown) as [r|] eqn:E;
    cbn [GovernanceTable.filter_defined].
  - constructor.
    + destruct (find_some _ _ E) as [Hin Ht]. apply String.eqb_eq in Ht.
      rewrite Ht. repeat split; [assumption | now left | assumption].
    + eapply Forall_impl; [|exact IH]. intros a [H1 [H2 H3]].
      repeat split; [assumption | now right | assumption].
  - eapply Forall_impl; [|exact IH]. intros a [H1 [H2 H3]].
    repeat split; [assumption | now right | assumption].
Qed.

Lemma reps_complete (types : list string) (a : Api.GovernanceAction) :
  In (Api.type a) types -> find (Spec.hasType (Api.type a)) shown = Some a ->
  In a (reps types).
Proof.
  induction types as [|ty l IH]; [contradiction|].
  intros [->|Hin] Hf; unfold Spec.representatives in *; cbn [map].
  - change (fun action => String.eqb (Api.type action) (Api.type a))
      with (Spec.hasType (Api.type a)).
    rewrite Hf. now left.
  - specialize (IH Hin Hf).
    destruct (find (fun action => String.eqb (Api.type action) ty) shown);
      cbn [GovernanceTable.filter_defined]; [apply in_cons|]; exact IH.
Qed.

Lemma reps_NoDup (types : list string) : NoDup types -> NoDup (reps types).
Proof.
  intros H. apply (NoDup_map_inv Api.type). rewrite reps_types. now apply NoDup_filter.
Qed.

End Rows.

Lemma allSelected_size (selectedTypes : list string) :
  Spec.allSelected selectedTypes ->
  GovernanceTable.allTypesSelected selectedTypes = true
  /\ filter (fun type => has selectedTypes type) GovernanceTable.SHOWCASE_ORDER
     = GovernanceTable.SHOWCASE_ORDER.
Proof.
  intros H. split.
  - unfold GovernanceTable.allTypesSelected, Set_size. apply Nat.eqb_eq.
    apply Permutation_length, NoDup_Permutation.
    + apply NoDup_nodup.
    + unfold GovernanceTable.PROPOSAL_TYPES.
      repeat (constructor; [simpl; intuition discriminate|]). constructor.
    + intros x. rewrite nodup_In. apply H.
  - assert (Hall : forall ty, In ty GovernanceTable.SHOWCASE_ORDER ->
                              has selectedTypes ty = true).
    { intros ty Hty. apply has_spec, H. exact Hty. }
    unfold GovernanceTable.SHOWCASE_ORDER in *.
    cbn [filter]. rewrite !Hall by (simpl; tauto). reflexivity.
Qed.

Lemma applySearch_empty (searchQuery : string) (actions : list Api.GovernanceAction) :
  trim searchQuery = "" ->
  GovernanceTable.applySearch searchQuery actions = GovernanceTable.Ok actions.
Proof. unfold GovernanceTable.applySearch. now intros ->. Qed.

(** C3, amended.  With all proposal types selected, an empty query and
    an action of a showcase type among the actions with a selected
    status, the rows are: one representative per showcase type present
    among those actions, each the first of its type in sorted order, in
    showcase order; then the actions of those whose type is not a
    showcase type, in epoch-descending order.  The rows of a
    duplicate-free input are duplicate-free; an action is a row exactly
    when it has a selected status and is of no showcase type or the
    first of its type. *)
Theorem tableRows_all_types_selected (actions : list Api.GovernanceAction)
    (selectedTypes selectedStatuses : list string) (searchQuery : string) :
  let shown :=
    filter (Spec.statusSelected selectedStatuses) (GovernanceTable.sortedActions actions) in
  Spec.allSelected selectedTypes ->
  trim searchQuery = "" ->
  (exists a, In a shown /\ Spec.isShowcase a = true) ->
  exists representatives extras,
    GovernanceTable.tableRows actions selectedTypes selectedStatuses searchQuery
    = GovernanceTable.Ok (representatives ++ extras)%list
    /\ map Api.type representatives
       = filter (fun type => existsb (Spec.hasType type) shown) GovernanceTable.SHOWCASE_ORDER
    /\ Forall (fun r => find (Spec.hasType (Api.type r)) shown = Some r) representatives
    /\ extras = filter (fun a => negb (Spec.isShowcase a)) shown
    /\ StronglySorted Spec.epochDescending extras
    /\ (NoDup actions -> NoDup (representatives ++ extras))
    /\ (forall a, In a (representatives ++ extras)%list
                  <-> In a actions
                      /\ Spec.statusSelected selectedStatuses a = true
                      /\ (Spec.isShowcase a = false
                          \/ find (Spec.hasType (Api.type a)) shown = Some a)).
Proof.
  intros shown Hall Hq [a0 [Ha0 Hs0]].
  destruct (allSelected_size selectedTypes Hall) as [Hsize Hfilter].
  set (representatives := Spec.representatives shown GovernanceTable.SHOWCASE_ORDER).
  set (extras := filter (fun a => negb (Spec.isShowcase a)) shown).
  assert (Hshown : forall a, In a shown <->
                             In a actions /\ Spec.statusSelected selectedStatuses a = true).
  { intros a. subst shown. rewrite filter_In.
    unfold GovernanceTable.sortedActions. now rewrite sort_In. }
  pose proof (reps_first shown GovernanceTable.SHOWCASE_ORDER) as Hfirst.
  fold representatives in Hfirst.
  assert (Hne : representatives <> []).
  { destruct (find (Spec.hasType (Api.type a0)) shown) as [r|] eqn:Ef.
    - destruct (find_some _ _ Ef) as [_ Ht]. apply String.eqb_eq in Ht.
      assert (Hrin : In r representatives).
      { apply reps_complete; rewrite Ht; [now apply has_spec | assumption]. }
      intros E. rewrite E in Hrin. contradiction.
    - pose proof (find_none _ _ Ef a0 Ha0) as Hf.
      unfold Spec.hasType in Hf. rewrite String.eqb_refl in Hf. discriminate. }
  exists representatives, extras.
  split.
  { unfold GovernanceTable.tableRows, GovernanceTable.filteredActions.
    destruct (Nat.eqb (List.length (GovernanceTable.sortedActions actions)) 0) eqn:El.
    { apply Nat.eqb_eq in El. apply length_zero_iff_nil in El.
      subst shown. rewrite El in Ha0. contradiction. }
    cbv zeta. rewrite Hfilter, Hsize.
    change (filter (fun action => has selectedStatuses (Api.status action))
                   (GovernanceTable.sortedActions actions)) with shown.
    change (GovernanceTable.filter_defined _) with representatives.
    destruct representatives as [|r rs] eqn:Er; [contradiction|].
    cbn [List.length Nat.eqb negb].
    now rewrite applySearch_empty. }
  split; [apply reps_types|].
  split; [eapply Forall_impl; [|exact Hfirst]; now intros r [_ [_ H]]|].
  split; [reflexivity|].
  split.
  { subst extras shown. do 2 apply StronglySorted_filter. apply sortedActions_sorted. }
  split.
  { intros Hnd. apply NoDup_app.
    - apply reps_NoDup. unfold GovernanceTable.SHOWCASE_ORDER.
      repeat (constructor; [simpl; intuition discriminate|]). constructor.
    - subst extras shown. do 2 apply NoDup_filter.
      eapply Permutation_NoDup; [apply Permutation_sym, sort_perm | exact Hnd].
    - intros a Hr He. rewrite Forall_forall in Hfirst.
      destruct (Hfirst a Hr) as [_ [Hty _]].
      subst extras. apply filter_In in He. destruct He as [_ He].
      apply negb_true_iff in He. unfold Spec.isShowcase in He.
      apply has_spec in Hty. congruence. }
  intros a. rewrite in_app_iff. split.
  - intros [Hr|He].
    + rewrite Forall_forall in Hfirst. destruct (Hfirst a Hr) as [Hin [_ Hf]].
      apply Hshown in Hin. tauto.
    + subst extras. apply filter_In in He. destruct He as [Hin He].
      apply negb_true_iff in He. apply Hshown in Hin. tauto.
  - intros [Hin [Hst Hcase]].
    assert (Hsh : In a shown) by (apply Hshown; tauto).
    destruct (Spec.isShowcase a) eqn:Es.
    + left. destruct Hcase as [Hc|Hc]; [discriminate|].
      apply reps_complete; [now apply has_spec | assumption].
    + right. subst extras. apply filter_In. split; [assumption|].
      now rewrite Es.
Qed.

(** The amended statement at the example actions. *)
Lemma tableRows_all_types_selected_witness :
  Spec.allSelected GovernanceTable.PROPOSAL_TYPES
  /\ trim "" = ""
  /\ (exists a,
         In a (filter (Spec.statusSelected GovernanceTable.STATUS_OPTIONS)
                      (GovernanceTable.sortedActions Spec.exampleActions))
         /\ Spec.isShowcase a = true)
  /\ exists representatives extras,
       GovernanceTable.tableRows Spec.exampleActions GovernanceTable.PROPOSAL_TYPES
         GovernanceTable.STATUS_OPTIONS ""
       = GovernanceTable.Ok (representatives ++ extras)%list
       /\ map Api.type representatives = ["Treasury"; "InfoAction"]
       /\ map Api.type extras = ["Other"].
Proof.
  assert (H1 : Spec.allSelected GovernanceTable.PROPOSAL_TYPES) by (intros ty; reflexivity).
  assert (H2 : trim "" = "") by reflexivity.
  assert (H3 : exists a,
             In a (filter (Spec.statusSelected GovernanceTable.STATUS_OPTIONS)
                          (GovernanceTable.sortedActions Spec.exampleActions))
             /\ Spec.isShowcase a = true).
  { exists (Spec.actionOf "b10:0" "InfoAction" "Active" 10 15).
    split; [now left | reflexivity]. }
  split; [exact H1|]. split; [exact H2|]. split; [exact H3|].
  destruct (tableRows_all_types_selected Spec.exampleActions GovernanceTable.PROPOSAL_TYPES
              GovernanceTable.STATUS_OPTIONS "" H1 H2 H3)
    as [representatives [extras [Hrows [Hreps [_ [Hextras _]]]]]].
  exists representatives, extras.
  split; [exact Hrows|]. split; [exact Hreps|].
  rewrite Hextras. reflexivity.
Defined.

Example tableRows_search :
  GovernanceTable.tableRows Spec.exampleActions ["Treasury"]
    GovernanceTable.STATUS_OPTIONS "UNTITLED"
  = GovernanceTable.Ok [Spec.actionOf "a5:0" "Treasury" "Active" 5 10].
Proof. reflexivity. Qed.

Example tableRows_search_without_title :
  GovernanceTable.tableRows [Spec.bareAction] GovernanceTable.PROPOSAL_TYPES
    GovernanceTable.STATUS_OPTIONS "x"
  = GovernanceTable.TypeError.
Proof. reflexivity. Qed.

(* ================================================================== *)
(** * More on the normalizer *)
(* ================================================================== *)

Section NormalizerMore.

Variable Number : string -> jsnum.

Lemma or_str_or_str (a : option string) (d : string) :
  d <> "" -> or_str (Some (or_str a d)) d = or_str a d.
Proof.
  intros Hd. destruct a as [[|c s]|]; simpl; try reflexivity;
    destruct d; [contradiction | reflexivity | contradiction | reflexivity].
Qed.

(** X1.  Normalizing a normalized action changes nothing: the ADA
    amounts are derived again from the lovelace strings, which the
    record keeps, so nothing is converted twice. *)
Theorem transformGovernanceAction_idempotent (action : Api.GovernanceAction) :
  Api.transformGovernanceAction Number (Api.transformGovernanceAction Number action)
  = Api.transformGovernanceAction Number action.
Proof.
  destruct action as [h pid tx ti ty st co
                        dyp dnp dap dya dna daa syp snp sap sya sna saa
                        cyp cnp cap cyc cnc cac tyes tno tab se ee th vs d s c].
  unfold Api.transformGovernanceAction. cbv zeta. cbn [Api.hash Api.proposalId
    Api.txHash Api.title Api.type Api.status Api.constitutionality Api.totalYes
    Api.totalNo Api.totalAbstain Api.submissionEpoch Api.expiryEpoch Api.threshold
    Api.votingStatus Api.drep Api.spo Api.cc].
  rewrite !or_str_or_str by discriminate.
  destruct d as [d|], s as [s|]; reflexivity.
Qed.

Lemma or_opt_absorb (a b : option string) :
  Api.or_opt a (Api.or_opt a b) = Api.or_opt a b.
Proof. unfold Api.or_opt. now destruct (falsy_str a). Qed.

(** X2.  Normalizing a normalized vote record changes nothing; in
    particular the deprecated aliases [drepId] and [drepName] are
    stable. *)
Theorem transformVoteRecord_idempotent (vote : Api.VoteRecord) :
  Api.transformVoteRecord (Api.transformVoteRecord vote) = Api.transformVoteRecord vote.
Proof.
  unfold Api.transformVoteRecord. simpl. now rewrite !or_opt_absorb.
Qed.

Lemma transformVoteRecord_twice (vote : Api.VoteRecord) :
  Api.transformVoteRecord (Api.transformVoteRecord vote) = Api.transformVoteRecord vote.
Proof.
  unfold Api.transformVoteRecord. simpl. now rewrite !or_opt_absorb.
Qed.

Lemma transformGovernanceAction_twice (action : Api.GovernanceAction) :
  Api.transformGovernanceAction Number (Api.transformGovernanceAction Number action)
  = Api.transformGovernanceAction Number action.
Proof.
  destruct action as [h pid tx ti ty st co
                        dyp dnp dap dya dna daa syp snp sap sya sna saa
                        cyp cnp cap cyc cnc cac tyes tno tab se ee th vs d s c].
  unfold Api.transformGovernanceAction. cbv zeta. cbn [Api.hash Api.proposalId
    Api.txHash Api.title Api.type Api.status Api.constitutionality Api.totalYes
    Api.totalNo Api.totalAbstain Api.submissionEpoch Api.expiryEpoch Api.threshold
    Api.votingStatus Api.drep Api.spo Api.cc].
  rewrite !or_str_or_str by discriminate.
  destruct d as [d|], s as [s|]; reflexivity.
Qed.

(** X3.  Normalizing a normalized detail record changes nothing; the
    two vote arrays are always arrays and keep their lengths. *)
Theorem transformGovernanceActionDetail_idempotent (detail : Api.GovernanceActionDetail) :
  let once := Api.transformGovernanceActionDetail Number detail in
  Api.transformGovernanceActionDetail Number once = once
  /\ Api.votes once = Some (map Api.transformVoteRecord (nullish (Api.votes detail) []))
  /\ Api.ccVotes once = Some (map Api.transformVoteRecord (nullish (Api.ccVotes detail) [])).
Proof.
  cbv zeta. split; [|split; destruct detail as [b de ra [v|] [cv|]]; reflexivity].
  unfold Api.transformGovernanceActionDetail.
  cbn [Api.base Api.description Api.rationale Api.votes Api.ccVotes].
  rewrite transformGovernanceAction_twice.
  f_equal; f_equal;
    match goal with
    | |- nullish (option_map _ (Some (nullish (option_map _ ?o) []))) [] = _ =>
        destruct o as [l|]; cbn [option_map nullish map]; [|reflexivity];
        rewrite map_map; apply map_ext; intros; apply transformVoteRecord_twice
    end.
Qed.

(** X4.  In a normalized action the flat fields and the nested tallies
    tell the same story: the nested DRep tally, when there is one,
    carries the flat DRep ADA amounts and its percentages are the flat
    ones up to the default 0; the flat SPO and CC fields are exactly the
    fields of the nested SPO and CC tallies. *)
Theorem transformGovernanceAction_flat_nested_agree (action : Api.GovernanceAction) :
  let out := Api.transformGovernanceAction Number action in
  (forall d, Api.drep out = Some d ->
             Api.yesAda d = Api.drepYesAda out
             /\ Api.noAda d = Api.drepNoAda out
             /\ Api.abstainAda d = Api.drepAbstainAda out
             /\ Spec.defaulted (Api.yesPercent d) (Api.drepYesPercent out) 0%Q
             /\ Spec.defaulted (Api.noPercent d) (Api.drepNoPercent out) 0%Q
             /\ Spec.defaulted (Api.abstainPercent d) (Api.drepAbstainPercent out) 0%Q)
  /\ (Api.spoYesAda out = opt_field (Api.spo out) Api.yesAda
      /\ Api.spoNoAda out = opt_field (Api.spo out) Api.noAda
      /\ Api.spoAbstainAda out = opt_field (Api.spo out) Api.abstainAda
      /\ Api.spoYesPercent out = opt_field (Api.spo out) Api.yesPercent
      /\ Api.spoNoPercent out = opt_field (Api.spo out) Api.noPercent
      /\ Api.spoAbstainPercent out = opt_field (Api.spo out) Api.abstainPercent)
  /\ (Api.ccYesPercent out = opt_field (Api.cc out) Api.cc_yesPercent
      /\ Api.ccNoPercent out = opt_field (Api.cc out) Api.cc_noPercent
      /\ Api.ccAbstainPercent out = opt_field (Api.cc out) Api.cc_abstainPercent
      /\ Api.ccYesCount out = opt_field (Api.cc out) Api.cc_yesCount
      /\ Api.ccNoCount out = opt_field (Api.cc out) Api.cc_noCount
      /\ Api.ccAbstainCount out = opt_field (Api.cc out) Api.cc_abstainCount).
Proof.
  cbv zeta. unfold Api.transformGovernanceAction. cbv zeta. simpl.
  split; [|split].
  - intros d Hd. destruct (Api.drep action) as [d0|]; [|discriminate].
    injection Hd as <-. simpl.
    repeat split; try reflexivity;
      match goal with
      | |- Spec.defaulted ?o _ _ => unfold Spec.defaulted; destruct o; reflexivity
      end.
  - destruct (Api.spo action); repeat split; reflexivity.
  - repeat split; reflexivity.
Qed.

End NormalizerMore.

Lemma transformGovernanceAction_flat_nested_agree_witness :
  exists d,
    Api.drep (Api.transformGovernanceAction Api.decimalNumber Spec.budgetAction) = Some d
    /\ Api.yesAda d = Some (Finite ((1500000 # 1) / (1000000 # 1)))
    /\ Api.drepYesAda (Api.transformGovernanceAction Api.decimalNumber Spec.budgetAction)
       = Some (Finite ((1500000 # 1) / (1000000 # 1))).
Proof.
  destruct (Api.drep (Api.transformGovernanceAction Api.decimalNumber Spec.budgetAction))
    as [d|] eqn:E; [|discriminate].
  exists d. split; [reflexivity|].
  destruct (proj1 (transformGovernanceAction_flat_nested_agree Api.decimalNumber
                     Spec.budgetAction) d E) as [H _].
  rewrite H. split; reflexivity.
Defined.

(* ================================================================== *)
(** * More on the rows of the table *)
(* ================================================================== *)

Section RowsMore.

Lemma filter_none {A : Type} (f : A -> bool) (l : list A) :
  (forall x, In x l -> f x = false) -> filter f l = [].
Proof.
  induction l as [|x l IH]; intros H; [reflexivity|].
  simpl. rewrite (H x (or_introl eq_refl)). apply IH. intros y Hy. apply H. now right.
Qed.

Lemma representatives_nil (types : list string) : Spec.representatives [] types = [].
Proof. induction types as [|ty l IH]; [reflexivity | exact IH]. Qed.

Lemma filter_result_nil {A : Type} (p : A -> GovernanceTable.result bool) :
  GovernanceTable.filter_result p [] = GovernanceTable.Ok [].
Proof. reflexivity. Qed.

Lemma applySearch_nil (searchQuery : string) :
  GovernanceTable.applySearch searchQuery [] = GovernanceTable.Ok [].
Proof. unfold GovernanceTable.applySearch. now destruct (is_empty (trim searchQuery)). Qed.

(** When no selected showcase type has a representative, no shown action
    has a selected showcase type. *)
Lemma no_representative (shown : list Api.GovernanceAction) (selectedTypes : list string) :
  Spec.representatives shown
    (filter (fun type => has selectedTypes type) GovernanceTable.SHOWCASE_ORDER) = [] ->
  forall a, In a shown -> Spec.isShowcase a = true -> has selectedTypes (Api.type a) = false.
Proof.
  intros E a Ha Hs. apply not_true_is_false. intros Hsel.
  assert (Hty : In (Api.type a)
                   (filter (fun type => existsb (Spec.hasType type) shown)
                           (filter (fun type => has selectedTypes type)
                                   GovernanceTable.SHOWCASE_ORDER))).
  { apply filter_In. split.
    - apply filter_In. split; [now apply has_spec | assumption].
    - apply existsb_exists. exists a. split; [assumption|].
      unfold Spec.hasType. apply String.eqb_refl. }
  rewrite <- reps_types, E in Hty. contradiction.
Qed.

Lemma tableRows_curated (actions : list Api.GovernanceAction)
    (selectedTypes selectedStatuses : list string) (searchQuery : string) :
  GovernanceTable.tableRows actions selectedTypes selectedStatuses searchQuery
  = GovernanceTable.applySearch searchQuery
      (Spec.curated actions selectedTypes selectedStatuses).
Proof.
  unfold GovernanceTable.tableRows, GovernanceTable.filteredActions, Spec.curated,
    Spec.shownActions.
  destruct (Nat.eqb (List.length (GovernanceTable.sortedActions actions)) 0) eqn:El.
  { apply Nat.eqb_eq, length_zero_iff_nil in El. rewrite El. cbn [filter].
    rewrite representatives_nil.
    destruct (GovernanceTable.allTypesSelected selectedTypes); cbn [app];
      now rewrite applySearch_nil. }
  cbv zeta.
  change (filter (fun action => has selectedStatuses (Api.status action))
                 (GovernanceTable.sortedActions actions))
    with (filter (Spec.statusSelected selectedStatuses)
                 (GovernanceTable.sortedActions actions)).
  set (shown := filter (Spec.statusSelected selectedStatuses)
                       (GovernanceTable.sortedActions actions)).
  change (GovernanceTable.filter_defined _)
    with (Spec.representatives shown
            (filter (fun type => has selectedTypes type) GovernanceTable.SHOWCASE_ORDER)).
  destruct (Spec.representatives shown _) as [|r rs] eqn:Er.
  - cbn [List.length Nat.eqb negb app].
    f_equal.
    pose proof (no_representative shown selectedTypes Er) as Hnone.
    destruct (GovernanceTable.allTypesSelected selectedTypes).
    + apply filter_ext_in. intros a Ha.
      change (has GovernanceTable.SHOWCASE_ORDER (Api.type a)) with (Spec.isShowcase a).
      destruct (Spec.isShowcase a) eqn:Es; [|reflexivity].
      cbn [negb]. now apply Hnone.
    + apply filter_none. intros a Ha.
      change (has GovernanceTable.SHOWCASE_ORDER (Api.type a)) with (Spec.isShowcase a).
      destruct (Spec.isShowcase a) eqn:Es; [|reflexivity].
      cbn [negb]. now apply Hnone.
  - cbn [List.length Nat.eqb negb].
    destruct (GovernanceTable.allTypesSelected selectedTypes); [reflexivity|].
    now rewrite app_nil_r.
Qed.

Lemma filter_result_spec {A : Type} (p : A -> GovernanceTable.result bool) (l : list A) :
  (Forall (fun a => p a <> GovernanceTable.TypeError) l ->
   GovernanceTable.filter_result p l
   = GovernanceTable.Ok
       (filter (fun a => match p a with GovernanceTable.Ok b => b | _ => false end) l))
  /\ (Exists (fun a => p a = GovernanceTable.TypeError) l ->
      GovernanceTable.filter_result p l = GovernanceTable.TypeError).
Proof.
  induction l as [|x l [IH1 IH2]]; split.
  - reflexivity.
  - intros H. inversion H.
  - intros H. inversion H as [|? ? Hx Hl]; subst. simpl.
    destruct (p x) as [b|]; [|contradiction]. now rewrite (IH1 Hl).
  - intros H. simpl. destruct (p x) as [b|] eqn:Ex; [|reflexivity].
    inversion H as [? ? Hx|? ? Hl]; subst; [congruence|].
    now rewrite (IH2 Hl).
Qed.


Lemma has_ext (l l' : list string) :
  (forall x, In x l <-> In x l') -> forall x, has l x = has l' x.
Proof.
  intros H x. apply eq_true_iff_eq. rewrite !has_spec. apply H.
Qed.

Lemma Set_size_ext (l l' : list string) :
  (forall x, In x l <-> In x l') -> Set_size l = Set_size l'.
Proof.
  intros H. unfold Set_size. apply Permutation_length, NoDup_Permutation.
  - apply NoDup_nodup.
  - apply NoDup_nodup.
  - intros x. rewrite !nodup_In. apply H.
Qed.

Lemma tableRows_ext (actions : list Api.GovernanceAction)
    (types types' statuses statuses' : list string) (searchQuery : string) :
  (forall x, In x types <-> In x types') ->
  (forall x, In x statuses <-> In x statuses') ->
  GovernanceTable.tableRows actions types statuses searchQuery
  = GovernanceTable.tableRows actions types' statuses' searchQuery.
Proof.
  intros Ht Hs. rewrite !tableRows_curated. f_equal.
  unfold Spec.curated, Spec.shownActions, GovernanceTable.allTypesSelected.
  rewrite (Set_size_ext _ _ Ht).
  rewrite (filter_ext (Spec.statusSelected statuses) (Spec.statusSelected statuses'))
    by (intros a; apply has_ext, Hs).
  rewrite (filter_ext (fun type => has types type) (fun type => has types' type))
    by (apply has_ext, Ht).
  reflexivity.
Qed.

(** X7.  The rows depend on the selections only as sets: two selections
    of types with the same members, and two selections of statuses with
    the same members, give the same rows, whatever their order and
    however often a member is repeated. *)
Theorem tableRows_selection_as_set (actions : list Api.GovernanceAction)
    (types types' statuses statuses' : list string) (searchQuery : string) :
  (forall x, In x types <-> In x types') ->
  (forall x, In x statuses <-> In x statuses') ->
  GovernanceTable.tableRows actions types statuses searchQuery
  = GovernanceTable.tableRows actions types' statuses' searchQuery.
Proof. apply tableRows_ext. Qed.

(** X8.  Nothing to show gives no rows and no error: without actions,
    without a selected type or without a selected status the rows are
    the empty list, for every query. *)
Theorem tableRows_empty (actions : list Api.GovernanceAction)
    (selectedTypes selectedStatuses : list string) (searchQuery : string) :
  actions = [] \/ selectedTypes = [] \/ selectedStatuses = [] ->
  GovernanceTable.tableRows actions selectedTypes selectedStatuses searchQuery
  = GovernanceTable.Ok [].
Proof.
  intros H. rewrite tableRows_curated.
  replace (Spec.curated actions selectedTypes selectedStatuses) with (@nil Api.GovernanceAction);
    [apply applySearch_nil|].
  unfold Spec.curated, Spec.shownActions.
  destruct H as [-> | [-> | ->]].
  - cbn [GovernanceTable.sortedActions sort fold_right filter].
    rewrite representatives_nil. now destruct (GovernanceTable.allTypesSelected _).
  - reflexivity.
  - assert (E : filter (Spec.statusSelected []) (GovernanceTable.sortedActions actions) = [])
      by (apply filter_none; reflexivity).
    rewrite E, representatives_nil. now destruct (GovernanceTable.allTypesSelected _).
Qed.

Lemma applySearch_Ok (searchQuery : string) (l rows : list Api.GovernanceAction) :
  GovernanceTable.applySearch searchQuery l = GovernanceTable.Ok rows ->
  exists f, rows = filter f l.
Proof.
  unfold GovernanceTable.applySearch.
  destruct (is_empty (trim searchQuery)).
  - intros H. injection H as <-. exists (fun _ => true).
    induction l as [|x l IH]; [reflexivity|]. simpl. now rewrite <- IH.
  - set (p := fun action : Api.GovernanceAction =>
                match Api.title action with
                | Some t => GovernanceTable.Ok (includes (toLowerCase t) (toLowerCase searchQuery))
                | None => GovernanceTable.TypeError
                end).
    intros H.
    destruct (Exists_dec (fun a => p a = GovernanceTable.TypeError) l) as [He|Hn].
    + intros a. destruct (p a); [right; discriminate | now left].
    + rewrite (proj2 (filter_result_spec p l) He) in H. discriminate.
    + rewrite (proj1 (filter_result_spec p l)) in H.
      * injection H as <-. eexists. reflexivity.
      * apply Forall_forall. intros a Ha E. apply Hn. apply Exists_exists. now exists a.
Qed.

Lemma NoDup_map_filter {A B : Type} (g : A -> B) (f : A -> bool) (l : list A) :
  NoDup (map g l) -> NoDup (map g (filter f l)).
Proof.
  induction l as [|x l IH]; simpl; intros H; [constructor|].
  inversion H as [|? ? Hx Hl]; subst.
  destruct (f x); [|now apply IH].
  simpl. constructor; [|now apply IH].
  intros Hin. apply Hx. apply in_map_iff in Hin. destruct Hin as [y [Hy Hin]].
  apply filter_In in Hin. apply in_map_iff. exists y. tauto.
Qed.

Lemma showcase_NoDup : NoDup GovernanceTable.SHOWCASE_ORDER.
Proof.
  unfold GovernanceTable.SHOWCASE_ORDER.
  repeat (constructor; [simpl; intuition discriminate|]). constructor.
Qed.

Lemma shownActions_In (actions : list Api.GovernanceAction) (selectedStatuses : list string)
    (a : Api.GovernanceAction) :
  In a (Spec.shownActions actions selectedStatuses)
  <-> In a actions /\ Spec.statusSelected selectedStatuses a = true.
Proof.
  unfold Spec.shownActions. rewrite filter_In.
  unfold GovernanceTable.sortedActions. now rewrite sort_In.
Qed.


Lemma applySearch_spec (searchQuery : string) (l : list Api.GovernanceAction) :
  is_empty (trim searchQuery) = false ->
  (Forall (fun a => Api.title a <> None) l ->
   GovernanceTable.applySearch searchQuery l
   = GovernanceTable.Ok (filter (Spec.titleMatches searchQuery) l))
  /\ (Exists (fun a => Api.title a = None) l ->
      GovernanceTable.applySearch searchQuery l = GovernanceTable.TypeError).
Proof.
  intros Hq. unfold GovernanceTable.applySearch. rewrite Hq.
  set (p := fun action : Api.GovernanceAction =>
              match Api.title action with
              | Some t => GovernanceTable.Ok (includes (toLowerCase t) (toLowerCase searchQuery))
              | None => GovernanceTable.TypeError
              end).
  split.
  - intros H. rewrite (proj1 (filter_result_spec p l)).
    + f_equal. apply filter_ext. intros a. subst p. unfold Spec.titleMatches.
      now destruct (Api.title a).
    + eapply Forall_impl; [|exact H]. intros a Ha. subst p. cbv beta in *.
      destruct (Api.title a); [discriminate | exfalso; now apply Ha].
  - intros H. apply (proj2 (filter_result_spec p l)).
    eapply Exists_impl; [|exact H]. intros a Ha. subst p. cbv beta. now rewrite Ha.
Qed.

(** X10.  A query that is not blank keeps, of the curated list, the
    actions whose title contains the query, letter case aside, in the
    same order; the search raises (a method call on an undefined title)
    exactly when an action of the curated list has no title. *)
Theorem tableRows_query (actions : list Api.GovernanceAction)
    (selectedTypes selectedStatuses : list string) (searchQuery : string) :
  is_empty (trim searchQuery) = false ->
  (Forall (fun a => Api.title a <> None)
          (Spec.curated actions selectedTypes selectedStatuses) ->
   GovernanceTable.tableRows actions selectedTypes selectedStatuses searchQuery
   = GovernanceTable.Ok
       (filter (Spec.titleMatches searchQuery)
               (Spec.curated actions selectedTypes selectedStatuses)))
  /\ (Exists (fun a => Api.title a = None)
             (Spec.curated actions selectedTypes selectedStatuses) ->
      GovernanceTable.tableRows actions selectedTypes selectedStatuses searchQuery
      = GovernanceTable.TypeError).
Proof.
  intros Hq. rewrite tableRows_curated. now apply applySearch_spec.
Qed.

Lemma curated_incl (actions : list Api.GovernanceAction)
    (selectedTypes selectedStatuses : list string) (a : Api.GovernanceAction) :
  In a (Spec.curated actions selectedTypes selectedStatuses) -> In a actions.
Proof.
  unfold Spec.curated. intros Ha. apply in_app_iff in Ha. destruct Ha as [Ha|Ha].
  - pose proof (reps_first (Spec.shownActions actions selectedStatuses)
                  (filter (fun type => has selectedTypes type)
                          GovernanceTable.SHOWCASE_ORDER)) as Hfirst.
    rewrite Forall_forall in Hfirst. destruct (Hfirst a Ha) as [Hin _].
    now apply shownActions_In in Hin.
  - destruct (GovernanceTable.allTypesSelected selectedTypes); [|contradiction].
    apply filter_In in Ha. destruct Ha as [Hin _]. now apply shownActions_In in Hin.
Qed.

(** X11.  The table never raises on the output of the normalizer:
    actions that went through [transformGovernanceAction] all have a
    title, so every selection and every query gives rows. *)
Theorem tableRows_of_normalized (Number : string -> jsnum)
    (raw : list Api.GovernanceAction)
    (selectedTypes selectedStatuses : list string) (searchQuery : string) :
  exists rows,
    GovernanceTable.tableRows (map (Api.transformGovernanceAction Number) raw)
      selectedTypes selectedStatuses searchQuery
    = GovernanceTable.Ok rows.
Proof.
  rewrite tableRows_curated.
  destruct (is_empty (trim searchQuery)) eqn:Hq.
  - eexists. unfold GovernanceTable.applySearch. rewrite Hq. reflexivity.
  - eexists. apply (proj1 (applySearch_spec searchQuery _ Hq)).
    apply Forall_forall. intros a Ha. apply curated_incl in Ha.
    apply in_map_iff in Ha. destruct Ha as [r [<- _]]. discriminate.
Qed.

Lemma sort_of_sorted {A : Type} (cmp : A -> A -> Z) (l : list A) :
  StronglySorted (fun a b => cmp a b <= 0) l -> sort cmp l = l.
Proof.
  induction 1 as [|x l Hl IH Hx]; [reflexivity|].
  simpl. rewrite IH. destruct l as [|y l']; [reflexivity|].
  inversion Hx as [|? ? Hxy _]; subst. simpl.
  apply Z.leb_le in Hxy. now rewrite Hxy.
Qed.

(** X12.  Sorting is idempotent: [sortedActions] leaves a list that is
    already in epoch-descending order as it is, and so leaves its own
    output as it is. *)
Theorem sortedActions_idempotent (actions : list Api.GovernanceAction) :
  (StronglySorted Spec.epochDescending actions ->
   GovernanceTable.sortedActions actions = actions)
  /\ GovernanceTable.sortedActions (GovernanceTable.sortedActions actions)
     = GovernanceTable.sortedActions actions.
Proof.
  assert (H : forall l, StronglySorted Spec.epochDescending l ->
                        GovernanceTable.sortedActions l = l).
  { intros l Hl. apply sort_of_sorted.
    eapply StronglySorted_weaken; [|exact Hl]. intros a b. apply compareActions_le. }
  split; [apply H|]. apply H, sortedActions_sorted.
Qed.

End RowsMore.


Lemma tableRows_selection_as_set_witness :
  (forall x, In x ["Treasury"; "InfoAction"] <-> In x ["InfoAction"; "Treasury"; "Treasury"])
  /\ (forall x, In x ["Active"] <-> In x ["Active"; "Active"])
  /\ GovernanceTable.tableRows Spec.exampleActions ["Treasury"; "InfoAction"] ["Active"] ""
     = GovernanceTable.tableRows Spec.exampleActions ["InfoAction"; "Treasury"; "Treasury"]
         ["Active"; "Active"] "".
Proof.
  assert (H1 : forall x, In x ["Treasury"; "InfoAction"]
                         <-> In x ["InfoAction"; "Treasury"; "Treasury"])
    by (intros x; simpl; tauto).
  assert (H2 : forall x, In x ["Active"] <-> In x ["Active"; "Active"])
    by (intros x; simpl; tauto).
  split; [exact H1|]. split; [exact H2|].
  exact (tableRows_selection_as_set Spec.exampleActions _ _ _ _ "" H1 H2).
Defined.

Lemma tableRows_empty_witness :
  (Spec.exampleActions = [] \/ @nil string = [] \/ GovernanceTable.STATUS_OPTIONS = [])
  /\ GovernanceTable.tableRows Spec.exampleActions [] GovernanceTable.STATUS_OPTIONS "budget"
     = GovernanceTable.Ok [].
Proof.
  assert (H : Spec.exampleActions = [] \/ @nil string = []
              \/ GovernanceTable.STATUS_OPTIONS = [])
    by (right; left; reflexivity).
  split; [exact H|].
  exact (tableRows_empty Spec.exampleActions [] GovernanceTable.STATUS_OPTIONS "budget" H).
Defined.


Lemma tableRows_query_witness :
  is_empty (trim "TREAS") = false
  /\ Forall (fun a => Api.title a <> None)
            (Spec.curated Spec.titledActions GovernanceTable.PROPOSAL_TYPES
               GovernanceTable.STATUS_OPTIONS)
  /\ GovernanceTable.tableRows Spec.titledActions GovernanceTable.PROPOSAL_TYPES
       GovernanceTable.STATUS_OPTIONS "TREAS"
     = GovernanceTable.Ok
         (filter (Spec.titleMatches "TREAS")
                 (Spec.curated Spec.titledActions GovernanceTable.PROPOSAL_TYPES
                    GovernanceTable.STATUS_OPTIONS)).
Proof.
  assert (H1 : is_empty (trim "TREAS") = false) by reflexivity.
  assert (H2 : Forall (fun a => Api.title a <> None)
                      (Spec.curated Spec.titledActions GovernanceTable.PROPOSAL_TYPES
                         GovernanceTable.STATUS_OPTIONS))
    by (repeat constructor; discriminate).
  split; [exact H1|]. split; [exact H2|].
  exact (proj1 (tableRows_query Spec.titledActions GovernanceTable.PROPOSAL_TYPES
                  GovernanceTable.STATUS_OPTIONS "TREAS" H1) H2).
Defined.

Example tableRows_query_example :
  map Api.hash
      (filter (Spec.titleMatches "TREAS")
              (Spec.curated Spec.titledActions GovernanceTable.PROPOSAL_TYPES
                 GovernanceTable.STATUS_OPTIONS))
  = ["t1:0"].
Proof. reflexivity. Qed.

Lemma sortedActions_idempotent_witness :
  StronglySorted Spec.epochDescending
    [ Spec.actionOf "b10:0" "InfoAction" "Active" 10 15;
      Spec.actionOf "x7:0" "Other" "Active" 7 12 ]
  /\ GovernanceTable.sortedActions
       [ Spec.actionOf "b10:0" "InfoAction" "Active" 10 15;
         Spec.actionOf "x7:0" "Other" "Active" 7 12 ]
     = [ Spec.actionOf "b10:0" "InfoAction" "Active" 10 15;
         Spec.actionOf "x7:0" "Other" "Active" 7 12 ].
Proof.
  assert (H : StronglySorted Spec.epochDescending
                [ Spec.actionOf "b10:0" "InfoAction" "Active" 10 15;
                  Spec.actionOf "x7:0" "Other" "Active" 7 12 ])
    by (repeat constructor; left; reflexivity).
  split; [exact H|].
  exact (proj1 (sortedActions_idempotent _) H).
Defined.

(* ================================================================== *)
(** * The filter selections *)
(* ================================================================== *)

Section Selections.

Lemma uniq_from_In (seen l : list string) (x : string) :
  In x (uniq_from seen l) <-> In x l /\ ~ In x seen.
Proof.
  revert seen. induction l as [|y l IH]; intros seen; simpl; [tauto|].
  destruct (has seen y) eqn:E.
  - apply has_spec in E. rewrite IH. split.
    + tauto.
    + intros [[->|H] Hn]; [contradiction | tauto].
  - assert (Hy : ~ In y seen) by (intros H; apply has_spec in H; congruence).
    simpl. rewrite IH. simpl. split.
    + intros [->|[H Hn]]; tauto.
    + intros [[->|H] Hn]; [tauto|].
      destruct (string_dec y x) as [->|Hne]; [tauto|]. right. tauto.
Qed.

Lemma uniq_from_NoDup (seen l : list string) : NoDup (uniq_from seen l).
Proof.
  revert seen. induction l as [|y l IH]; intros seen; simpl; [constructor|].
  destruct (has seen y); [apply IH|].
  constructor; [|apply IH].
  rewrite uniq_from_In. simpl. tauto.
Qed.

Lemma uniq_from_fixed (seen l : list string) :
  NoDup l -> (forall x, In x l -> ~ In x seen) -> uniq_from seen l = l.
Proof.
  intros H. revert seen. induction H as [|y l Hy Hl IH]; intros seen Hs; [reflexivity|].
  simpl. destruct (has seen y) eqn:E.
  - apply has_spec in E. exfalso. apply (Hs y); [now left | assumption].
  - f_equal. apply IH. intros x Hx [<-|Hin]; [contradiction|].
    apply (Hs x); [now right | assumption].
Qed.

Lemma Array_from_Set_In (l : list string) (x : string) :
  In x (Array_from_Set l) <-> In x l.
Proof. unfold Array_from_Set. rewrite uniq_from_In. simpl. tauto. Qed.

Lemma Array_from_Set_NoDup (l : list string) : NoDup (Array_from_Set l).
Proof. apply uniq_from_NoDup. Qed.

Lemma Array_from_Set_fixed (l : list string) : NoDup l -> Array_from_Set l = l.
Proof. intros H. apply uniq_from_fixed; [assumption | intros x _ []]. Qed.

Lemma without_In (selection : list string) (item x : string) :
  In x (TableFilters.without selection item) <-> In x selection /\ x <> item.
Proof.
  unfold TableFilters.without. rewrite filter_In, negb_true_iff.
  split; intros [H1 H2]; (split; [assumption|]).
  - intros ->. rewrite String.eqb_refl in H2. discriminate.
  - now apply String.eqb_neq.
Qed.

Lemma without_absent (selection : list string) (item : string) :
  ~ In item selection -> TableFilters.without selection item = selection.
Proof.
  intros H. induction selection as [|y l IH]; [reflexivity|].
  unfold TableFilters.without in *. simpl.
  destruct (String.eqb_spec y item) as [->|Hne].
  - exfalso. apply H. now left.
  - simpl. f_equal. apply IH. intros Hin. apply H. now right.
Qed.

Lemma without_app_last (selection : list string) (item : string) :
  ~ In item selection -> TableFilters.without (selection ++ [item]) item = selection.
Proof.
  intros H. unfold TableFilters.without. rewrite filter_app. simpl.
  rewrite String.eqb_refl. simpl. rewrite app_nil_r.
  now apply without_absent.
Qed.

Lemma NoDup_without (selection : list string) (item : string) :
  NoDup selection -> NoDup (TableFilters.without selection item).
Proof. apply NoDup_filter. Qed.


(** X14.  Toggling a type flips the selection of that type and of no
    other; the selection stays duplicate-free and the selected statuses
    are untouched.  Toggling a status does the same to the statuses. *)
Theorem handleToggle_flips (item : string) (filters : GovernanceSlice.GovernanceFilters) :
  (let next := TableFilters.handleToggleType item filters in
   has (GovernanceSlice.selectedTypes next) item
   = negb (has (GovernanceSlice.selectedTypes filters) item)
   /\ (forall other, other <> item ->
                     has (GovernanceSlice.selectedTypes next) other
                     = has (GovernanceSlice.selectedTypes filters) other)
   /\ NoDup (GovernanceSlice.selectedTypes next)
   /\ GovernanceSlice.selectedStatuses next = GovernanceSlice.selectedStatuses filters)
  /\ (let next := TableFilters.handleToggleStatus item filters in
      has (GovernanceSlice.selectedStatuses next) item
      = negb (has (GovernanceSlice.selectedStatuses filters) item)
      /\ (forall other, other <> item ->
                        has (GovernanceSlice.selectedStatuses next) other
                        = has (GovernanceSlice.selectedStatuses filters) other)
      /\ NoDup (GovernanceSlice.selectedStatuses next)
      /\ GovernanceSlice.selectedTypes next = GovernanceSlice.selectedTypes filters).
Proof.
  assert (Hflip : forall selection : list string,
             let next := Array_from_Set
                           (if has selection item
                            then TableFilters.without selection item
                            else (selection ++ [item])%list) in
             has next item = negb (has selection item)
             /\ (forall other, other <> item -> has next other = has selection other)
             /\ NoDup next).
  { intros selection. cbv zeta.
    split; [|split; [|apply Array_from_Set_NoDup]].
    - destruct (has selection item) eqn:E; cbn [negb].
      + apply not_true_is_false. intros H.
        apply has_spec, Array_from_Set_In, without_In in H. now destruct H.
      + apply has_spec, Array_from_Set_In, in_or_app. right. now left.
    - intros other Hne. apply eq_true_iff_eq.
      rewrite !has_spec, Array_from_Set_In.
      destruct (has selection item).
      + rewrite without_In. tauto.
      + rewrite in_app_iff. simpl. split; [|tauto].
        intros [H|[H|[]]]; [assumption | congruence]. }
  split; cbv zeta; unfold TableFilters.handleToggleType, TableFilters.handleToggleStatus;
    cbv zeta; simpl.
  - destruct (Hflip (GovernanceSlice.selectedTypes filters)) as [H1 [H2 H3]].
    repeat split; assumption.
  - destruct (Hflip (GovernanceSlice.selectedStatuses filters)) as [H1 [H2 H3]].
    repeat split; assumption.
Qed.

(** X15.  Toggling a type twice restores the selection: a duplicate-free
    selection has the same members afterwards, is the very same list
    when the type was not selected before, and the table shows the
    same rows. *)
Theorem handleToggleType_twice (item : string) (filters : GovernanceSlice.GovernanceFilters)
    (actions : list Api.GovernanceAction) (searchQuery : string) :
  NoDup (GovernanceSlice.selectedTypes filters) ->
  let twice := TableFilters.handleToggleType item (TableFilters.handleToggleType item filters) in
  (forall x, In x (GovernanceSlice.selectedTypes twice)
             <-> In x (GovernanceSlice.selectedTypes filters))
  /\ (has (GovernanceSlice.selectedTypes filters) item = false ->
      GovernanceSlice.selectedTypes twice = GovernanceSlice.selectedTypes filters)
  /\ TableFilters.rows actions twice searchQuery = TableFilters.rows actions filters searchQuery.
Proof.
  intros Hnd. cbv zeta.
  set (selection := GovernanceSlice.selectedTypes filters) in *.
  assert (Hmem : forall x,
             In x (GovernanceSlice.selectedTypes
                     (TableFilters.handleToggleType item
                        (TableFilters.handleToggleType item filters)))
             <-> In x selection).
  { intros x.
    unfold TableFilters.handleToggleType. cbv zeta. simpl. fold selection.
    destruct (has selection item) eqn:E.
    - assert (Hout : has (Array_from_Set (TableFilters.without selection item)) item = false).
      { apply not_true_is_false. intros H.
        apply has_spec, Array_from_Set_In, without_In in H. now destruct H. }
      rewrite Hout. rewrite Array_from_Set_In, in_app_iff, Array_from_Set_In, without_In.
      simpl. apply has_spec in E.
      destruct (string_dec x item) as [->|Hne]; [tauto|].
      split; [intros [[H _]|[H|[]]]; [assumption | congruence] | tauto].
    - assert (Hin : has (Array_from_Set (selection ++ [item])) item = true).
      { apply has_spec, Array_from_Set_In, in_or_app. right. now left. }
      rewrite Hin. rewrite Array_from_Set_In, without_In, Array_from_Set_In, in_app_iff.
      simpl.
      assert (Hno : ~ In item selection) by (intros H; apply has_spec in H; congruence).
      split; [intros [[H|[H|[]]] Hne]; [assumption | congruence] |].
      intros H. split; [now left|]. intros ->. contradiction. }
  split; [exact Hmem|]. split.
  - intros E.
    assert (Hno : ~ In item selection) by (intros H; apply has_spec in H; congruence).
    unfold TableFilters.handleToggleType. cbv zeta. simpl. fold selection. rewrite E.
    assert (Hnd' : NoDup (selection ++ [item])).
    { apply NoDup_app; [assumption | repeat constructor; intros [] |].
      intros a Ha [<-|[]]. contradiction. }
    rewrite (Array_from_Set_fixed _ Hnd').
    assert (Hin : has (selection ++ [item]) item = true)
      by (apply has_spec, in_or_app; right; now left).
    rewrite Hin, without_app_last by assumption.
    now apply Array_from_Set_fixed.
  - unfold TableFilters.rows. apply tableRows_ext; [exact Hmem|].
    intros x. unfold TableFilters.handleToggleType. cbv zeta. simpl. tauto.
Qed.

(** X16.  The "All" check box and the filter agree on a duplicate-free
    selection, which is what the reducer stores: [isAllSelected] compares
    the length of the selection and the filter compares the size of its
    set, and both are the same number. *)
Theorem isAllSelected_agrees (payload : list string)
    (filters : GovernanceSlice.GovernanceFilters) :
  (NoDup (GovernanceSlice.selectedTypes filters) ->
   TableFilters.isAllSelected filters
   = GovernanceTable.allTypesSelected (GovernanceSlice.selectedTypes filters))
  /\ TableFilters.isAllSelected (GovernanceSlice.setSelectedTypes payload filters)
     = GovernanceTable.allTypesSelected
         (GovernanceSlice.selectedTypes (GovernanceSlice.setSelectedTypes payload filters)).
Proof.
  assert (H : forall l : list string, NoDup l -> List.length l = Set_size l).
  { intros l Hl. unfold Set_size. now rewrite nodup_fixed_point. }
  split.
  - intros Hnd. unfold TableFilters.isAllSelected, GovernanceTable.allTypesSelected.
    now rewrite (H _ Hnd).
  - unfold TableFilters.isAllSelected, GovernanceTable.allTypesSelected. simpl.
    now rewrite (H _ (Array_from_Set_NoDup payload)).
Qed.

End Selections.


Lemma handleToggle_flips_witness :
  "Other" <> "Treasury"
  /\ has (GovernanceSlice.selectedTypes
            (TableFilters.handleToggleType "Treasury" GovernanceSlice.initialFilters))
         "Other"
     = has (GovernanceSlice.selectedTypes GovernanceSlice.initialFilters) "Other".
Proof.
  assert (H : "Other" <> "Treasury") by discriminate.
  split; [exact H|].
  exact (proj1 (proj2 (proj1 (handleToggle_flips "Treasury" GovernanceSlice.initialFilters)))
           "Other" H).
Defined.

Lemma handleToggleType_twice_witness :
  NoDup (GovernanceSlice.selectedTypes GovernanceSlice.initialFilters)
  /\ TableFilters.rows Spec.exampleActions
       (TableFilters.handleToggleType "Treasury"
          (TableFilters.handleToggleType "Treasury" GovernanceSlice.initialFilters)) ""
     = TableFilters.rows Spec.exampleActions GovernanceSlice.initialFilters "".
Proof.
  assert (H : NoDup (GovernanceSlice.selectedTypes GovernanceSlice.initialFilters))
    by (repeat constructor; simpl; intuition discriminate).
  split; [exact H|].
  exact (proj2 (proj2 (handleToggleType_twice "Treasury" GovernanceSlice.initialFilters
                         Spec.exampleActions "" H))).
Defined.

Lemma isAllSelected_agrees_witness :
  NoDup (GovernanceSlice.selectedTypes GovernanceSlice.initialFilters)
  /\ TableFilters.isAllSelected GovernanceSlice.initialFilters
     = GovernanceTable.allTypesSelected
         (GovernanceSlice.selectedTypes GovernanceSlice.initialFilters).
Proof.
  assert (H : NoDup (GovernanceSlice.selectedTypes GovernanceSlice.initialFilters))
    by (repeat constructor; simpl; intuition discriminate).
  split; [exact H|].
  exact (proj1 (isAllSelected_agrees [] GovernanceSlice.initialFilters) H).
Defined.

Example handleToggleType_example :
  GovernanceSlice.selectedTypes
    (TableFilters.handleToggleType "Treasury" GovernanceSlice.initialFilters)
  = [ "NoConfidence"; "UpdateCommittee"; "NewConstitution"; "HardForkInitiation";
      "ParameterChange"; "InfoAction" ].
Proof. reflexivity. Qed.

(* ================================================================== *)
(** * The detail page: preview and export name *)
(* ================================================================== *)

Section Preview.

Lemma length_substring_0 (n : nat) (s : string) :
  String.length (substring 0 n s) = Nat.min n (String.length s).
Proof.
  revert s. induction n as [|n IH]; intros s.
  - now destruct s.
  - destruct s as [|c s]; [reflexivity|]. simpl. now rewrite IH.
Qed.

Lemma length_append (s t : string) :
  String.length (s ++ t) = (String.length s + String.length t)%nat.
Proof. induction s as [|c s IH]; simpl; [reflexivity | now rewrite IH]. Qed.

Lemma substring_0_prefix (n : nat) (s : string) :
  exists rest, s = substring 0 n s ++ rest.
Proof.
  revert s. induction n as [|n IH]; intros s.
  - exists s. now destruct s.
  - destruct s as [|c s]; [now exists ""|].
    destruct (IH s) as [rest Hr]. exists rest. simpl. now rewrite <- Hr.
Qed.

(** X17.  There is a preview exactly when the action has a description
    that is not empty.  The preview is never longer than 203
    characters: a description of at most 200 characters is shown whole
    and not marked as truncated; a longer one is cut to its first 200
    characters followed by "...", and the full text is kept beside
    it. *)
Theorem descriptionPreview_bounded (selectedAction : option Api.GovernanceActionDetail) :
  (GovernanceDetail.descriptionPreview selectedAction = None
   <-> falsy_str (opt_field selectedAction Api.description) = true)
  /\ (forall p,
         GovernanceDetail.descriptionPreview selectedAction = Some p ->
         opt_field selectedAction Api.description = Some (GovernanceDetail.full p)
         /\ (String.length (GovernanceDetail.preview p) <= 203)%nat
         /\ (GovernanceDetail.shouldTruncate p = false ->
             GovernanceDetail.preview p = GovernanceDetail.full p
             /\ (String.length (GovernanceDetail.full p) <= 200)%nat)
         /\ (GovernanceDetail.shouldTruncate p = true ->
             (200 < String.length (GovernanceDetail.full p))%nat
             /\ String.length (GovernanceDetail.preview p) = 203%nat
             /\ exists rest,
                  GovernanceDetail.full p
                  = substring 0 200 (GovernanceDetail.full p) ++ rest
                  /\ GovernanceDetail.preview p
                     = substring 0 200 (GovernanceDetail.full p) ++ "...")).
Proof.
  unfold GovernanceDetail.descriptionPreview. cbv zeta.
  destruct (opt_field selectedAction Api.description) as [[|c d]|] eqn:E.
  - split; [split; reflexivity | discriminate].
  - change (falsy_str (Some (String c d))) with false. cbv iota.
    change (nullish (Some (String c d)) "") with (String c d).
    remember (String c d) as desc eqn:Ed. clear Ed.
    split; [split; discriminate|].
    intros p Hp. injection Hp as <-.
    cbn [GovernanceDetail.full GovernanceDetail.preview GovernanceDetail.shouldTruncate].
    split; [reflexivity|].
    destruct (Nat.ltb 200 (String.length desc)) eqn:L.
    + apply Nat.ltb_lt in L.
      assert (Hlen : String.length (substring 0 200 desc ++ "...") = 203%nat).
      { rewrite length_append, length_substring_0.
        change (String.length "...") with 3%nat. lia. }
      split; [rewrite Hlen; lia|]. split; [discriminate|].
      intros _. split; [exact L|]. split; [exact Hlen|].
      destruct (substring_0_prefix 200 desc) as [rest Hr].
      exists rest. now split.
    + apply Nat.ltb_ge in L.
      split; [lia|]. split; [|discriminate].
      intros _. now split.
  - split; [split; reflexivity | discriminate].
Qed.

Lemma sanitized_char (c : ascii) :
  Spec.safeChar (lower_char (if GovernanceDetail.isAlnum c then c else "_"%char)) = true
  /\ (Spec.safeChar c = true ->
      lower_char (if GovernanceDetail.isAlnum c then c else "_"%char) = c).
Proof.
  destruct c as [[] [] [] [] [] [] [] []]; split; intros; try reflexivity; discriminate.
Qed.

(** X18.  The title part of an exported file name is safe and as long
    as the title: every character of [sanitizedTitle] is a digit, a
    small letter or "_"; a title that is already of that shape is left
    as it is, so sanitizing twice changes nothing. *)
Theorem sanitizedTitle_safe (title : string) :
  String.length (GovernanceDetail.sanitizedTitle title) = String.length title
  /\ Spec.allChars Spec.safeChar (GovernanceDetail.sanitizedTitle title) = true
  /\ (Spec.allChars Spec.safeChar title = true ->
      GovernanceDetail.sanitizedTitle title = title)
  /\ GovernanceDetail.sanitizedTitle (GovernanceDetail.sanitizedTitle title)
     = GovernanceDetail.sanitizedTitle title.
Proof.
  assert (H1 : forall t, String.length (GovernanceDetail.sanitizedTitle t) = String.length t).
  { induction t as [|c t IH]; [reflexivity|].
    unfold GovernanceDetail.sanitizedTitle in *. simpl. now rewrite IH. }
  assert (H2 : forall t, Spec.allChars Spec.safeChar (GovernanceDetail.sanitizedTitle t) = true).
  { induction t as [|c t IH]; [reflexivity|].
    unfold GovernanceDetail.sanitizedTitle in *. cbn [GovernanceDetail.replaceNonAlnum
      toLowerCase Spec.allChars].
    now rewrite (proj1 (sanitized_char c)), IH. }
  assert (H3 : forall t, Spec.allChars Spec.safeChar t = true ->
                         GovernanceDetail.sanitizedTitle t = t).
  { induction t as [|c t IH]; [reflexivity|].
    cbn [Spec.allChars]. intros H. apply andb_prop in H. destruct H as [Hc Ht].
    unfold GovernanceDetail.sanitizedTitle in *. cbn [GovernanceDetail.replaceNonAlnum
      toLowerCase].
    now rewrite (proj2 (sanitized_char c) Hc), (IH Ht). }
  split; [apply H1|]. split; [apply H2|]. split; [apply H3|]. apply H3, H2.
Qed.

End Preview.

Lemma descriptionPreview_bounded_witness :
  GovernanceDetail.descriptionPreview (Some (Spec.describedAction (Some "A short text")))
  = Some (GovernanceDetail.mkDescriptionPreview "A short text" "A short text" false)
  /\ (String.length "A short text" <= 203)%nat.
Proof.
  assert (H : GovernanceDetail.descriptionPreview
                (Some (Spec.describedAction (Some "A short text")))
              = Some (GovernanceDetail.mkDescriptionPreview "A short text" "A short text"
                        false))
    by reflexivity.
  split; [exact H|].
  exact (proj1 (proj2 (proj2 (descriptionPreview_bounded
                                (Some (Spec.describedAction (Some "A short text")))) _ H))).
Defined.

Lemma sanitizedTitle_safe_witness :
  Spec.allChars Spec.safeChar "budget_2025" = true
  /\ GovernanceDetail.sanitizedTitle "budget_2025" = "budget_2025".
Proof.
  assert (H : Spec.allChars Spec.safeChar "budget_2025" = true) by reflexivity.
  split; [exact H|].
  exact (proj1 (proj2 (proj2 (sanitizedTitle_safe "budget_2025"))) H).
Defined.

Example sanitizedTitle_example :
  GovernanceDetail.exportTarget GovernanceDetail.markdown "Fund: Treasury Audit (2025)!"
    "2025-06-01"
  = ("voting-rationales-fund__treasury_audit__2025__-2025-06-01.md", "text/markdown").
Proof. reflexivity. Qed.

(* ================================================================== *)
(** * The detail page: abstain statistics *)
(* ================================================================== *)

Section Stats.

Variable add : jsnum -> jsnum -> jsnum.
Variable div : jsnum -> jsnum -> jsnum.
Variable mul : jsnum -> jsnum -> jsnum.

Local Abbreviation addPower := (fun sum v => add sum (Spec.votePower v)).

Lemma nonNegativePower_filter (p : Api.VoteRecord -> bool) (votes : list Api.VoteRecord) :
  Spec.nonNegativePower votes -> Spec.nonNegativePower (filter p votes).
Proof.
  induction 1 as [|v l Hv Hl IH]; simpl; [constructor|].
  destruct (p v); [now constructor | assumption].
Qed.

Lemma votePower_nonneg (v : Api.VoteRecord) :
  (0 <= nullish (Api.votingPowerAda v) 0)%Q ->
  (0 <= GovernanceDetail.or_zero (Api.votingPowerAda v))%Q.
Proof. intros H. now rewrite or_zero_nullish. Qed.

(** A sum of powers that are not negative does not fall below where it
    starts. *)
Lemma sumFrom_grows (votes : list Api.VoteRecord) (s : jsnum) :
  Spec.addGrows add -> Spec.nonNegativePower votes ->
  jsle (Finite 0) s = true -> jsle s (fold_left addPower votes s) = true.
Proof.
  intros Hadd Hnn. revert s. induction Hnn as [|v l Hv Hl IH]; intros s Hs; simpl.
  - now apply jsle_refl with (Finite 0).
  - pose proof (Hadd s _ Hs (votePower_nonneg v Hv)) as Hstep.
    apply jsle_trans with (add s (Spec.votePower v)); [exact Hstep|].
    apply IH. now apply jsle_trans with s.
Qed.

(** The sum over a part of the votes does not exceed the sum over all
    of them. *)
Lemma sumFrom_filter (p : Api.VoteRecord -> bool) (votes : list Api.VoteRecord)
    (a t : jsnum) :
  Spec.addGrows add -> Spec.addMonotone add -> Spec.nonNegativePower votes ->
  jsle (Finite 0) a = true -> jsle a t = true ->
  jsle (fold_left addPower (filter p votes) a) (fold_left addPower votes t) = true.
Proof.
  intros Hadd Hmono Hnn. revert a t.
  induction Hnn as [|v l Hv Hl IH]; intros a t Ha Hat; simpl; [exact Hat|].
  pose proof (votePower_nonneg v Hv) as Hp.
  assert (Ht : jsle (Finite 0) t = true) by now apply jsle_trans with a.
  destruct (p v); simpl.
  - apply IH.
    + apply jsle_trans with a; [exact Ha | now apply Hadd].
    + now apply Hmono.
  - apply IH; [exact Ha|].
    apply jsle_trans with t; [exact Hat | now apply Hadd].
Qed.

Lemma sumFrom_zero (votes : list Api.VoteRecord) :
  add (Finite 0) (Finite 0) = Finite 0 ->
  Forall (fun v => Spec.votePower v = Finite 0) votes ->
  fold_left addPower votes (Finite 0) = Finite 0.
Proof.
  intros H0. induction 1 as [|v l Hv Hl IH]; simpl; [reflexivity|].
  now rewrite Hv, H0.
Qed.

Lemma abstainStatsOf_zero (role : string) (allVotes : list Api.VoteRecord) :
  GovernanceDetail.sumPower add (Spec.votesOfRole role allVotes) = Finite 0 ->
  GovernanceDetail.abstainStatsOf add div mul role allVotes = Spec.zeroStats.
Proof.
  intros H. unfold GovernanceDetail.abstainStatsOf. cbv zeta.
  fold (Spec.votesOfRole role allVotes). now rewrite H.
Qed.

Lemma abstainStatsOf_bounds (role : string) (allVotes : list Api.VoteRecord) :
  Spec.addGrows add -> Spec.addMonotone add -> Spec.divUnit div -> Spec.mulPercent mul ->
  Spec.nonNegativePower allVotes ->
  isFinite (GovernanceDetail.sumPower add (Spec.votesOfRole role allVotes)) = true ->
  Spec.withinBounds (GovernanceDetail.sumPower add (Spec.votesOfRole role allVotes))
                    (GovernanceDetail.abstainStatsOf add div mul role allVotes).
Proof.
  intros Hadd Hmono Hdiv Hmul Hnn Hfin.
  unfold GovernanceDetail.abstainStatsOf. cbv zeta.
  fold (Spec.votesOfRole role allVotes).
  set (roleVotes := Spec.votesOfRole role allVotes) in *.
  assert (Hrole : Spec.nonNegativePower roleVotes)
    by (apply nonNegativePower_filter; exact Hnn).
  assert (Hzero : jsle (Finite 0) (Finite 0) = true) by reflexivity.
  pose proof (sumFrom_grows roleVotes (Finite 0) Hadd Hrole Hzero) as Htotal.
  pose proof (sumFrom_grows _ (Finite 0) Hadd
                (nonNegativePower_filter (fun v => String.eqb (Api.vote v) "Abstain")
                   roleVotes Hrole) Hzero) as Habs.
  pose proof (sumFrom_filter (fun v => String.eqb (Api.vote v) "Abstain") roleVotes
                (Finite 0) (Finite 0) Hadd Hmono Hrole Hzero Hzero) as Hle.
  change (fold_left (fun sum v => add sum (Spec.votePower v)) roleVotes (Finite 0))
    with (GovernanceDetail.sumPower add roleVotes) in Htotal, Hle.
  change (fold_left (fun sum v => add sum (Spec.votePower v))
                    (filter (fun v => String.eqb (Api.vote v) "Abstain") roleVotes)
                    (Finite 0))
    with (GovernanceDetail.sumPower add
            (filter (fun v => String.eqb (Api.vote v) "Abstain") roleVotes)) in Habs, Hle.
  destruct (GovernanceDetail.sumPower add roleVotes) as [t| | |] eqn:Et; try discriminate.
  unfold Spec.withinBounds.
  destruct (jsle (Finite t) (Finite 0)) eqn:E; simpl GovernanceDetail.percent;
    simpl GovernanceDetail.power.
  - repeat split; try reflexivity. exact Htotal.
  - assert (Ht : (0 < t)%Q).
    { apply Qnot_le_lt. intros H. apply Qle_bool_iff in H. simpl in E. congruence. }
    destruct (Hdiv _ t Habs Hle Ht) as [D0 D1].
    destruct (Hmul _ D0 D1) as [M0 M1].
    repeat split; assumption.
Qed.

(** X19.  The abstain statistics of DReps and of SPOs.  A role without
    votes, or whose votes all have no power, gets 0 and 0 rather than a
    division by zero.  When no vote has a negative power and the total
    power of the role is a finite number, the percentage lies between 0
    and 100 and the abstain power between 0 and the total, by the order
    facts of binary64 arithmetic; a total that overflows is left out,
    the percentage being [NaN] when the abstain power overflows too. *)
Theorem abstainStats_bounds (allVotes : list Api.VoteRecord) :
  let drep := GovernanceDetail.drepAbstainStats add div mul allVotes in
  let spo := GovernanceDetail.spoAbstainStats add div mul allVotes in
  let drepTotal := GovernanceDetail.sumPower add (Spec.votesOfRole "DRep" allVotes) in
  let spoTotal := GovernanceDetail.sumPower add (Spec.votesOfRole "SPO" allVotes) in
  (Spec.votesOfRole "DRep" allVotes = [] -> drep = Spec.zeroStats)
  /\ (Spec.votesOfRole "SPO" allVotes = [] -> spo = Spec.zeroStats)
  /\ (add (Finite 0) (Finite 0) = Finite 0 ->
      (Spec.noPower "DRep" allVotes -> drep = Spec.zeroStats)
      /\ (Spec.noPower "SPO" allVotes -> spo = Spec.zeroStats))
  /\ (Spec.addGrows add -> Spec.addMonotone add ->
      Spec.divUnit div -> Spec.mulPercent mul ->
      Spec.nonNegativePower allVotes ->
      (isFinite drepTotal = true -> Spec.withinBounds drepTotal drep)
      /\ (isFinite spoTotal = true -> Spec.withinBounds spoTotal spo)).
Proof.
  cbv zeta. unfold GovernanceDetail.drepAbstainStats, GovernanceDetail.spoAbstainStats.
  split; [|split; [|split]].
  - intros H. apply abstainStatsOf_zero. now rewrite H.
  - intros H. apply abstainStatsOf_zero. now rewrite H.
  - intros H0. split; intros H; apply abstainStatsOf_zero;
      apply (sumFrom_zero _ H0 H).
  - intros Hadd Hmono Hdiv Hmul Hnn.
    split; intros Hfin; now apply abstainStatsOf_bounds.
Qed.

End Stats.

Section CommitteeStats.

Variable deriveCcAbstainCount : Z -> Z -> option Q -> option Q -> Q -> option Z.

Lemma three_kinds (votes : list Api.VoteRecord) :
  (List.length (filter (fun v => String.eqb (Api.vote v) "Yes") votes)
   + List.length (filter (fun v => String.eqb (Api.vote v) "No") votes)
   + List.length (filter (fun v => String.eqb (Api.vote v) "Abstain") votes)
   <= List.length votes)%nat
  /\ (Forall (fun v => Api.vote v = "Yes" \/ Api.vote v = "No" \/ Api.vote v = "Abstain") votes ->
      (List.length (filter (fun v => String.eqb (Api.vote v) "Yes") votes)
       + List.length (filter (fun v => String.eqb (Api.vote v) "No") votes)
       + List.length (filter (fun v => String.eqb (Api.vote v) "Abstain") votes)
       = List.length votes)%nat).
Proof.
  induction votes as [|v l [IH1 IH2]]; [split; [apply Nat.le_refl | reflexivity]|].
  cbn [filter].
  destruct (String.eqb_spec (Api.vote v) "Yes") as [E1|E1];
    destruct (String.eqb_spec (Api.vote v) "No") as [E2|E2];
    destruct (String.eqb_spec (Api.vote v) "Abstain") as [E3|E3];
    try (rewrite E1 in E2; discriminate);
    try (rewrite E1 in E3; discriminate);
    try (rewrite E2 in E3; discriminate);
    cbn [List.length]; (split; [lia|]);
    intros H; inversion H as [|? ? Hv Hl]; subst; specialize (IH2 Hl);
    try lia.
  destruct Hv as [Hv|[Hv|Hv]]; contradiction.
Qed.

(** X20.  When the committee has cast votes, its statistics come from
    the votes alone: the yes, no and abstain counts never add up to
    more than the number of committee votes, and to exactly that number
    when every vote is "Yes", "No" or "Abstain"; the abstain percentage
    lies between 0 and 100. *)
Theorem ccAbstainStats_counts (action : Api.GovernanceActionDetail) :
  Spec.ccVotesOf action <> [] ->
  let stats := GovernanceDetail.ccAbstainStats deriveCcAbstainCount (Some action) in
  GovernanceDetail.cc_yesCount stats + GovernanceDetail.cc_noCount stats
  + GovernanceDetail.cc_count stats
  <= Z.of_nat (List.length (Spec.ccVotesOf action))
  /\ (Forall (fun v => Api.vote v = "Yes" \/ Api.vote v = "No" \/ Api.vote v = "Abstain")
             (Spec.ccVotesOf action) ->
      GovernanceDetail.cc_yesCount stats + GovernanceDetail.cc_noCount stats
      + GovernanceDetail.cc_count stats
      = Z.of_nat (List.length (Spec.ccVotesOf action)))
  /\ (0 <= GovernanceDetail.cc_percent stats)%Q
  /\ (GovernanceDetail.cc_percent stats <= 100 # 1)%Q.
Proof.
  intros Hne. cbv zeta. unfold GovernanceDetail.ccAbstainStats. cbv zeta.
  fold (Spec.ccVotesOf action).
  set (ccVotes := Spec.ccVotesOf action) in *.
  destruct (Nat.eqb (List.length ccVotes) 0) eqn:El.
  { apply Nat.eqb_eq, length_zero_iff_nil in El. contradiction. }
  apply Nat.eqb_neq in El.
  cbn [GovernanceDetail.cc_yesCount GovernanceDetail.cc_noCount GovernanceDetail.cc_count
         GovernanceDetail.cc_percent].
  destruct (three_kinds ccVotes) as [Hle Heq].
  set (y := List.length (filter (fun v => String.eqb (Api.vote v) "Yes") ccVotes)) in *.
  set (n := List.length (filter (fun v => String.eqb (Api.vote v) "No") ccVotes)) in *.
  set (a := List.length (filter (fun v => String.eqb (Api.vote v) "Abstain") ccVotes)) in *.
  split; [lia|]. split; [intros H; specialize (Heq H); lia|].
  assert (Hn : (0 < inject_Z (Z.of_nat (List.length ccVotes)))%Q).
  { unfold Qlt. simpl. lia. }
  assert (Ha0 : (0 <= inject_Z (Z.of_nat a))%Q) by (unfold Qle; simpl; lia).
  assert (Ha1 : (inject_Z (Z.of_nat a) <= inject_Z (Z.of_nat (List.length ccVotes)))%Q).
  { unfold Qle. simpl. lia. }
  assert (Hdiv0 : (0 <= inject_Z (Z.of_nat a) / inject_Z (Z.of_nat (List.length ccVotes)))%Q).
  { apply Qle_shift_div_l; [assumption|]. now rewrite Qmult_0_l. }
  assert (Hdiv1 : (inject_Z (Z.of_nat a) / inject_Z (Z.of_nat (List.length ccVotes)) <= 1)%Q).
  { apply Qle_shift_div_r; [assumption|]. now rewrite Qmult_1_l. }
  split.
  - rewrite <- (Qmult_0_l (100 # 1)). apply Qmult_le_compat_r; [assumption | discriminate].
  - setoid_replace (100 # 1)%Q with (1 * (100 # 1))%Q at 2 by ring.
    apply Qmult_le_compat_r; [assumption | discriminate].
Qed.

End CommitteeStats.

(** The statistics of the three votes of the examples, with sums,
    quotients and products that need no rounding: the DRep votes are
    Yes and No, the SPO vote is an abstention. *)
Lemma abstainStats_bounds_witness :
  (Spec.addGrows jsadd /\ Spec.addMonotone jsadd
   /\ Spec.divUnit jsdiv /\ Spec.mulPercent jsmul)
  /\ Spec.nonNegativePower Spec.threeVotes
  /\ isFinite (GovernanceDetail.sumPower jsadd (Spec.votesOfRole "SPO" Spec.threeVotes))
     = true
  /\ Spec.withinBounds
       (GovernanceDetail.sumPower jsadd (Spec.votesOfRole "SPO" Spec.threeVotes))
       (GovernanceDetail.spoAbstainStats jsadd jsdiv jsmul Spec.threeVotes).
Proof.
  assert (H : Spec.nonNegativePower Spec.threeVotes) by (repeat constructor; discriminate).
  assert (F : isFinite (GovernanceDetail.sumPower jsadd
                          (Spec.votesOfRole "SPO" Spec.threeVotes)) = true)
    by reflexivity.
  split.
  { split; [exact jsadd_grows|]. split; [exact jsadd_monotone|].
    split; [exact jsdiv_unit | exact jsmul_percent]. }
  split; [exact H|]. split; [exact F|].
  exact (proj2 (proj2 (proj2 (proj2 (abstainStats_bounds jsadd jsdiv jsmul Spec.threeVotes)))
                  jsadd_grows jsadd_monotone jsdiv_unit jsmul_percent H) F).
Defined.

Example abstainStats_three_votes :
  GovernanceDetail.power (GovernanceDetail.drepAbstainStats jsadd jsdiv jsmul Spec.threeVotes)
  = Finite 0
  /\ jsle (GovernanceDetail.percent
             (GovernanceDetail.drepAbstainStats jsadd jsdiv jsmul Spec.threeVotes))
          (Finite 0) = true
  /\ jsle (Finite (100 # 1))
          (GovernanceDetail.percent
             (GovernanceDetail.spoAbstainStats jsadd jsdiv jsmul Spec.threeVotes)) = true.
Proof. repeat split. Qed.

Lemma ccAbstainStats_counts_witness :
  Spec.ccVotesOf (Spec.votedAction Spec.threeVotes Spec.committeeVotes) <> []
  /\ GovernanceDetail.cc_yesCount
       (GovernanceDetail.ccAbstainStats (fun _ _ _ _ _ => None)
          (Some (Spec.votedAction Spec.threeVotes Spec.committeeVotes)))
     + GovernanceDetail.cc_noCount
         (GovernanceDetail.ccAbstainStats (fun _ _ _ _ _ => None)
            (Some (Spec.votedAction Spec.threeVotes Spec.committeeVotes)))
     + GovernanceDetail.cc_count
         (GovernanceDetail.ccAbstainStats (fun _ _ _ _ _ => None)
            (Some (Spec.votedAction Spec.threeVotes Spec.committeeVotes)))
     <= 3.
Proof.
  assert (H : Spec.ccVotesOf (Spec.votedAction Spec.threeVotes Spec.committeeVotes) <> [])
    by discriminate.
  split; [exact H|].
  exact (proj1 (ccAbstainStats_counts (fun _ _ _ _ _ => None)
                  (Spec.votedAction Spec.threeVotes Spec.committeeVotes) H)).
Defined.

Example ccAbstainStats_example :
  let stats :=
    GovernanceDetail.ccAbstainStats (fun _ _ _ _ _ => None)
      (Some (Spec.votedAction Spec.threeVotes Spec.committeeVotes)) in
  (GovernanceDetail.cc_yesCount stats, GovernanceDetail.cc_noCount stats,
   GovernanceDetail.cc_count stats)
  = (1, 0, 1).
Proof. reflexivity. Qed.

(* ================================================================== *)
(** * More on role eligibility and proposal hashes *)
(* ================================================================== *)

Section RolesMore.

Lemma onList_app (ids ids' : list string) (hash : string) :
  GovernanceDetail.onList (ids ++ ids') hash
  = GovernanceDetail.onList ids hash || GovernanceDetail.onList ids' hash.
Proof. unfold GovernanceDetail.onList. apply existsb_app. Qed.

Lemma spo_list_in_drep_list (hash : string) :
  GovernanceDetail.onList GovernanceDetail.LEGACY_NON_APPLICABLE_SPO_ACTIONS hash = true ->
  GovernanceDetail.onList GovernanceDetail.LEGACY_NON_APPLICABLE_DREP_ACTIONS hash = true.
Proof.
  rewrite !onList_spec. intros [x [Hx Hm]]. exists x. split; [|assumption].
  unfold GovernanceDetail.LEGACY_NON_APPLICABLE_SPO_ACTIONS in Hx.
  unfold GovernanceDetail.LEGACY_NON_APPLICABLE_DREP_ACTIONS.
  simpl in *. tauto.
Qed.

Lemma isLegacyAction_drep (hash : string) :
  GovernanceDetail.isLegacyAction hash
  = GovernanceDetail.onList GovernanceDetail.LEGACY_NON_APPLICABLE_DREP_ACTIONS hash.
Proof.
  unfold GovernanceDetail.isLegacyAction. cbv zeta. rewrite !onList_app.
  change (GovernanceDetail.onList GovernanceDetail.LEGACY_NON_APPLICABLE_CC_ACTIONS hash)
    with false.
  rewrite orb_false_r.
  destruct (GovernanceDetail.onList GovernanceDetail.LEGACY_NON_APPLICABLE_SPO_ACTIONS hash)
    eqn:E; [|apply orb_false_r].
  now rewrite (spo_list_in_drep_list hash E).
Qed.

(** X21.  The type sets are spelled as labels, the proposal types as
    keys: for an action whose type is one of the seven keys of the
    showcase list, no type set applies; [isCcNotApplicable] is false
    and [isSpoNotApplicable] holds exactly when the action is on the
    legacy list of SPOs. *)
Theorem type_keys_match_no_type_set (action : Api.GovernanceActionDetail) :
  In (Api.type (Api.base action)) GovernanceTable.SHOWCASE_ORDER ->
  GovernanceDetail.isCcNotApplicable action = false
  /\ (GovernanceDetail.isSpoNotApplicable action = true
      <-> Spec.onSpoLegacyList (Api.hash (Api.base action))).
Proof.
  intros Hty.
  assert (Hcc : has GovernanceDetail.CC_NOT_APPLICABLE_TYPES (Api.type (Api.base action))
                = false).
  { unfold GovernanceTable.SHOWCASE_ORDER in Hty. simpl in Hty.
    repeat (destruct Hty as [<-|Hty]; [reflexivity|]). contradiction. }
  assert (Hspo : has GovernanceDetail.SPO_NOT_APPLICABLE_TYPES (Api.type (Api.base action))
                 = false).
  { unfold GovernanceTable.SHOWCASE_ORDER in Hty. simpl in Hty.
    repeat (destruct Hty as [<-|Hty]; [reflexivity|]). contradiction. }
  unfold GovernanceDetail.isCcNotApplicable, GovernanceDetail.isSpoNotApplicable,
    Spec.onSpoLegacyList.
  cbv zeta. rewrite Hcc, Hspo, <- onList_spec.
  change (GovernanceDetail.onList GovernanceDetail.LEGACY_NON_APPLICABLE_CC_ACTIONS
            (Api.hash (Api.base action))) with false.
  split.
  - now destruct (GovernanceDetail.isLegacyAction _).
  - destruct (GovernanceDetail.onList GovernanceDetail.LEGACY_NON_APPLICABLE_SPO_ACTIONS _).
    + tauto.
    + destruct (GovernanceDetail.isLegacyAction _); simpl; split; discriminate.
Qed.

(** X22.  Being a legacy action is the same as DRep being not
    applicable.  For a legacy action the type is not looked at: the
    committee is never marked not applicable, and SPOs are exactly when
    the action is on their own legacy list, whatever the type says; an
    action on the SPO list is on the DRep list too. *)
Theorem legacy_ignores_type (action : Api.GovernanceActionDetail) :
  (GovernanceDetail.isDrepNotApplicable action = true
   <-> Spec.onLegacyList (Api.hash (Api.base action)))
  /\ (Spec.onLegacyList (Api.hash (Api.base action)) ->
      GovernanceDetail.isCcNotApplicable action = false
      /\ (GovernanceDetail.isSpoNotApplicable action = true
          <-> Spec.onSpoLegacyList (Api.hash (Api.base action))))
  /\ (Spec.onSpoLegacyList (Api.hash (Api.base action)) ->
      GovernanceDetail.isDrepNotApplicable action = true).
Proof.
  assert (Hd : GovernanceDetail.isDrepNotApplicable action
               = GovernanceDetail.isLegacyAction (Api.hash (Api.base action))).
  { rewrite isLegacyAction_drep. unfold GovernanceDetail.isDrepNotApplicable. cbv zeta.
    now destruct (GovernanceDetail.onList _ _). }
  split; [rewrite Hd; apply isLegacyAction_spec|].
  split.
  - intros HL. apply isLegacyAction_spec in HL.
    unfold GovernanceDetail.isCcNotApplicable, GovernanceDetail.isSpoNotApplicable,
      Spec.onSpoLegacyList.
    cbv zeta. rewrite HL, <- onList_spec.
    change (GovernanceDetail.onList GovernanceDetail.LEGACY_NON_APPLICABLE_CC_ACTIONS
              (Api.hash (Api.base action))) with false.
    split; [reflexivity|].
    destruct (GovernanceDetail.onList GovernanceDetail.LEGACY_NON_APPLICABLE_SPO_ACTIONS _);
      simpl; [tauto | split; discriminate].
  - intros HS. unfold Spec.onSpoLegacyList in HS. rewrite <- onList_spec in HS.
    unfold GovernanceDetail.isDrepNotApplicable. cbv zeta.
    now rewrite (spo_list_in_drep_list _ HS).
Qed.

Lemma firstSegment_split (sep : ascii) (s : string) :
  includes_char s sep = true ->
  s = Spec.firstSegment sep s ++ String sep (Spec.afterFirst sep s)
  /\ includes_char (Spec.firstSegment sep s) sep = false.
Proof.
  induction s as [|c s IH]; [discriminate|].
  simpl. destruct (Ascii.eqb c sep) eqn:E.
  - intros _. apply Ascii.eqb_eq in E. subst c. now split.
  - simpl. intros H. destruct (IH H) as [H1 H2]. rewrite E. simpl.
    split; [now rewrite <- H1 | assumption].
Qed.

(** X23.  What [parseProposalHash] returns is read off the hash: the
    transaction hash is not empty and is the part of the hash in front
    of the first ":" (or, failing that reading, the first "#"), so it
    never contains that separator, and the index is the integer at the
    start of the text behind it. *)
Theorem parseProposalHash_result (hash txHash : string) (certIndex : Z) :
  GovernanceDetail.parseProposalHash hash = Some (txHash, certIndex) ->
  txHash <> ""
  /\ exists sep rest,
       (sep = ":"%char \/ sep = "#"%char)
       /\ hash = txHash ++ String sep rest
       /\ includes_char txHash sep = false
       /\ parseInt10 (Spec.firstSegment sep rest) = Some certIndex.
Proof.
  rewrite parseProposalHash_readAs.
  assert (H : forall sep, Spec.readAs sep hash = Some (txHash, certIndex) ->
                          txHash <> ""
                          /\ exists rest,
                               hash = txHash ++ String sep rest
                               /\ includes_char txHash sep = false
                               /\ parseInt10 (Spec.firstSegment sep rest) = Some certIndex).
  { intros sep. unfold Spec.readAs.
    destruct (includes_char hash sep) eqn:Ei; [|discriminate].
    destruct (is_empty (Spec.firstSegment sep hash)) eqn:Ee; [discriminate|].
    destruct (parseInt10 _) as [n|] eqn:En; [|discriminate].
    intros Hr. injection Hr as <- <-.
    destruct (firstSegment_split sep hash Ei) as [H1 H2].
    split; [intros E0; rewrite E0 in Ee; discriminate|].
    exists (Spec.afterFirst sep hash). now repeat split. }
  destruct (Spec.readAs ":" hash) as [r|] eqn:E1.
  - intros Hr. injection Hr as ->. destruct (H ":"%char E1) as [Hne [rest Hrest]].
    split; [assumption|]. exists ":"%char, rest. tauto.
  - intros E2. destruct (H "#"%char E2) as [Hne [rest Hrest]].
    split; [assumption|]. exists "#"%char, rest. tauto.
Qed.

End RolesMore.

Lemma type_keys_match_no_type_set_witness :
  In (Api.type (Api.base (Spec.detailOf "ab12:0" "NoConfidence")))
     GovernanceTable.SHOWCASE_ORDER
  /\ GovernanceDetail.isCcNotApplicable (Spec.detailOf "ab12:0" "NoConfidence") = false.
Proof.
  assert (H : In (Api.type (Api.base (Spec.detailOf "ab12:0" "NoConfidence")))
                 GovernanceTable.SHOWCASE_ORDER) by (left; reflexivity).
  split; [exact H|].
  exact (proj1 (type_keys_match_no_type_set (Spec.detailOf "ab12:0" "NoConfidence") H)).
Defined.

(** The third legacy action with the type label of a treasury
    withdrawal: SPOs are not marked not applicable. *)
Lemma legacy_ignores_type_witness :
  Spec.onLegacyList Spec.legacyPvv5
  /\ GovernanceDetail.isCcNotApplicable (Spec.detailOf Spec.legacyPvv5 "No Confidence")
     = false
  /\ GovernanceDetail.isSpoNotApplicable
       (Spec.detailOf Spec.legacyPvv5 "Treasury Withdrawals") = false.
Proof.
  assert (H : Spec.onLegacyList Spec.legacyPvv5).
  { exists Spec.legacyPvv5. split; [|now left]. simpl. tauto. }
  split; [exact H|].
  split; [|reflexivity].
  exact (proj1 (proj1 (proj2 (legacy_ignores_type
                                (Spec.detailOf Spec.legacyPvv5 "No Confidence"))) H)).
Defined.

Lemma parseProposalHash_result_witness :
  GovernanceDetail.parseProposalHash "ab12:3" = Some ("ab12", 3)
  /\ "ab12" <> "".
Proof.
  assert (H : GovernanceDetail.parseProposalHash "ab12:3" = Some ("ab12", 3)) by reflexivity.
  split; [exact H|].
  exact (proj1 (parseProposalHash_result "ab12:3" "ab12" 3 H)).
Defined.

(* ================================================================== *)
(** * The timeline of normalized votes *)
(* ================================================================== *)

Section TimelineNormalized.

Variable Number : string -> jsnum.
Variable newDate : string -> GovernanceDetail.Date.
Variable toLocaleString : Z -> string.
Variable arraySort : ArraySort GovernanceDetail.DatedVote.
Variable add : jsnum -> jsnum -> jsnum.

Hypothesis sort_reads : Spec.readsThroughComparator arraySort.

Lemma mapi_from_normalized i (votes : list Api.VoteRecord) :
  mapi_from i (GovernanceDetail.withDate newDate) (map Api.transformVoteRecord votes)
  = map Spec.normalizeDated (mapi_from i (GovernanceDetail.withDate newDate) votes).
Proof.
  revert i. induction votes as [|v l IH]; intros i; [reflexivity|].
  simpl. now rewrite IH.
Qed.

Lemma or_zero_normalized (v : Api.VoteRecord) :
  GovernanceDetail.or_zero (Api.votingPowerAda (Api.transformVoteRecord v))
  = GovernanceDetail.or_zero (Api.votingPowerAda v).
Proof. simpl. now destruct (Api.votingPowerAda v). Qed.

Lemma walk_normalized t i (l : list GovernanceDetail.DatedVote) :
  GovernanceDetail.walk toLocaleString add t i (map Spec.normalizeDated l)
  = GovernanceDetail.walk toLocaleString add t i l.
Proof.
  revert t i. induction l as [|v l IH]; intros t i; [reflexivity|].
  cbn [map GovernanceDetail.walk]. cbv zeta.
  assert (Ha : GovernanceDetail.accumulate add t (Spec.normalizeDated v)
               = GovernanceDetail.accumulate add t v).
  { unfold GovernanceDetail.accumulate. cbv zeta.
    change (GovernanceDetail.record (Spec.normalizeDated v))
      with (Api.transformVoteRecord (GovernanceDetail.record v)).
    rewrite or_zero_normalized. reflexivity. }
  rewrite Ha, IH. reflexivity.
Qed.

Lemma roleFilteredVotes_normalized (votes : list Api.VoteRecord)
    (curveRoleFilter : GovernanceDetail.RoleFilter) :
  GovernanceDetail.roleFilteredVotes (map Api.transformVoteRecord votes) curveRoleFilter
  = map Api.transformVoteRecord (GovernanceDetail.roleFilteredVotes votes curveRoleFilter).
Proof.
  destruct curveRoleFilter as [|r]; [reflexivity|]. simpl.
  induction votes as [|v l IH]; [reflexivity|].
  simpl. destruct (String.eqb (Api.voterType v) r); simpl; now rewrite IH.
Qed.

Lemma allVotes_normalized (detail : Api.GovernanceActionDetail) :
  GovernanceDetail.allVotes (Some (Api.transformGovernanceActionDetail Number detail))
  = map Api.transformVoteRecord (GovernanceDetail.allVotes (Some detail)).
Proof.
  unfold GovernanceDetail.allVotes, Api.transformGovernanceActionDetail. simpl.
  rewrite map_app. now destruct (Api.votes detail), (Api.ccVotes detail).
Qed.

(** X24.  Normalizing the vote records does not change the timeline:
    the chart drawn from the votes of a normalized detail record is the
    chart of the raw votes, point for point, for every role filter and
    for every sort that reads the votes through the comparator only. *)
Theorem voteTimelineData_of_normalized (detail : Api.GovernanceActionDetail)
    (curveRoleFilter : GovernanceDetail.RoleFilter) :
  GovernanceDetail.voteTimelineData newDate toLocaleString arraySort add
    (GovernanceDetail.allVotes (Some (Api.transformGovernanceActionDetail Number detail)))
    curveRoleFilter
  = GovernanceDetail.voteTimelineData newDate toLocaleString arraySort add
      (GovernanceDetail.allVotes (Some detail)) curveRoleFilter.
Proof.
  rewrite allVotes_normalized. unfold GovernanceDetail.voteTimelineData. cbv zeta.
  rewrite roleFilteredVotes_normalized, length_map.
  destruct (Nat.eqb _ 0); [reflexivity|].
  unfold GovernanceDetail.votesWithDates, mapi.
  rewrite mapi_from_normalized, sort_reads by reflexivity.
  apply walk_normalized.
Qed.

End TimelineNormalized.

Section TimelinePositions.

Variable newDate : string -> GovernanceDetail.Date.
Variable toLocaleString : Z -> string.
Variable arraySort : ArraySort GovernanceDetail.DatedVote.
Variable add : jsnum -> jsnum -> jsnum.

Hypothesis sort_rearranges : Spec.rearranges arraySort.

Lemma accumulate_one (t : GovernanceDetail.Totals) (v : GovernanceDetail.DatedVote) :
  GovernanceDetail.t_yesCount (GovernanceDetail.accumulate add t v)
  + GovernanceDetail.t_noCount (GovernanceDetail.accumulate add t v)
  + GovernanceDetail.t_abstainCount (GovernanceDetail.accumulate add t v)
  = GovernanceDetail.t_yesCount t + GovernanceDetail.t_noCount t
    + GovernanceDetail.t_abstainCount t + 1.
Proof.
  unfold GovernanceDetail.accumulate. cbv zeta.
  destruct (String.eqb (Api.vote (GovernanceDetail.record v)) "Yes"); [simpl; lia|].
  destruct (String.eqb (Api.vote (GovernanceDetail.record v)) "No"); simpl; lia.
Qed.

Lemma walk_positions (l : list GovernanceDetail.DatedVote) :
  forall t i k p,
    nth_error (GovernanceDetail.walk toLocaleString add t i l) k = Some p ->
    GovernanceDetail.yesCount p + GovernanceDetail.noCount p + GovernanceDetail.abstainCount p
    = GovernanceDetail.t_yesCount t + GovernanceDetail.t_noCount t
      + GovernanceDetail.t_abstainCount t + Z.of_nat k + 1.
Proof.
  induction l as [|v l IH]; intros t i k p H.
  - destruct k; discriminate.
  - cbn [GovernanceDetail.walk] in H. cbv zeta in H. destruct k as [|k].
    + injection H as <-. simpl. rewrite accumulate_one. lia.
    + simpl in H. rewrite (IH _ _ _ _ H), accumulate_one. lia.
Qed.

(** X25.  Every vote moves exactly one of the three counts: at the
    point in position k of the timeline (counted from 0) the yes, no
    and abstain counts add up to k + 1, and the timeline has no point
    beyond the number of role-filtered votes, the sort rearranging the
    array. *)
Theorem voteTimelineData_positions (allVotes : list Api.VoteRecord)
    (curveRoleFilter : GovernanceDetail.RoleFilter) (k : nat)
    (p : GovernanceDetail.TimelinePoint) :
  nth_error (GovernanceDetail.voteTimelineData newDate toLocaleString arraySort add
               allVotes curveRoleFilter)
            k = Some p ->
  GovernanceDetail.yesCount p + GovernanceDetail.noCount p + GovernanceDetail.abstainCount p
  = Z.of_nat k + 1
  /\ (k < List.length (GovernanceDetail.roleFilteredVotes allVotes curveRoleFilter))%nat.
Proof.
  intros H. split.
  - rewrite voteTimelineData_walk in H by exact sort_rearranges.
    rewrite (walk_positions _ _ _ _ _ H). simpl. lia.
  - assert (Hk : (k < List.length (GovernanceDetail.voteTimelineData newDate toLocaleString
                                     arraySort add allVotes curveRoleFilter))%nat)
      by (apply nth_error_Some; congruence).
    rewrite voteTimelineData_walk, walk_length in Hk by exact sort_rearranges.
    rewrite <- (Permutation_length (votesWithDates_perm newDate arraySort sort_rearranges _)),
      length_map.
    exact Hk.
Qed.

End TimelinePositions.

Section ToggleAll.

(** X26.  Unchecking "All" empties the table for every query, and
    checking it selects every proposal type: the check box then shows
    as checked and the filter takes its all-types branch. *)
Theorem handleToggleAll_rows (filters : GovernanceSlice.GovernanceFilters)
    (actions : list Api.GovernanceAction) (searchQuery : string) :
  TableFilters.rows actions (TableFilters.handleToggleAll false filters) searchQuery
  = GovernanceTable.Ok []
  /\ GovernanceSlice.selectedTypes (TableFilters.handleToggleAll true filters)
     = GovernanceTable.PROPOSAL_TYPES
  /\ TableFilters.isAllSelected (TableFilters.handleToggleAll true filters) = true
  /\ GovernanceTable.allTypesSelected
       (GovernanceSlice.selectedTypes (TableFilters.handleToggleAll true filters)) = true
  /\ GovernanceSlice.selectedStatuses (TableFilters.handleToggleAll false filters)
     = GovernanceSlice.selectedStatuses filters.
Proof.
  split.
  - unfold TableFilters.rows, TableFilters.handleToggleAll. simpl.
    rewrite tableRows_curated. unfold Spec.curated. simpl. apply applySearch_nil.
  - repeat split.
Qed.

End ToggleAll.

(** The statement at the three votes of the examples, with the
    insertion sort and sums that need no rounding. *)
Lemma voteTimelineData_of_normalized_witness :
  Spec.readsThroughComparator (@insertionSort GovernanceDetail.DatedVote)
  /\ GovernanceDetail.voteTimelineData GovernanceDetail.millisDate
       GovernanceDetail.millisLabel insertionSort jsadd
       (GovernanceDetail.allVotes
          (Some (Api.transformGovernanceActionDetail Api.decimalNumber
                   (Spec.votedAction Spec.threeVotes Spec.committeeVotes))))
       GovernanceDetail.All
     = GovernanceDetail.voteTimelineData GovernanceDetail.millisDate
         GovernanceDetail.millisLabel insertionSort jsadd
         (GovernanceDetail.allVotes
            (Some (Spec.votedAction Spec.threeVotes Spec.committeeVotes)))
         GovernanceDetail.All.
Proof.
  split; [exact insertionSort_reads|].
  exact (voteTimelineData_of_normalized Api.decimalNumber GovernanceDetail.millisDate
           GovernanceDetail.millisLabel insertionSort jsadd
           insertionSort_reads
           (Spec.votedAction Spec.threeVotes Spec.committeeVotes) GovernanceDetail.All).
Defined.

Lemma voteTimelineData_positions_witness :
  Spec.rearranges (@insertionSort GovernanceDetail.DatedVote)
  /\ nth_error (GovernanceDetail.voteTimelineData GovernanceDetail.millisDate
                  GovernanceDetail.millisLabel insertionSort jsadd Spec.threeVotes
                  GovernanceDetail.All) 1
     = Some (GovernanceDetail.mkTimelinePoint "t=3000" 1 0 1
               (Finite (10 # 1)) (Finite (0 # 1)) (Finite (2 # 1)))
  /\ 1 + 0 + 1 = Z.of_nat 1 + 1.
Proof.
  assert (H : nth_error (GovernanceDetail.voteTimelineData GovernanceDetail.millisDate
                           GovernanceDetail.millisLabel insertionSort jsadd Spec.threeVotes
                           GovernanceDetail.All) 1
              = Some (GovernanceDetail.mkTimelinePoint "t=3000" 1 0 1
                        (Finite (10 # 1)) (Finite (0 # 1)) (Finite (2 # 1))))
    by reflexivity.
  split; [exact insertionSort_rearranges|].
  split; [exact H|].
  exact (proj1 (voteTimelineData_positions GovernanceDetail.millisDate
                  GovernanceDetail.millisLabel insertionSort jsadd
                  insertionSort_rearranges Spec.threeVotes GovernanceDetail.All 1 _ H)).
Defined.
